(** * webrtcwebsink: the WebRTCWebSink element of [webrtcwebsink/plugin.py]

    A shallow embedding of the [WebRTCWebSink] GStreamer bin: encoder
    selection ([find_best_encoder]), the per-client branch builder
    ([create_webrtcbin]) and the state-change handler ([do_change_state])
    with the two server helpers it drives.

    GStreamer itself is an external collaborator.  The part of it the sink
    manipulates (the children of the bin, the request pads of the tee, the
    links between them) is kept as explicit state; what GStreamer decides on
    its own (whether a factory can instantiate an element, whether a pad is
    granted, whether two pads can be linked, whether an element owns a
    property) is supplied from outside, call by call. *)

From Equations Require Import Equations.
From stdpp Require Import gmap strings list fin_maps.
From Stdlib Require Import ZArith Ascii String Lia.

Local Open Scope string_scope.
Local Open Scope Z_scope.

(** ** Python strings *)

Module PyStr.

(** [needle in haystack] on [str]. *)
Fixpoint contains (needle haystack : string) : bool :=
  if String.prefix needle haystack then true
  else match haystack with
       | EmptyString => false
       | String _ rest => contains needle rest
       end.

Definition lower_ascii (c : ascii) : ascii :=
  let n := nat_of_ascii c in
  if (Nat.leb 65 n && Nat.leb n 90)%bool then ascii_of_nat (n + 32) else c.

(** [s.lower()], on the ASCII range. *)
Fixpoint lower (s : string) : string :=
  match s with
  | EmptyString => EmptyString
  | String c rest => String (lower_ascii c) (lower rest)
  end.

(** Truth value of an [Optional[str]]: [None] and [''] are falsy. *)
Definition truthy (o : option string) : bool :=
  match o with
  | Some s => negb (String.eqb s "")
  | None => false
  end.

(** [f'{client_id}'] for a client id that is [None] or a [str]. *)
Definition format (o : option string) : string :=
  match o with
  | Some s => s
  | None => "None"
  end.

End PyStr.

(** ** The GStreamer registry, as far as [find_best_encoder] reads it *)

Inductive PadDirection := PAD_UNKNOWN | PAD_SRC | PAD_SINK.

(** Caps are either ANY or a list of media types.  The targets the sink
    builds with [Gst.Caps.from_string] carry a media type and no field, so
    intersection is decided by the media types alone. *)
Inductive Caps :=
| CapsAny
| CapsOf (media_types : list string).

Definition caps_from_string (s : string) : Caps := CapsOf [s].

Definition can_intersect (a b : Caps) : bool :=
  match a, b with
  | CapsAny, CapsAny => true
  | CapsAny, CapsOf l | CapsOf l, CapsAny => negb (bool_decide (l = []))
  | CapsOf l1, CapsOf l2 => existsb (fun m => existsb (String.eqb m) l2) l1
  end.

Record PadTemplate := {
  direction : PadDirection;
  template_caps : Caps
}.

Record Factory := {
  factory_name : string;          (* factory.get_name() *)
  klass : string;                 (* factory.get_metadata('klass') *)
  rank : Z;                       (* factory.get_rank() *)
  static_pad_templates : list PadTemplate
}.

(** [registry.get_feature_list(Gst.ElementFactory)], in enumeration order. *)
Definition Registry := list Factory.

Definition PadDirection_eqb (a b : PadDirection) : bool :=
  match a, b with
  | PAD_UNKNOWN, PAD_UNKNOWN | PAD_SRC, PAD_SRC | PAD_SINK, PAD_SINK => true
  | _, _ => false
  end.

(** ** [find_best_encoder] *)

(** The two dictionaries of [find_best_encoder]. *)
Definition codec_caps (codec_name : string) : option string :=
  if String.eqb codec_name "vp8" then Some "video/x-vp8"
  else if String.eqb codec_name "h264" then Some "video/x-h264"
  else if String.eqb codec_name "vp9" then Some "video/x-vp9"
  else if String.eqb codec_name "av1" then Some "video/x-av1"
  else None.

Definition payloader_map (codec_name : string) : option string :=
  if String.eqb codec_name "vp8" then Some "rtpvp8pay"
  else if String.eqb codec_name "h264" then Some "rtph264pay"
  else if String.eqb codec_name "vp9" then Some "rtpvp9pay"
  else if String.eqb codec_name "av1" then Some "rtpav1pay"
  else None.

(** The inner [for template in ...: if ...: append; break]: the factory is
    kept when some SRC template intersects the target. *)
Definition produces (target : Caps) (f : Factory) : bool :=
  existsb (fun t => PadDirection_eqb (direction t) PAD_SRC
                    && can_intersect (template_caps t) target)
          (static_pad_templates f).

Definition is_encoder (f : Factory) : bool :=
  (PyStr.contains "encoder" (factory_name f) || PyStr.contains "enc" (factory_name f))
  && PyStr.contains "encoder" (PyStr.lower (klass f)).

(** The list [encoder_factories] before it is sorted. *)
Definition encoder_factories (reg : Registry) (target : Caps) : list Factory :=
  List.filter (fun f => is_encoder f && produces target f) reg.

(** [list.sort(key=lambda x: x.get_rank(), reverse=True)]: a stable sort,
    highest rank first, equal ranks kept in their original order. *)
Fixpoint insert_by_rank (x : Factory) (l : list Factory) : list Factory :=
  match l with
  | [] => [x]
  | y :: l' => if rank y <=? rank x then x :: y :: l' else y :: insert_by_rank x l'
  end.

Definition sort_by_rank (l : list Factory) : list Factory :=
  foldr insert_by_rank [] l.

(** [logger.error] calls are kept: they mark the exits taken. *)
Definition Log := list string.

Definition fallback_measure (codec_name : string) : nat :=
  if decide (codec_name = "vp8") then 0%nat else 1%nat.

Equations? find_best_encoder (reg : Registry) (codec_name : string)
  : Log * (option string * option string)
  by wf (fallback_measure codec_name) lt :=
  find_best_encoder reg codec_name with codec_caps codec_name => {
    | None =>
        (["Unsupported codec: " ++ codec_name ++ ", falling back to vp8"], (None, None));
    | Some caps_string
        with sort_by_rank (encoder_factories reg (caps_from_string caps_string)) => {
        | [] with decide (codec_name = "vp8") => {
            | left _ =>
                (["No encoder found for codec " ++ codec_name ++ ", falling back to vp8"],
                 (None, None));
            | right Hne =>
                let '(log, r) := find_best_encoder reg "vp8" in
                (("No encoder found for codec " ++ codec_name ++ ", falling back to vp8")
                   :: log, r) };
        | best_encoder :: _ =>
            ([], (Some (factory_name best_encoder), payloader_map codec_name)) } }.
Proof.
  unfold fallback_measure. destruct (decide (codec_name = "vp8")); [done|].
  destruct (decide ("vp8" = "vp8")); [lia|done].
Qed.

(** ** The sink object and the part of GStreamer it manipulates *)

(** An element created with [name=None] gets a name GStreamer generates
    ("queue7", "webrtcbin3"), unique in the process and never of the form
    [encoder-...], [payloader-...], [convert] or [tee]. *)
Inductive ElementName :=
| AutoName (serial : nat)
| GivenName (s : string).

Record Element := {
  eid : nat;                      (* identity of the Python object *)
  efactory : string;
  ename : ElementName
}.

Definition ElementName_eqb (a b : ElementName) : bool :=
  match a, b with
  | AutoName n, AutoName m => Nat.eqb n m
  | GivenName s, GivenName t => String.eqb s t
  | _, _ => false
  end.

Inductive PadLinkReturn :=
| LINK_OK | LINK_WRONG_HIERARCHY | LINK_WAS_LINKED | LINK_WRONG_DIRECTION
| LINK_NOFORMAT | LINK_NOSCHED | LINK_REFUSED.

Definition is_LINK_OK (r : PadLinkReturn) : bool :=
  match r with LINK_OK => true | _ => false end.

Inductive StateChange :=
| NULL_TO_READY | READY_TO_PAUSED | PAUSED_TO_PLAYING
| PLAYING_TO_PAUSED | PAUSED_TO_READY | READY_TO_NULL.

Inductive StateChangeReturn := FAILURE | SUCCESS | ASYNC | NO_PREROLL.

Inductive PropValue := VStr (s : string) | VInt (z : Z) | VBool (b : bool).

(** Every call that leaves the sink, newest first in [trace]. *)
Inductive Event :=
| EvMake (factory : string) (name : option string) (made : option nat)
| EvSetProperty (target : nat) (prop : string) (value : PropValue) (ok : bool)
| EvSetStateNull (target : nat)
| EvSyncState (target : nat)
| EvAdd (e : nat) (added : bool)
| EvRemove (e : nat) (removed : bool)
| EvRequestPad (granted : option nat)
| EvReleasePad (pad : nat)
| EvPadLink (pad target : nat) (ret : PadLinkReturn)
| EvPadUnlink (pad target : nat)
| EvLink (src dst : nat) (ok : bool)
| EvAddProbe (target : nat)
| EvLogError (msg : string)
| EvBind (address : string) (port : Z) (ok : bool)
| EvHttpServe
| EvSignalingStart (address : string) (port : Z) (ok : bool)
| EvHttpShutdown
| EvSignalingStop
| EvParentChangeState (transition : StateChange) (ret : StateChangeReturn).

(** The [Gst.Bin] side of [self]: its children, the request pads handed out
    by [self.tee], and the links.  A link is a pair of identities: a tee
    request pad or an element on the left, an element on the right. *)
Record Graph := {
  children : list Element;
  tee_src_pads : list nat;
  links : list (nat * nat);
  next_id : nat
}.

Record Sink := {
  (* properties *)
  port : Z;
  ws_port : Z;
  bind_address : string;
  stun_server : string;
  video_codec : string;
  (* state *)
  http_server : option (string * Z);
  http_thread : bool;
  signaling : option (string * Z);
  signaling_thread : bool;
  convert : Element;
  tee : Element;
  servers_started : bool;
  client_codecs : gmap string string;
  (* Gst.Bin and the world around it *)
  bin : Graph;
  trace : list Event
}.

Definition set_bin (f : Graph -> Graph) (s : Sink) : Sink :=
  {| port := port s; ws_port := ws_port s; bind_address := bind_address s;
     stun_server := stun_server s; video_codec := video_codec s;
     http_server := http_server s; http_thread := http_thread s;
     signaling := signaling s; signaling_thread := signaling_thread s;
     convert := convert s; tee := tee s; servers_started := servers_started s;
     client_codecs := client_codecs s; bin := f (bin s); trace := trace s |}.

Definition set_trace (f : list Event -> list Event) (s : Sink) : Sink :=
  {| port := port s; ws_port := ws_port s; bind_address := bind_address s;
     stun_server := stun_server s; video_codec := video_codec s;
     http_server := http_server s; http_thread := http_thread s;
     signaling := signaling s; signaling_thread := signaling_thread s;
     convert := convert s; tee := tee s; servers_started := servers_started s;
     client_codecs := client_codecs s; bin := bin s; trace := f (trace s) |}.

Definition set_client_codecs (f : gmap string string -> gmap string string) (s : Sink) : Sink :=
  {| port := port s; ws_port := ws_port s; bind_address := bind_address s;
     stun_server := stun_server s; video_codec := video_codec s;
     http_server := http_server s; http_thread := http_thread s;
     signaling := signaling s; signaling_thread := signaling_thread s;
     convert := convert s; tee := tee s; servers_started := servers_started s;
     client_codecs := f (client_codecs s); bin := bin s; trace := trace s |}.

Definition set_servers_started (b : bool) (s : Sink) : Sink :=
  {| port := port s; ws_port := ws_port s; bind_address := bind_address s;
     stun_server := stun_server s; video_codec := video_codec s;
     http_server := http_server s; http_thread := http_thread s;
     signaling := signaling s; signaling_thread := signaling_thread s;
     convert := convert s; tee := tee s; servers_started := b;
     client_codecs := client_codecs s; bin := bin s; trace := trace s |}.

Definition set_http (srv : option (string * Z)) (thread : bool) (s : Sink) : Sink :=
  {| port := port s; ws_port := ws_port s; bind_address := bind_address s;
     stun_server := stun_server s; video_codec := video_codec s;
     http_server := srv; http_thread := thread;
     signaling := signaling s; signaling_thread := signaling_thread s;
     convert := convert s; tee := tee s; servers_started := servers_started s;
     client_codecs := client_codecs s; bin := bin s; trace := trace s |}.

Definition set_signaling (srv : option (string * Z)) (thread : bool) (s : Sink) : Sink :=
  {| port := port s; ws_port := ws_port s; bind_address := bind_address s;
     stun_server := stun_server s; video_codec := video_codec s;
     http_server := http_server s; http_thread := http_thread s;
     signaling := srv; signaling_thread := thread;
     convert := convert s; tee := tee s; servers_started := servers_started s;
     client_codecs := client_codecs s; bin := bin s; trace := trace s |}.

Definition set_port (v : Z) (s : Sink) : Sink :=
  {| port := v; ws_port := ws_port s; bind_address := bind_address s;
     stun_server := stun_server s; video_codec := video_codec s;
     http_server := http_server s; http_thread := http_thread s;
     signaling := signaling s; signaling_thread := signaling_thread s;
     convert := convert s; tee := tee s; servers_started := servers_started s;
     client_codecs := client_codecs s; bin := bin s; trace := trace s |}.

Definition set_ws_port (v : Z) (s : Sink) : Sink :=
  {| port := port s; ws_port := v; bind_address := bind_address s;
     stun_server := stun_server s; video_codec := video_codec s;
     http_server := http_server s; http_thread := http_thread s;
     signaling := signaling s; signaling_thread := signaling_thread s;
     convert := convert s; tee := tee s; servers_started := servers_started s;
     client_codecs := client_codecs s; bin := bin s; trace := trace s |}.

Definition set_bind_address (v : string) (s : Sink) : Sink :=
  {| port := port s; ws_port := ws_port s; bind_address := v;
     stun_server := stun_server s; video_codec := video_codec s;
     http_server := http_server s; http_thread := http_thread s;
     signaling := signaling s; signaling_thread := signaling_thread s;
     convert := convert s; tee := tee s; servers_started := servers_started s;
     client_codecs := client_codecs s; bin := bin s; trace := trace s |}.

Definition set_stun_server (v : string) (s : Sink) : Sink :=
  {| port := port s; ws_port := ws_port s; bind_address := bind_address s;
     stun_server := v; video_codec := video_codec s;
     http_server := http_server s; http_thread := http_thread s;
     signaling := signaling s; signaling_thread := signaling_thread s;
     convert := convert s; tee := tee s; servers_started := servers_started s;
     client_codecs := client_codecs s; bin := bin s; trace := trace s |}.

Definition set_video_codec (v : string) (s : Sink) : Sink :=
  {| port := port s; ws_port := ws_port s; bind_address := bind_address s;
     stun_server := stun_server s; video_codec := v;
     http_server := http_server s; http_thread := http_thread s;
     signaling := signaling s; signaling_thread := signaling_thread s;
     convert := convert s; tee := tee s; servers_started := servers_started s;
     client_codecs := client_codecs s; bin := bin s; trace := trace s |}.

(** ** Statements that read and write [self] and may raise *)

Inductive Exn :=
| AttributeError            (* attribute access on [None] *)
| TypeError                 (* [set_property] on a property the object lacks *)
| OSError                   (* socket errors *)
| Exception (msg : string).

Inductive Res (A : Type) :=
| Ok (a : A)
| Raise (e : Exn).
Arguments Ok {A} a.
Arguments Raise {A} e.

Definition M (A : Type) : Type := Sink -> Res A * Sink.

Definition ret {A} (a : A) : M A := fun s => (Ok a, s).

Definition bind {A B} (c : M A) (k : A -> M B) : M B :=
  fun s => match c s with
           | (Ok a, s') => k a s'
           | (Raise e, s') => (Raise e, s')
           end.

Definition raise {A} (e : Exn) : M A := fun s => (Raise e, s).

(** [try: c except Exception as e: h e]. *)
Definition try_except {A} (c : M A) (h : Exn -> M A) : M A :=
  fun s => match c s with
           | (Ok a, s') => (Ok a, s')
           | (Raise e, s') => h e s'
           end.

Definition gets {A} (f : Sink -> A) : M A := fun s => (Ok (f s), s).
Definition modify (f : Sink -> Sink) : M unit := fun s => (Ok tt, f s).
Definition emit (e : Event) : M unit := modify (set_trace (cons e)).

Notation "x <- c ;; k" := (bind c (fun x => k))
  (at level 100, c at next level, right associativity).
Notation "c ;;; k" := (bind c (fun _ => k))
  (at level 100, right associativity).

Definition log_error (msg : string) : M unit := emit (EvLogError msg).

Fixpoint log_errors (msgs : Log) : M unit :=
  match msgs with
  | [] => ret tt
  | m :: rest => log_error m ;;; log_errors rest
  end.

(** ** GStreamer calls *)

(** What GStreamer answers, fixed for a process: the registry snapshot and
    which properties the elements of a factory own. *)
Record Env := {
  registry : Registry;
  has_property : string -> string -> bool
}.

(** What GStreamer answers to the calls of one [create_webrtcbin] run whose
    result the code tests. *)
Record Outcomes := {
  webrtcbin_made : bool;
  encoder_made : bool;
  payloader_made : bool;
  queue_made : bool;
  pad_granted : bool;
  tee_queue_ret : PadLinkReturn;
  queue_encoder_linkable : bool;
  encoder_payloader_linkable : bool;
  payloader_webrtcbin_linkable : bool
}.

Definition name_in_use (g : Graph) (n : ElementName) : bool :=
  existsb (fun c => ElementName_eqb (ename c) n) (children g).

Definition name_taken (g : Graph) (e : Element) : bool := name_in_use g (ename e).

Definition is_child (g : Graph) (e : Element) : bool :=
  existsb (fun c => Nat.eqb (eid c) (eid e)) (children g).

Definition graph_fresh (g : Graph) : Graph :=
  {| children := children g; tee_src_pads := tee_src_pads g;
     links := links g; next_id := S (next_id g) |}.

(** [gst_bin_add] refuses an element whose name is already used by a child
    of the bin ("Name '...' is not unique in bin, not adding") and leaves
    the bin as it is. *)
Definition graph_add (e : Element) (g : Graph) : Graph :=
  {| children := if name_taken g e then children g else children g ++ [e];
     tee_src_pads := tee_src_pads g;
     links := links g; next_id := next_id g |}.

Definition touches (i : nat) (l : nat * nat) : bool :=
  Nat.eqb (fst l) i || Nat.eqb (snd l) i.

(** [gst_bin_remove] does nothing for an element that is not a child;
    removing a child unlinks its pads. *)
Definition graph_remove (e : Element) (g : Graph) : Graph :=
  {| children := List.filter (fun c => negb (Nat.eqb (eid c) (eid e))) (children g);
     tee_src_pads := tee_src_pads g;
     links := if is_child g e
              then List.filter (fun l => negb (touches (eid e) l)) (links g)
              else links g;
     next_id := next_id g |}.

Definition graph_add_pad (p : nat) (g : Graph) : Graph :=
  {| children := children g; tee_src_pads := tee_src_pads g ++ [p];
     links := links g; next_id := next_id g |}.

(** Releasing a request pad removes it from the tee and unlinks it. *)
Definition graph_release_pad (p : nat) (g : Graph) : Graph :=
  {| children := children g;
     tee_src_pads := List.filter (fun q => negb (Nat.eqb q p)) (tee_src_pads g);
     links := List.filter (fun l => negb (Nat.eqb (fst l) p)) (links g);
     next_id := next_id g |}.

Definition graph_link (ok : bool) (a b : nat) (g : Graph) : Graph :=
  {| children := children g; tee_src_pads := tee_src_pads g;
     links := if ok then links g ++ [(a, b)] else links g;
     next_id := next_id g |}.

Definition graph_unlink (a b : nat) (g : Graph) : Graph :=
  {| children := children g; tee_src_pads := tee_src_pads g;
     links := List.filter (fun l => negb (Nat.eqb (fst l) a && Nat.eqb (snd l) b)) (links g);
     next_id := next_id g |}.

Definition fresh : M nat :=
  n <- gets (fun s => next_id (bin s)) ;;
  modify (set_bin graph_fresh) ;;;
  ret n.

(** [Gst.ElementFactory.make(factory, name)]: an element, or [None]. *)
Definition element_factory_make (made : bool) (factory : string) (name : option string)
  : M (option Element) :=
  if made then
    n <- fresh ;;
    emit (EvMake factory name (Some n)) ;;;
    ret (Some {| eid := n; efactory := factory;
                 ename := match name with
                          | Some s => GivenName s
                          | None => AutoName n
                          end |})
  else
    emit (EvMake factory name None) ;;;
    ret None.

(** [target.set_property(prop, value)].  On [None] the attribute lookup
    raises; on an element without the property PyGObject raises. *)
Definition set_property (env : Env) (target : option Element) (prop : string)
    (value : PropValue) : M unit :=
  match target with
  | None => raise AttributeError
  | Some e =>
      if has_property env (efactory e) prop
      then emit (EvSetProperty (eid e) prop value true)
      else emit (EvSetProperty (eid e) prop value false) ;;; raise TypeError
  end.

(** [e.set_state(Gst.State.NULL)] and [e.sync_state_with_parent()]: the run
    state of an element is not tracked, the calls are recorded. *)
Definition set_state_null (e : Element) : M unit := emit (EvSetStateNull (eid e)).
Definition sync_state_with_parent (e : Element) : M unit := emit (EvSyncState (eid e)).

(** [self.add(e)], with the boolean GStreamer returns. *)
Definition add (e : Element) : M bool :=
  g <- gets bin ;;
  modify (set_bin (graph_add e)) ;;;
  emit (EvAdd (eid e) (negb (name_taken g e))) ;;;
  ret (negb (name_taken g e)).

(** [self.remove(e)], with the boolean GStreamer returns. *)
Definition remove (e : Element) : M bool :=
  g <- gets bin ;;
  modify (set_bin (graph_remove e)) ;;;
  emit (EvRemove (eid e) (is_child g e)) ;;;
  ret (is_child g e).

(** [self.tee.get_request_pad("src_%u")]. *)
Definition get_request_pad (granted : bool) : M (option nat) :=
  if granted then
    p <- fresh ;;
    modify (set_bin (graph_add_pad p)) ;;;
    emit (EvRequestPad (Some p)) ;;;
    ret (Some p)
  else
    emit (EvRequestPad None) ;;; ret None.

Definition release_request_pad (p : nat) : M unit :=
  modify (set_bin (graph_release_pad p)) ;;;
  emit (EvReleasePad p).

(** [tee_src_pad.link(queue_sink_pad)].  GStreamer links two pads only when
    their elements have the same parent: an answer [LINK_OK] stands only
    between children of the bin. *)
Definition pad_link (answer : PadLinkReturn) (p : nat) (target : Element) : M PadLinkReturn :=
  g <- gets bin ;;
  t <- gets tee ;;
  let r := if is_LINK_OK answer && negb (is_child g t && is_child g target)
           then LINK_WRONG_HIERARCHY else answer in
  modify (set_bin (graph_link (is_LINK_OK r) p (eid target))) ;;;
  emit (EvPadLink p (eid target) r) ;;;
  ret r.

Definition pad_unlink (p : nat) (target : Element) : M unit :=
  modify (set_bin (graph_unlink p (eid target))) ;;;
  emit (EvPadUnlink p (eid target)).

(** [a.link(b)]: [gst_element_link] links elements that have been added to
    the same bin, and fails otherwise. *)
Definition link (linkable : bool) (a b : Element) : M bool :=
  g <- gets bin ;;
  let ok := linkable && is_child g a && is_child g b in
  modify (set_bin (graph_link ok (eid a) (eid b))) ;;;
  emit (EvLink (eid a) (eid b) ok) ;;;
  ret ok.

Definition add_probe (e : Element) : M unit := emit (EvAddProbe (eid e)).

(** [find_best_encoder] as a statement: its [logger.error] lines go to the
    trace, oldest first. *)
Definition call_find_best_encoder (env : Env) (codec_name : string)
  : M (option string * option string) :=
  let '(log, r) := find_best_encoder (registry env) codec_name in
  log_errors log ;;; ret r.

(** ** [__init__] and [setup_pipeline] *)

(** The object [__init__] leaves when both elements could be created:
    [convert] and [tee] added to the bin and linked, no tap, no client.  The
    ghost pad of the sink is not part of the model. *)
Definition fresh_sink : Sink :=
  let c := {| eid := 0; efactory := "videoconvert"; ename := GivenName "convert" |} in
  let t := {| eid := 1; efactory := "tee"; ename := GivenName "tee" |} in
  {| port := 8080; ws_port := 8081; bind_address := "0.0.0.0";
     stun_server := "stun://stun.l.google.com:19302";
     video_codec := "vp8";
     http_server := None; http_thread := false;
     signaling := None; signaling_thread := false;
     convert := c; tee := t;
     servers_started := false;
     client_codecs := ∅;
     bin := {| children := [c; t]; tee_src_pads := [];
               links := [(0, 1)]%nat; next_id := 2 |};
     trace := [ EvLink 0 1 true; EvAdd 1 true; EvAdd 0 true;
                EvSetProperty 1 "allow-not-linked" (VBool true) true;
                EvMake "tee" (Some "tee") (Some 1%nat);
                EvMake "videoconvert" (Some "convert") (Some 0%nat) ] |}.

Definition new_sink (convert_made tee_made : bool) : Res Sink :=
  if negb convert_made then Raise (Exception "Could not create videoconvert")
  else if negb tee_made then Raise (Exception "Could not create tee")
  else Ok fresh_sink.

(** ** [create_webrtcbin] *)

(** [f"{ret}"], shortened to the nick of the value. *)
Definition PadLinkReturn_str (r : PadLinkReturn) : string :=
  match r with
  | LINK_OK => "ok" | LINK_WRONG_HIERARCHY => "wrong-hierarchy"
  | LINK_WAS_LINKED => "was-linked" | LINK_WRONG_DIRECTION => "wrong-direction"
  | LINK_NOFORMAT => "noformat" | LINK_NOSCHED => "nosched" | LINK_REFUSED => "refused"
  end.

(** [if not encoder_name or not payloader_name] fails exactly when this is
    [None]. *)
Definition usable (r : option string * option string) : option (string * string) :=
  match r with
  | (Some e, Some p) =>
      if PyStr.truthy (Some e) && PyStr.truthy (Some p) then Some (e, p) else None
  | _ => None
  end.

(** The block under [if codec_to_use == 'h264'] (lines 361-394). *)
Definition configure_h264 (env : Env) (encoder_name : string) (encoder payloader : Element)
  : M unit :=
  try_except
    (if PyStr.contains "x264" encoder_name then
       set_property env (Some encoder) "key-int-max" (VInt 30) ;;;
       set_property env (Some encoder) "bitrate" (VInt 2000)
     else if PyStr.contains "nvh264" encoder_name then
       try_except
         (set_property env (Some encoder) "preset" (VStr "low-latency"))
         (fun _ => set_property env (Some encoder) "rc-mode" (VStr "cbr")) ;;;
       set_property env (Some encoder) "zerolatency" (VBool true)
     else if PyStr.contains "vaapi" encoder_name then
       try_except
         (set_property env (Some encoder) "rate-control" (VStr "cbr") ;;;
          set_property env (Some encoder) "bitrate" (VInt 2000))
         (fun _ => ret tt) ;;;
       set_property env (Some encoder) "keyframe-period" (VInt 30)
     else ret tt)
    (fun _ => ret tt) ;;;
  set_property env (Some payloader) "config-interval" (VInt (-1)) ;;;
  set_property env (Some payloader) "aggregate-mode" (VStr "zero-latency").

(** Lines 244-405 of [create_webrtcbin]: from the creation of the encoder to
    the return of the linked [webrtcbin]. *)
Definition build_branch (env : Env) (o : Outcomes) (client_id : option string)
    (codec_to_use : string) (webrtcbin : Element) (encoder_name payloader_name : string)
  : M (option Element) :=
  encoder <- element_factory_make (encoder_made o) encoder_name
               (Some ("encoder-" ++ PyStr.format client_id)) ;;
  match encoder with
  | None =>
      log_error ("Could not create encoder " ++ encoder_name) ;;;
      set_state_null webrtcbin ;;;
      remove webrtcbin ;;;
      ret None
  | Some encoder =>
  payloader <- element_factory_make (payloader_made o) payloader_name
                 (Some ("payloader-" ++ PyStr.format client_id)) ;;
  match payloader with
  | None =>
      log_error ("Could not create payloader " ++ payloader_name) ;;;
      set_state_null encoder ;;;
      set_state_null webrtcbin ;;;
      remove webrtcbin ;;;
      ret None
  | Some payloader =>
  add webrtcbin ;;;
  queue <- element_factory_make (queue_made o) "queue" None ;;
  set_property env queue "leaky" (VInt 2) ;;;
  match queue with
  | None =>
      log_error "Failed to create queue" ;;;
      set_state_null webrtcbin ;;;
      remove webrtcbin ;;;
      ret None
  | Some queue =>
  add queue ;;;
  add encoder ;;;
  add payloader ;;;
  tee_src_pad <- get_request_pad (pad_granted o) ;;
  match tee_src_pad with
  | None =>
      log_error "Failed to get source pad from tee" ;;;
      set_state_null queue ;;;
      set_state_null webrtcbin ;;;
      remove queue ;;;
      remove encoder ;;;
      remove payloader ;;;
      remove webrtcbin ;;;
      ret None
  | Some tee_src_pad =>
  r <- pad_link (tee_queue_ret o) tee_src_pad queue ;;
  if negb (is_LINK_OK r) then
      log_error ("Failed to link tee to queue: " ++ PadLinkReturn_str r) ;;;
      pad_unlink tee_src_pad queue ;;;
      release_request_pad tee_src_pad ;;;
      set_state_null queue ;;;
      set_state_null webrtcbin ;;;
      remove encoder ;;;
      remove payloader ;;;
      remove queue ;;;
      remove webrtcbin ;;;
      ret None
  else
  linked <- link (queue_encoder_linkable o) queue encoder ;;
  if negb linked then
      log_error "Failed to link queue to encoder" ;;;
      pad_unlink tee_src_pad queue ;;;
      release_request_pad tee_src_pad ;;;
      set_state_null queue ;;;
      set_state_null encoder ;;;
      set_state_null payloader ;;;
      set_state_null webrtcbin ;;;
      remove queue ;;;
      remove encoder ;;;
      remove payloader ;;;
      remove webrtcbin ;;;
      ret None
  else
  linked <- link (encoder_payloader_linkable o) encoder payloader ;;
  if negb linked then
      log_error "Failed to link encoder to payloader" ;;;
      pad_unlink tee_src_pad queue ;;;
      release_request_pad tee_src_pad ;;;
      set_state_null queue ;;;
      set_state_null encoder ;;;
      set_state_null payloader ;;;
      set_state_null webrtcbin ;;;
      remove queue ;;;
      remove encoder ;;;
      remove payloader ;;;
      remove webrtcbin ;;;
      ret None
  else
  linked <- link (payloader_webrtcbin_linkable o) payloader webrtcbin ;;
  if negb linked then
      log_error "Failed to link payloader to webrtcbin" ;;;
      pad_unlink tee_src_pad queue ;;;
      release_request_pad tee_src_pad ;;;
      set_state_null queue ;;;
      set_state_null encoder ;;;
      set_state_null payloader ;;;
      set_state_null webrtcbin ;;;
      remove queue ;;;
      remove encoder ;;;
      remove payloader ;;;
      remove webrtcbin ;;;
      ret None
  else
  sync_state_with_parent queue ;;;
  sync_state_with_parent encoder ;;;
  sync_state_with_parent payloader ;;;
  sync_state_with_parent webrtcbin ;;;
  (if String.eqb codec_to_use "h264"
   then configure_h264 env encoder_name encoder payloader
   else ret tt) ;;;
  add_probe payloader ;;;
  ret (Some webrtcbin)
  end end end end.

(** Lines 209-242, then [build_branch]. *)
Definition create_webrtcbin (env : Env) (o : Outcomes)
    (client_id codec_preference : option string) : M (option Element) :=
  webrtcbin <- element_factory_make (webrtcbin_made o) "webrtcbin" None ;;
  match webrtcbin with
  | None =>
      log_error "Failed to create WebRTCbin" ;;;
      ret None
  | Some webrtcbin =>
  stun <- gets stun_server ;;
  set_property env (Some webrtcbin) "stun-server" (VStr stun) ;;;
  default_codec <- gets video_codec ;;
  codec_to_use <-
    match client_id, codec_preference with
    | Some cid, Some preference =>
        modify (set_client_codecs (insert cid preference)) ;;;
        ret preference
    | _, _ => ret default_codec
    end ;;
  found <- call_find_best_encoder env codec_to_use ;;
  match usable found with
  | Some (encoder_name, payloader_name) =>
      build_branch env o client_id codec_to_use webrtcbin encoder_name payloader_name
  | None =>
      default_codec <- gets video_codec ;;
      found <- call_find_best_encoder env default_codec ;;
      match usable found with
      | Some (encoder_name, payloader_name) =>
          build_branch env o client_id codec_to_use webrtcbin encoder_name payloader_name
      | None =>
          log_error "Could not find any suitable encoder" ;;;
          set_state_null webrtcbin ;;;
          remove webrtcbin ;;;
          ret None
      end
  end
  end.

(** ** [do_set_property] *)

(** GObject hands over a value of the type the property was registered
    with; any other name raises. *)
Definition do_set_property (name : string) (value : PropValue) : M unit :=
  match value with
  | VInt z =>
      if String.eqb name "port" then modify (set_port z)
      else if String.eqb name "ws-port" then modify (set_ws_port z)
      else raise AttributeError
  | VStr v =>
      if String.eqb name "bind-address" then modify (set_bind_address v)
      else if String.eqb name "stun-server" then modify (set_stun_server v)
      else if String.eqb name "video-codec" then modify (set_video_codec v)
      else raise AttributeError
  | VBool _ => raise AttributeError
  end.

(** ** [start_servers], [stop_servers], [do_change_state] *)

(** Where [start_servers] can raise: at the socket ([bind], before any
    attribute is assigned) or when the signaling server is constructed
    (after the HTTP server and its thread are in place). *)
Inductive StartOutcome := StartOK | BindFails | SignalingFails.

Definition start_servers (o : StartOutcome) : M unit :=
  addr <- gets bind_address ;;
  p <- gets port ;;
  match o with
  | BindFails => emit (EvBind addr p false) ;;; raise OSError
  | _ =>
      emit (EvBind addr p true) ;;;
      modify (set_http (Some (addr, p)) true) ;;;
      emit EvHttpServe ;;;
      wp <- gets ws_port ;;
      match o with
      | SignalingFails =>
          emit (EvSignalingStart addr wp false) ;;;
          raise (Exception "SignalingServer")
      | _ =>
          modify (set_signaling (Some (addr, wp)) true) ;;;
          emit (EvSignalingStart addr wp true)
      end
  end.

Definition stop_servers : M unit :=
  h <- gets http_server ;;
  (match h with
   | Some _ => emit EvHttpShutdown ;;; modify (set_http None false)
   | None => ret tt
   end) ;;;
  sg <- gets signaling ;;
  match sg with
  | Some _ => emit EvSignalingStop ;;; modify (set_signaling None false)
  | None => ret tt
  end.

(** [Gst.Bin.do_change_state(self, transition)]: the parent class moves the
    children through the transition and answers; it neither adds nor
    removes children and releases no request pad. *)
Definition parent_do_change_state (answer : StateChangeReturn) (transition : StateChange)
  : M StateChangeReturn :=
  emit (EvParentChangeState transition answer) ;;;
  ret answer.

Definition do_change_state (start : StartOutcome) (parent : StateChangeReturn)
    (transition : StateChange) : M StateChangeReturn :=
  match transition with
  | NULL_TO_READY =>
      started <- gets servers_started ;;
      early <-
        (if negb started then
           try_except
             (start_servers start ;;;
              modify (set_servers_started true) ;;;
              ret None)
             (fun _ =>
                log_error "Failed to start servers" ;;;
                ret (Some FAILURE))
         else ret None) ;;
      match early with
      | Some r => ret r                       (* the [return] inside [except] *)
      | None => parent_do_change_state parent transition
      end
  | READY_TO_NULL =>
      started <- gets servers_started ;;
      (if started then
         stop_servers ;;;
         modify (set_servers_started false)
       else ret tt) ;;;
      parent_do_change_state parent transition
  | _ => parent_do_change_state parent transition
  end.

(** ** Well-formed sinks *)

Global Instance ElementName_eq_dec : EqDecision ElementName.
Proof. solve_decision. Defined.

(** Identities are allocated below [next_id], and GStreamer keeps the names
    of the children of a bin distinct. *)
Definition graph_wf (g : Graph) : Prop :=
  Forall (fun c => (eid c < next_id g)%nat) (children g)
  ∧ Forall (fun p => (p < next_id g)%nat) (tee_src_pads g)
  ∧ Forall (fun l => (fst l < next_id g)%nat ∧ (snd l < next_id g)%nat) (links g)
  ∧ NoDup (map ename (children g)).

Definition sink_wf (s : Sink) : Prop := graph_wf (bin s).

Global Instance graph_wf_dec g : Decision (graph_wf g).
Proof. unfold graph_wf. apply _. Defined.

Global Instance sink_wf_dec s : Decision (sink_wf s).
Proof. unfold sink_wf. apply _. Defined.

(** The number of taps on the distribution point. *)
Definition tap_count (s : Sink) : nat := List.length (tee_src_pads (bin s)).

(** ** What the claims speak about *)

Definition encoder_element_name (client_id : option string) : ElementName :=
  GivenName ("encoder-" ++ PyStr.format client_id).

(** The branches of a client: the children of the bin that carry the name
    of its encoder, [encoder-<client_id>]. *)
Definition branch_count (s : Sink) (client_id : option string) : nat :=
  List.length
    (List.filter (fun c => ElementName_eqb (ename c) (encoder_element_name client_id))
       (children (bin s))).

(** The entry [create_webrtcbin] writes before it resolves an encoder. *)
Definition recorded (client_id codec_preference : option string)
    (cc : gmap string string) : gmap string string :=
  match client_id, codec_preference with
  | Some cid, Some preference => <[cid := preference]> cc
  | _, _ => cc
  end.

(** [codec_to_use]. *)
Definition requested_codec (client_id codec_preference : option string) (s : Sink) : string :=
  match client_id, codec_preference with
  | Some _, Some preference => preference
  | _, _ => video_codec s
  end.

(** The names [build_branch] is called with, if any: those found for
    [codec_to_use], else those found for [self.video_codec]. *)
Definition resolve (env : Env) (codec_to_use default_codec : string) : option (string * string) :=
  match usable (snd (find_best_encoder (registry env) codec_to_use)) with
  | Some names => Some names
  | None => usable (snd (find_best_encoder (registry env) default_codec))
  end.

Definition new_webrtcbin (s : Sink) : Element :=
  {| eid := next_id (bin s); efactory := "webrtcbin"; ename := AutoName (next_id (bin s)) |}.

Definition find_messages (env : Env) (codec_to_use default_codec : string) : Log :=
  match usable (snd (find_best_encoder (registry env) codec_to_use)) with
  | Some _ => fst (find_best_encoder (registry env) codec_to_use)
  | None => (fst (find_best_encoder (registry env) codec_to_use)
             ++ fst (find_best_encoder (registry env) default_codec))%list
  end.

(** The sink when [build_branch] starts: one identity used, the entry
    recorded, and [msgs] logged by [find_best_encoder]. *)
Definition prepared (client_id codec_preference : option string) (msgs : Log) (s : Sink) : Sink :=
  set_trace
    (fun t => rev (map EvLogError msgs)
              ++ EvSetProperty (next_id (bin s)) "stun-server" (VStr (stun_server s)) true
              :: EvMake "webrtcbin" None (Some (next_id (bin s))) :: t)%list
    (set_client_codecs (recorded client_id codec_preference) (set_bin graph_fresh s)).

(** The sink when no encoder could be resolved. *)
Definition unresolved (client_id codec_preference : option string) (msgs : Log) (s : Sink) : Sink :=
  set_trace
    (fun t => EvRemove (next_id (bin s)) (is_child (graph_fresh (bin s)) (new_webrtcbin s))
              :: EvSetStateNull (next_id (bin s))
              :: EvLogError "Could not find any suitable encoder" :: t)
    (set_bin (graph_remove (new_webrtcbin s)) (prepared client_id codec_preference msgs s)).

Definition is_set_property (e : Event) : Prop :=
  match e with EvSetProperty _ _ _ _ => True | _ => False end.

(** The [Gst.ElementFactory.make] calls of a trace, newest first, each with
    its factory and whether an element came back. *)
Fixpoint makes (t : list Event) : list (string * bool) :=
  match t with
  | [] => []
  | EvMake factory _ made :: t' => (factory, bool_decide (is_Some made)) :: makes t'
  | _ :: t' => makes t'
  end.

(** The factories [build_branch] asks, oldest first: the encoder, then the
    payloader, then the queue, each one only after the one before it came
    back. *)
Definition branch_makes (encoder_name payloader_name : string) (new : list (string * bool)) : Prop :=
  new = [(encoder_name, false)]
  ∨ new = [(encoder_name, true); (payloader_name, false)]
  ∨ new = [(encoder_name, true); (payloader_name, true); ("queue", false)]
  ∨ new = [(encoder_name, true); (payloader_name, true); ("queue", true)].

Definition queue_guard_message : string := "Failed to create queue".

(** ** Sequences of calls *)

Record Request := {
  answers : Outcomes;
  client_id : option string;
  codec_preference : option string
}.

(** The signaling server calls [create_webrtcbin] once per request; what a
    call leaves behind stays, whether it returned or raised. *)
Fixpoint serve (env : Env) (requests : list Request) (s : Sink)
  : list (Res (option Element)) * Sink :=
  match requests with
  | [] => ([], s)
  | q :: rest =>
      let '(r, s1) := create_webrtcbin env (answers q) (client_id q) (codec_preference q) s in
      let '(rs, s2) := serve env rest s1 in
      (r :: rs, s2)
  end.

Record Step := {
  transition : StateChange;
  start_answer : StartOutcome;
  parent_answer : StateChangeReturn
}.

(** The state changes GStreamer asks of the element, one after the other. *)
Fixpoint change_states (steps : list Step) (s : Sink) : Sink :=
  match steps with
  | [] => s
  | st :: rest =>
      change_states rest
        (snd (do_change_state (start_answer st) (parent_answer st) (transition st) s))
  end.




(** ** Sample registries and answers *)

Definition vp8enc : Factory :=
  {| factory_name := "vp8enc"; klass := "Codec/Encoder/Video"; rank := 256;
     static_pad_templates :=
       [ {| direction := PAD_SINK; template_caps := CapsOf ["video/x-raw"] |};
         {| direction := PAD_SRC; template_caps := CapsOf ["video/x-vp8"] |} ] |}.

Definition vp9enc : Factory :=
  {| factory_name := "vp9enc"; klass := "Codec/Encoder/Video"; rank := 256;
     static_pad_templates :=
       [ {| direction := PAD_SINK; template_caps := CapsOf ["video/x-raw"] |};
         {| direction := PAD_SRC; template_caps := CapsOf ["video/x-vp9"] |} ] |}.

Definition x264enc : Factory :=
  {| factory_name := "x264enc"; klass := "Codec/Encoder/Video"; rank := 256;
     static_pad_templates :=
       [ {| direction := PAD_SINK; template_caps := CapsOf ["video/x-raw"] |};
         {| direction := PAD_SRC; template_caps := CapsOf ["video/x-h264"] |} ] |}.

Definition openh264enc : Factory :=
  {| factory_name := "openh264enc"; klass := "Encoder/Video"; rank := 128;
     static_pad_templates :=
       [ {| direction := PAD_SINK; template_caps := CapsOf ["video/x-raw"] |};
         {| direction := PAD_SRC; template_caps := CapsOf ["video/x-h264"] |} ] |}.

Definition nvh264enc : Factory :=
  {| factory_name := "nvh264enc"; klass := "Codec/Encoder/Video/Hardware"; rank := 256;
     static_pad_templates :=
       [ {| direction := PAD_SINK; template_caps := CapsOf ["video/x-raw"] |};
         {| direction := PAD_SRC; template_caps := CapsOf ["video/x-h264"] |} ] |}.

(** Every call answered favourably. *)
Definition all_made : Outcomes :=
  {| webrtcbin_made := true; encoder_made := true; payloader_made := true;
     queue_made := true; pad_granted := true; tee_queue_ret := LINK_OK;
     queue_encoder_linkable := true; encoder_payloader_linkable := true;
     payloader_webrtcbin_linkable := true |}.

(** As [all_made], but the queue cannot be created. *)
Definition no_queue : Outcomes :=
  {| webrtcbin_made := true; encoder_made := true; payloader_made := true;
     queue_made := false; pad_granted := true; tee_queue_ret := LINK_OK;
     queue_encoder_linkable := true; encoder_payloader_linkable := true;
     payloader_webrtcbin_linkable := true |}.

(** A process in which every element owns every property asked of it. *)
Definition every_property (reg : Registry) : Env :=
  {| registry := reg; has_property := fun _ _ => true |}.

Definition activate : Step :=
  {| transition := NULL_TO_READY; start_answer := StartOK; parent_answer := SUCCESS |}.



(** ** [do_get_property] *)

Definition do_get_property (name : string) : M PropValue :=
  if String.eqb name "port" then p <- gets port ;; ret (VInt p)
  else if String.eqb name "ws-port" then p <- gets ws_port ;; ret (VInt p)
  else if String.eqb name "bind-address" then v <- gets bind_address ;; ret (VStr v)
  else if String.eqb name "stun-server" then v <- gets stun_server ;; ret (VStr v)
  else if String.eqb name "video-codec" then v <- gets video_codec ;; ret (VStr v)
  else raise AttributeError.

(** The five properties of [__gproperties__], each with the type it is
    registered with. *)
Definition property_type_ok (name : string) (value : PropValue) : bool :=
  match value with
  | VInt _ => String.eqb name "port" || String.eqb name "ws-port"
  | VStr _ => String.eqb name "bind-address" || String.eqb name "stun-server"
              || String.eqb name "video-codec"
  | VBool _ => false
  end.

Definition known_property (name : string) : bool :=
  String.eqb name "port" || String.eqb name "ws-port" || String.eqb name "bind-address"
  || String.eqb name "stun-server" || String.eqb name "video-codec".

(** ** What a build keeps *)

(** Every child, tap and link of [g] is still in [g']. *)
Definition kept (g g' : Graph) : Prop :=
  (∀ c, In c (children g) -> In c (children g'))
  ∧ (∀ p, In p (tee_src_pads g) -> In p (tee_src_pads g'))
  ∧ (∀ l, In l (links g) -> In l (links g')).

(** The same for what was created before the identity [n]. *)
Definition keeps (n : nat) (g g' : Graph) : Prop :=
  (∀ c, In c (children g) -> (eid c < n)%nat -> In c (children g'))
  ∧ (∀ p, In p (tee_src_pads g) -> (p < n)%nat -> In p (tee_src_pads g'))
  ∧ (∀ l, In l (links g) -> (fst l < n)%nat -> (snd l < n)%nat -> In l (links g')).

(** ** The branch of a client *)

Definition payloader_element_name (client_id : option string) : ElementName :=
  GivenName ("payloader-" ++ PyStr.format client_id).

(** The elements one build creates after the [webrtcbin], by the
    identities they receive. *)
Definition encoder_element (client_id : option string) (encoder_name : string) (n : nat)
  : Element :=
  {| eid := n; efactory := encoder_name; ename := encoder_element_name client_id |}.

Definition payloader_element (client_id : option string) (payloader_name : string) (n : nat)
  : Element :=
  {| eid := n; efactory := payloader_name; ename := payloader_element_name client_id |}.

Definition queue_element (n : nat) : Element :=
  {| eid := n; efactory := "queue"; ename := AutoName n |}.

(** The bin [g] with one complete branch more: [self.add] of the
    [webrtcbin], the queue, the encoder and the payloader in this order, one
    tap of the tee, and the chain tee pad -> queue -> encoder -> payloader ->
    [webrtcbin]. *)
Definition with_branch (client_id : option string) (encoder_name payloader_name : string)
    (g : Graph) : Graph :=
  let n := next_id g in
  {| children := children g
                 ++ [ {| eid := n; efactory := "webrtcbin"; ename := AutoName n |};
                      queue_element (3 + n);
                      encoder_element client_id encoder_name (1 + n);
                      payloader_element client_id payloader_name (2 + n) ];
     tee_src_pads := tee_src_pads g ++ [4 + n]%nat;
     links := links g ++ [ (4 + n, 3 + n); (3 + n, 1 + n); (1 + n, 2 + n); (2 + n, n) ]%nat;
     next_id := 5 + n |}.

(** The automatic names in use are those of identities already handed
    out. *)
Definition auto_names_used (g : Graph) : Prop :=
  Forall (fun c => match ename c with
                   | AutoName i => (i < next_id g)%nat
                   | GivenName _ => True
                   end) (children g).

(** What the sink keeps true from [__init__] on, build after build. *)
Definition sink_inv (s : Sink) : Prop :=
  sink_wf s ∧ auto_names_used (bin s) ∧ is_child (bin s) (tee s) = true.

(** The requests that came back with a [webrtcbin]. *)
Definition returned (r : Res (option Element)) : bool :=
  match r with Ok (Some _) => true | _ => false end.

(** ** What the element is asked to do *)

(** After [__init__] the element is called from three sides: the signaling
    server calls [create_webrtcbin], GObject calls [do_set_property], and
    GStreamer calls [do_change_state]. *)
Inductive Operation :=
| Build (o : Outcomes) (client_id codec_preference : option string)
| SetProperty (name : string) (value : PropValue)
| ChangeState (start : StartOutcome) (parent : StateChangeReturn) (transition : StateChange).

(** What a call leaves behind, whether it returned or raised. *)
Definition operate (env : Env) (op : Operation) (s : Sink) : Sink :=
  match op with
  | Build o client_id codec_preference =>
      snd (create_webrtcbin env o client_id codec_preference s)
  | SetProperty name value => snd (do_set_property name value s)
  | ChangeState start parent transition => snd (do_change_state start parent transition s)
  end.

Fixpoint operate_all (env : Env) (ops : list Operation) (s : Sink) : Sink :=
  match ops with
  | [] => s
  | op :: rest => operate_all env rest (operate env op s)
  end.

(** ** What the corrected statements speak about *)

(** The calls [stop_servers] makes, newest first: [shutdown()] on a set
    HTTP handle, then [stop()] on a set signaling handle. *)
Definition stop_events (s : Sink) : list Event :=
  (match signaling s with Some _ => [EvSignalingStop] | None => [] end)
  ++ (match http_server s with Some _ => [EvHttpShutdown] | None => [] end).

(** The [set_property] calls of a build other than [stun-server] on the
    [webrtcbin] and [leaky] on the queue: those of the block under
    [if codec_to_use == 'h264']. *)
Definition is_codec_setting (e : Event) : bool :=
  match e with
  | EvSetProperty _ prop _ _ =>
      negb (String.eqb prop "stun-server" || String.eqb prop "leaky")
  | _ => false
  end.

(** ** [stop_servers] when a call may raise *)

(** [stop_servers] above is the run in which [http_server.shutdown()] and
    [signaling.stop()] return.  Neither call stands in a [try]: in
    [stop_servers_raising] either of them may raise instead, and in
    [do_change_state_raising] the exception leaves [do_change_state].  A
    call that raises leaves no event. *)
Inductive StopOutcome := StopOK | ShutdownRaises | SignalingStopRaises.

Definition stop_servers_raising (o : StopOutcome) : M unit :=
  h <- gets http_server ;;
  (match h with
   | Some _ =>
       match o with
       | ShutdownRaises => raise (Exception "shutdown")
       | _ => emit EvHttpShutdown ;;; modify (set_http None false)
       end
   | None => ret tt
   end) ;;;
  sg <- gets signaling ;;
  match sg with
  | Some _ =>
      match o with
      | SignalingStopRaises => raise (Exception "stop")
      | _ => emit EvSignalingStop ;;; modify (set_signaling None false)
      end
  | None => ret tt
  end.

Definition do_change_state_raising (start : StartOutcome) (stop : StopOutcome)
    (parent : StateChangeReturn) (transition : StateChange) : M StateChangeReturn :=
  match transition with
  | NULL_TO_READY =>
      started <- gets servers_started ;;
      early <-
        (if negb started then
           try_except
             (start_servers start ;;;
              modify (set_servers_started true) ;;;
              ret None)
             (fun _ =>
                log_error "Failed to start servers" ;;;
                ret (Some FAILURE))
         else ret None) ;;
      match early with
      | Some r => ret r
      | None => parent_do_change_state parent transition
      end
  | READY_TO_NULL =>
      started <- gets servers_started ;;
      (if started then
         stop_servers_raising stop ;;;
         modify (set_servers_started false)
       else ret tt) ;;;
      parent_do_change_state parent transition
  | _ => parent_do_change_state parent transition
  end.

(** ** Facts about the statements *)

(** *** The graph operations *)

Lemma is_child_bound (g : Graph) (x : Element) :
  Forall (fun c => (eid c < next_id g)%nat) (children g) ->
  (next_id g <= eid x)%nat ->
  is_child g x = false.
Proof.
  unfold is_child. intros Hall Hle.
  induction Hall as [|c l Hc _ IH]; [reflexivity|].
  cbn. rewrite IH, orb_false_r. apply Nat.eqb_neq. lia.
Qed.

Lemma is_child_add (e x : Element) (g : Graph) :
  is_child (graph_add e g) x
  = is_child g x || (negb (name_taken g e) && Nat.eqb (eid e) (eid x)).
Proof.
  unfold is_child, graph_add; cbn [children].
  destruct (name_taken g e); cbn.
  - rewrite orb_false_r. reflexivity.
  - rewrite existsb_app. cbn. rewrite orb_false_r. reflexivity.
Qed.

Lemma name_in_use_add (e : Element) (n : ElementName) (g : Graph) :
  name_in_use (graph_add e g) n
  = name_in_use g n || (negb (name_taken g e) && ElementName_eqb (ename e) n).
Proof.
  unfold name_in_use at 1, graph_add; cbn [children].
  destruct (name_taken g e) eqn:He; cbn.
  - rewrite orb_false_r. reflexivity.
  - rewrite existsb_app. cbn. rewrite orb_false_r. reflexivity.
Qed.

Lemma is_child_fresh (g : Graph) (x : Element) :
  is_child (graph_fresh g) x = is_child g x.
Proof. reflexivity. Qed.

Lemma is_child_add_pad (p : nat) (g : Graph) (x : Element) :
  is_child (graph_add_pad p g) x = is_child g x.
Proof. reflexivity. Qed.

Lemma is_child_link (ok : bool) (a b : nat) (g : Graph) (x : Element) :
  is_child (graph_link ok a b g) x = is_child g x.
Proof. reflexivity. Qed.

Lemma name_in_use_fresh (g : Graph) (n : ElementName) :
  name_in_use (graph_fresh g) n = name_in_use g n.
Proof. reflexivity. Qed.

Lemma name_in_use_add_pad (p : nat) (g : Graph) (n : ElementName) :
  name_in_use (graph_add_pad p g) n = name_in_use g n.
Proof. reflexivity. Qed.

Lemma name_in_use_link (ok : bool) (a b : nat) (g : Graph) (n : ElementName) :
  name_in_use (graph_link ok a b g) n = name_in_use g n.
Proof. reflexivity. Qed.

Lemma ElementName_eqb_eq (a b : ElementName) :
  ElementName_eqb a b = true <-> a = b.
Proof.
  destruct a, b; cbn; try (split; congruence).
  - rewrite Nat.eqb_eq. split; congruence.
  - rewrite String.eqb_eq. split; congruence.
Qed.

Lemma name_taken_spec (g : Graph) (e : Element) :
  name_taken g e = true <-> In (ename e) (map ename (children g)).
Proof.
  unfold name_taken, name_in_use. rewrite existsb_exists, in_map_iff.
  split; intros [c [H1 H2]]; exists c.
  - apply ElementName_eqb_eq in H2. auto.
  - split; [tauto|]. apply ElementName_eqb_eq. tauto.
Qed.

Lemma filter_all_below {A} (key : A -> nat) (n p : nat) (l : list A) :
  Forall (fun x => (key x < n)%nat) l ->
  (n <= p)%nat ->
  List.filter (fun x => negb (Nat.eqb (key x) p)) l = l.
Proof.
  intros Hall Hle. induction Hall as [|x l Hx _ IH]; [reflexivity|].
  cbn. rewrite IH. replace (Nat.eqb (key x) p) with false; [reflexivity|].
  symmetry. apply Nat.eqb_neq. lia.
Qed.

(** A tap granted and released again leaves the taps of the tee as they
    were. *)
Lemma release_fresh_pad (n p : nat) (pads : list nat) :
  Forall (fun q => (q < n)%nat) pads ->
  (n <= p)%nat ->
  List.filter (fun q => negb (Nat.eqb q p)) (pads ++ [p]) = pads.
Proof.
  intros Hall Hle. rewrite List.filter_app. cbn.
  rewrite Nat.eqb_refl. cbn. rewrite app_nil_r.
  apply (filter_all_below (fun q => q) n p pads Hall Hle).
Qed.

Lemma Forall_filter_keep {A} (P : A -> Prop) (f : A -> bool) (l : list A) :
  Forall P l -> Forall P (List.filter f l).
Proof.
  induction 1 as [|x l Hx _ IH]; cbn; [constructor|].
  destruct (f x); [constructor|]; assumption.
Qed.

Lemma NoDup_map_filter {A B} (h : A -> B) (f : A -> bool) (l : list A) :
  NoDup (map h l) -> NoDup (map h (List.filter f l)).
Proof.
  induction l as [|x l IH]; cbn; [auto|].
  intros [Hnot Hrest]%NoDup_cons.
  destruct (f x); cbn; [|auto].
  apply NoDup_cons. split; [|auto].
  intros Hin. apply Hnot.
  apply list_elem_of_In in Hin. apply list_elem_of_In.
  apply in_map_iff in Hin as [y [Hy Hin]]. apply in_map_iff. exists y.
  split; [assumption|]. apply List.filter_In in Hin. tauto.
Qed.

Lemma graph_wf_fresh (g : Graph) : graph_wf g -> graph_wf (graph_fresh g).
Proof.
  intros (Hc & Hp & Hl & Hn). unfold graph_wf; cbn.
  repeat split; [| | |assumption].
  - eapply Forall_impl; [exact Hc|]. cbn; intros; lia.
  - eapply Forall_impl; [exact Hp|]. cbn; intros; lia.
  - eapply Forall_impl; [exact Hl|]. cbn; intros; lia.
Qed.

Lemma graph_wf_add (e : Element) (g : Graph) :
  graph_wf g -> (eid e < next_id g)%nat -> graph_wf (graph_add e g).
Proof.
  intros (Hc & Hp & Hl & Hn) He. unfold graph_wf; cbn.
  destruct (name_taken g e) eqn:Ht; [tauto|].
  repeat split; try assumption.
  - apply Forall_app; split; [assumption|]. constructor; [assumption|constructor].
  - rewrite map_app. cbn. apply NoDup_app. split; [assumption|]. split.
    + intros x Hx Hx'. apply list_elem_of_In in Hx, Hx'. destruct Hx' as [<-|[]].
      apply name_taken_spec in Hx. congruence.
    + apply NoDup_singleton.
Qed.

Lemma graph_wf_remove (e : Element) (g : Graph) :
  graph_wf g -> graph_wf (graph_remove e g).
Proof.
  intros (Hc & Hp & Hl & Hn). unfold graph_wf; cbn.
  repeat split; try assumption.
  - apply Forall_filter_keep; assumption.
  - destruct (is_child g e); [apply Forall_filter_keep|]; assumption.
  - apply NoDup_map_filter; assumption.
Qed.

Lemma graph_wf_add_pad (p : nat) (g : Graph) :
  graph_wf g -> (p < next_id g)%nat -> graph_wf (graph_add_pad p g).
Proof.
  intros (Hc & Hp & Hl & Hn) Hlt. unfold graph_wf; cbn.
  repeat split; try assumption.
  apply Forall_app; split; [assumption|]. constructor; [assumption|constructor].
Qed.

Lemma graph_wf_release_pad (p : nat) (g : Graph) :
  graph_wf g -> graph_wf (graph_release_pad p g).
Proof.
  intros (Hc & Hp & Hl & Hn). unfold graph_wf; cbn.
  repeat split; try assumption; apply Forall_filter_keep; assumption.
Qed.

Lemma graph_wf_link (ok : bool) (a b : nat) (g : Graph) :
  graph_wf g -> (a < next_id g)%nat -> (b < next_id g)%nat ->
  graph_wf (graph_link ok a b g).
Proof.
  intros (Hc & Hp & Hl & Hn) Ha Hb. unfold graph_wf; cbn.
  repeat split; try assumption.
  destruct ok; [|assumption].
  apply Forall_app; split; [assumption|]. constructor; [cbn; lia|constructor].
Qed.

Lemma graph_wf_unlink (a b : nat) (g : Graph) :
  graph_wf g -> graph_wf (graph_unlink a b g).
Proof.
  intros (Hc & Hp & Hl & Hn). unfold graph_wf; cbn.
  repeat split; try assumption. apply Forall_filter_keep; assumption.
Qed.

(** *** Symbolic execution *)

(** Unfolds the statements and the updates of the sink, and leaves the
    operations on the graph folded. *)
Ltac run_in H :=
  cbv beta iota zeta delta
    [bind ret raise try_except gets modify emit log_error
     element_factory_make fresh set_property set_state_null
     sync_state_with_parent add remove get_request_pad release_request_pad
     pad_link pad_unlink link add_probe parent_do_change_state
     set_bin set_trace set_client_codecs set_servers_started set_http
     set_signaling set_video_codec
     port ws_port bind_address stun_server video_codec http_server
     http_thread signaling signaling_thread convert tee servers_started
     client_codecs bin trace
     webrtcbin_made encoder_made payloader_made queue_made pad_granted
     tee_queue_ret queue_encoder_linkable encoder_payloader_linkable
     payloader_webrtcbin_linkable] in H;
  cbn [eid efactory ename next_id graph_fresh graph_add graph_remove
       graph_add_pad graph_release_pad graph_link graph_unlink
       is_LINK_OK negb] in H.

Ltac run_goal :=
  cbv beta iota zeta delta
    [bind ret raise try_except gets modify emit log_error
     element_factory_make fresh set_property set_state_null
     sync_state_with_parent add remove get_request_pad release_request_pad
     pad_link pad_unlink link add_probe parent_do_change_state
     set_bin set_trace set_client_codecs set_servers_started set_http
     set_signaling set_video_codec
     port ws_port bind_address stun_server video_codec http_server
     http_thread signaling signaling_thread convert tee servers_started
     client_codecs bin trace
     webrtcbin_made encoder_made payloader_made queue_made pad_granted
     tee_queue_ret queue_encoder_linkable encoder_payloader_linkable
     payloader_webrtcbin_linkable];
  cbn [eid efactory ename next_id graph_fresh graph_add graph_remove
       graph_add_pad graph_release_pad graph_link graph_unlink
       is_LINK_OK negb].

Lemma log_errors_run (msgs : Log) (s : Sink) :
  log_errors msgs s = (Ok tt, set_trace (app (rev (map EvLogError msgs))) s).
Proof.
  revert s. induction msgs as [|m msgs IH]; intros s.
  - destruct s; reflexivity.
  - cbn [log_errors]. unfold bind, log_error, emit, modify. rewrite IH.
    destruct s; unfold set_trace; cbn. rewrite <- app_assoc. reflexivity.
Qed.

Lemma call_find_best_encoder_run (env : Env) (codec_name : string) (s : Sink) :
  call_find_best_encoder env codec_name s =
    (Ok (snd (find_best_encoder (registry env) codec_name)),
     set_trace (app (rev (map EvLogError (fst (find_best_encoder (registry env) codec_name))))) s).
Proof.
  unfold call_find_best_encoder.
  destruct (find_best_encoder (registry env) codec_name) as [log r].
  unfold bind. rewrite log_errors_run. reflexivity.
Qed.

Ltac prefix_of t :=
  lazymatch t with
  | ?a :: ?rest => let p := prefix_of rest in constr:(a :: p)
  | _ => constr:(@nil Event)
  end.

(** The codec-specific settings only set properties; they end normally or
    on a property the payloader lacks. *)
Lemma configure_h264_run env encoder_name encoder payloader s :
  ∃ r t,
    configure_h264 env encoder_name encoder payloader s = (r, set_trace (app t) s)
    ∧ (r = Ok tt ∨ r = Raise TypeError)
    ∧ Forall is_set_property t.
Proof.
  unfold configure_h264.
  destruct s as [? ? ? ? vc ? ? ? ? cv te ? cc g tr].
  run_goal.
  repeat match goal with
  | |- context [match ?x with _ => _ end] =>
      lazymatch x with
      | context [match _ with _ => _ end] => fail
      | _ => destruct x eqn:?
      end; run_goal
  end.
  all: match goal with
       | |- ∃ r t, (?r0, {| port := _; ws_port := _; bind_address := _;
                            stun_server := _; video_codec := _; http_server := _;
                            http_thread := _; signaling := _; signaling_thread := _;
                            convert := _; tee := _; servers_started := _;
                            client_codecs := _; bin := _; trace := ?t0 |}) = _ ∧ _ ∧ _ =>
           exists r0; let p := prefix_of t0 in exists p
       end.
  all: split; [reflexivity|split; [auto|]].
  all: repeat constructor.
Qed.

(** One step of symbolic execution of a run [H : c s = (r, s')]: split on
    the innermost undecided test. *)
Ltac split_run H :=
  match type of H with
  | context [call_find_best_encoder ?env ?c ?s] =>
      rewrite (call_find_best_encoder_run env c s) in H
  | context [configure_h264 ?env ?n ?e ?p ?s] =>
      let r := fresh "r" in
      let t := fresh "t" in
      let Heq := fresh "Htune" in
      let Hr := fresh "Hr" in
      let Ht := fresh "Ht" in
      destruct (configure_h264_run env n e p s) as (r & t & Heq & Hr & Ht);
      rewrite Heq in H; clear Heq;
      destruct Hr; subst r
  | context [match ?x with _ => _ end] =>
      lazymatch x with
      | context [match _ with _ => _ end] => fail
      | negb ?y => destruct y eqn:?
      | _ => first [is_var x; destruct x | destruct x eqn:?]
      end
  end.

Ltac exec H := run_in H; repeat (split_run H; run_in H).

Ltac graph_norm H :=
  repeat (progress
    (unfold name_taken in H; cbn [ename eid ElementName_eqb] in H;
     repeat first
       [ rewrite is_child_fresh in H | rewrite is_child_add_pad in H
       | rewrite is_child_link in H | rewrite is_child_add in H
       | rewrite name_in_use_fresh in H | rewrite name_in_use_add_pad in H
       | rewrite name_in_use_link in H | rewrite name_in_use_add in H ])).

Ltac graph_norm_goal :=
  repeat (progress
    (unfold name_taken; cbn [ename eid ElementName_eqb];
     repeat first
       [ rewrite is_child_fresh | rewrite is_child_add_pad
       | rewrite is_child_link | rewrite is_child_add
       | rewrite name_in_use_fresh | rewrite name_in_use_add_pad
       | rewrite name_in_use_link | rewrite name_in_use_add ])).

(** Decides the comparisons of identities left in [H]. *)
Ltac decide_ids H :=
  repeat match type of H with
  | context [Nat.eqb ?a ?b] =>
      destruct (Nat.eqb_spec a b); [try lia|try lia]
  end.

Ltac graph_simpl :=
  cbn [tee_src_pads children links bin graph_add graph_remove graph_fresh
       graph_add_pad graph_link graph_unlink graph_release_pad next_id] in *.

(** Either the branch is not there and the taps are as before, or the
    branch is live: one more tap, and the encoder of the client sits in the
    bin under a name that was free. *)
Lemma build_branch_outcome env o cid c w en pn s r s' :
  sink_wf s ->
  (eid w < next_id (bin s))%nat ->
  build_branch env o cid c w en pn s = (r, s') ->
  (tee_src_pads (bin s') = tee_src_pads (bin s) ∧ ∀ w', r ≠ Ok (Some w'))
  ∨ (tee_src_pads (bin s') = (tee_src_pads (bin s) ++ [S (S (S (next_id (bin s))))])%list
     ∧ (r = Ok (Some w) ∨ r = Raise TypeError)
     ∧ name_in_use (bin s) (encoder_element_name cid) = false
     ∧ name_in_use (bin s') (encoder_element_name cid) = true).
Proof.
  intros Hwf Hw Hrun.
  unfold build_branch, sink_wf in *.
  destruct o as [wm em pm qm pg tq qe ep pw].
  destruct s as [? ? ? ? vc ? ? ? ? cv te ? cc g tr].
  cbn [bin] in *.
  exec Hrun.
  all: inversion Hrun; subst; clear Hrun.
  all: graph_simpl.
  all: try (left; split; [reflexivity|discriminate]).
  all: try (left; split; [eapply release_fresh_pad; [apply Hwf|lia]|discriminate]).
  all: right.
  all: match goal with
       | H : _ && _ && is_child _ {| eid := _; efactory := _;
                                     ename := GivenName ("encoder-" ++ _) |} = true |- _ =>
           rename H into Hlink
       end.
  all: apply andb_prop in Hlink as [_ Hlink].
  all: graph_norm Hlink.
  all: rewrite (is_child_bound _ _ (proj1 Hwf)) in Hlink by (cbn; lia).
  all: decide_ids Hlink.
  all: rewrite ?andb_false_r, ?orb_false_r, ?andb_true_r in Hlink; cbn [orb] in Hlink.
  all: apply negb_true_iff, orb_false_iff in Hlink as [Hfree _].
  all: unfold encoder_element_name.
  all: (split; [reflexivity|]); (split; [auto|]); (split; [exact Hfree|]).
  all: graph_norm_goal.
  all: rewrite Hfree, ?String.eqb_refl, ?andb_false_r, ?orb_false_r, ?andb_true_r.
  all: cbn [orb negb andb].
  all: destruct (negb (name_in_use g (ename w))
                 && ElementName_eqb (ename w) (GivenName ("encoder-" ++ PyStr.format cid)));
    reflexivity.
Qed.

Ltac graph_wf_tac :=
  repeat first
    [ assumption
    | apply graph_wf_remove | apply graph_wf_release_pad | apply graph_wf_unlink
    | apply graph_wf_fresh
    | apply graph_wf_link; [|cbn; lia|cbn; lia]
    | apply graph_wf_add_pad; [|cbn; lia]
    | apply graph_wf_add; [|cbn; lia] ].

Lemma build_branch_wf env o cid c w en pn s r s' :
  sink_wf s ->
  (eid w < next_id (bin s))%nat ->
  build_branch env o cid c w en pn s = (r, s') ->
  sink_wf s' ∧ (next_id (bin s) <= next_id (bin s'))%nat.
Proof.
  intros Hwf Hw Hrun.
  unfold build_branch, sink_wf in *.
  destruct o as [wm em pm qm pg tq qe ep pw].
  destruct s as [? ? ? ? vc ? ? ? ? cv te ? cc g tr].
  cbn [bin] in *.
  exec Hrun.
  all: inversion Hrun; subst; clear Hrun.
  all: cbn [bin].
  all: split; [graph_wf_tac|cbn; lia].
Qed.

(** [build_branch] writes to the bin and to the trace only. *)
Lemma build_branch_frame env o cid c w en pn s r s' :
  build_branch env o cid c w en pn s = (r, s') ->
  client_codecs s' = client_codecs s
  ∧ video_codec s' = video_codec s
  ∧ stun_server s' = stun_server s
  ∧ servers_started s' = servers_started s
  ∧ tee s' = tee s.
Proof.
  intros Hrun.
  unfold build_branch in *.
  destruct o as [wm em pm qm pg tq qe ep pw].
  destruct s as [? ? ? ? vc ? ? ? ? cv te ? cc g tr].
  exec Hrun.
  all: inversion Hrun; subst; clear Hrun.
  all: cbn; auto.
Qed.

Lemma makes_app (a b : list Event) : makes (a ++ b) = (makes a ++ makes b)%list.
Proof.
  induction a as [|e a IH]; [reflexivity|].
  destruct e; cbn; rewrite IH; reflexivity.
Qed.

Lemma makes_set_properties (t : list Event) :
  Forall is_set_property t -> makes t = [].
Proof.
  induction 1 as [|e t He _ IH]; [reflexivity|].
  destruct e; cbn in *; try contradiction. assumption.
Qed.

Lemma makes_log (msgs : Log) : makes (rev (map EvLogError msgs)) = [].
Proof.
  induction msgs as [|m msgs IH]; [reflexivity|].
  cbn. rewrite makes_app, IH. reflexivity.
Qed.

Lemma build_branch_makes env o cid c w en pn s r s' :
  build_branch env o cid c w en pn s = (r, s') ->
  ∃ new, makes (trace s') = (rev new ++ makes (trace s))%list
         ∧ branch_makes en pn new
         ∧ (∀ w', r = Ok (Some w') ->
              new = [(en, true); (pn, true); ("queue", true)]).
Proof.
  intros Hrun.
  unfold build_branch in *.
  destruct o as [wm em pm qm pg tq qe ep pw].
  destruct s as [? ? ? ? vc ? ? ? ? cv te ? cc g tr].
  exec Hrun.
  all: inversion Hrun; subst; clear Hrun.
  all: cbn [trace makes].
  all: rewrite ?makes_app, ?makes_set_properties by assumption.
  all: cbn [makes app].
  all: unfold branch_makes.
  all: first
    [ exists [(en, false)]; split; [reflexivity|split; [tauto|discriminate]]
    | exists [(en, true); (pn, false)]; split; [reflexivity|split; [tauto|discriminate]]
    | exists [(en, true); (pn, true); ("queue", false)];
      split; [reflexivity|split; [tauto|discriminate]]
    | exists [(en, true); (pn, true); ("queue", true)];
      split; [reflexivity|split; [tauto|reflexivity]] ].
Qed.

(** No run of [build_branch] logs the message of the guard that follows
    the creation of the queue. *)
Lemma build_branch_queue_guard env o cid c w en pn s r s' :
  build_branch env o cid c w en pn s = (r, s') ->
  In (EvLogError queue_guard_message) (trace s') ->
  In (EvLogError queue_guard_message) (trace s).
Proof.
  intros Hrun.
  unfold build_branch, queue_guard_message in *.
  destruct o as [wm em pm qm pg tq qe ep pw].
  destruct s as [? ? ? ? vc ? ? ? ? cv te ? cc g tr].
  exec Hrun.
  all: inversion Hrun; subst; clear Hrun.
  all: cbn [trace].
  all: intros Hin.
  all: repeat match goal with
       | H : In _ (_ ++ _) |- _ => apply in_app_or in H as [H|H]
       | H : In _ (_ :: _) |- _ => destruct H as [H|H]; [try discriminate H|]
       | H : In ?e ?t, Ht : Forall is_set_property ?t |- _ =>
           rewrite Forall_forall in Ht; apply list_elem_of_In, Ht in H; contradiction
       end.
  all: try assumption.
  all: destruct tq; discriminate.
Qed.

(** When the queue cannot be created, [build_branch] raises on the missing
    element. *)
Lemma build_branch_queue_none env o cid c w en pn s :
  encoder_made o = true ->
  payloader_made o = true ->
  queue_made o = false ->
  fst (build_branch env o cid c w en pn s) = Raise AttributeError.
Proof.
  intros He Hp Hq. unfold build_branch.
  destruct o as [wm em pm qm pg tq qe ep pw]. cbn in He, Hp, Hq. subst em pm qm.
  destruct s as [? ? ? ? vc ? ? ? ? cv te ? cc g tr].
  run_goal. reflexivity.
Qed.

(** *** [create_webrtcbin] up to the call of [build_branch] *)

Lemma create_webrtcbin_inv env o client_id codec_preference s r s' :
  create_webrtcbin env o client_id codec_preference s = (r, s') ->
  let c := requested_codec client_id codec_preference s in
  let msgs := find_messages env c (video_codec s) in
  (webrtcbin_made o = false ∧ r = Ok None
   ∧ s' = set_trace (fun t => EvLogError "Failed to create WebRTCbin"
                              :: EvMake "webrtcbin" None None :: t) s)
  ∨ (webrtcbin_made o = true
     ∧ has_property env "webrtcbin" "stun-server" = false
     ∧ r = Raise TypeError
     ∧ s' = set_trace (fun t => EvSetProperty (next_id (bin s)) "stun-server"
                                  (VStr (stun_server s)) false
                                :: EvMake "webrtcbin" None (Some (next_id (bin s))) :: t)
              (set_bin graph_fresh s))
  ∨ (webrtcbin_made o = true
     ∧ has_property env "webrtcbin" "stun-server" = true
     ∧ match resolve env c (video_codec s) with
       | Some (encoder_name, payloader_name) =>
           build_branch env o client_id c (new_webrtcbin s) encoder_name payloader_name
             (prepared client_id codec_preference msgs s) = (r, s')
       | None =>
           r = Ok None ∧ s' = unresolved client_id codec_preference msgs s
       end).
Proof.
  intros Hrun c msgs. subst c msgs.
  unfold create_webrtcbin, resolve, find_messages, unresolved, prepared, new_webrtcbin,
    requested_codec, recorded in *.
  destruct o as [wm em pm qm pg tq qe ep pw].
  destruct s as [? ? ? ? vc ? ? ? ? cv te ? cc g tr].
  exec Hrun.
  all: try discriminate.
  all: try (injection Hrun as <- <-).
  all: cbn [webrtcbin_made bin next_id stun_server video_codec].
  all: first
    [ left; split; [reflexivity|split; reflexivity]
    | right; left; split; [reflexivity|split; [reflexivity|split; reflexivity]]
    | right; right; split; [reflexivity|split; [reflexivity|]] ].
  all: repeat match goal with H : usable _ = _ |- _ => rewrite H end.
  all: unfold set_trace, set_client_codecs, set_bin;
       cbn [bin trace client_codecs next_id stun_server video_codec port ws_port
            bind_address http_server http_thread signaling signaling_thread convert
            tee servers_started].
  all: rewrite ?map_app, ?rev_app_distr, <- ?app_assoc.
  all: first [exact Hrun | split; reflexivity].
Qed.

(** ** [find_best_encoder] *)

Lemma sort_by_rank_head (l : list Factory) :
  l ≠ [] ->
  ∃ before best after rest,
    l = (before ++ best :: after)%list
    ∧ Forall (fun f => rank f < rank best) before
    ∧ Forall (fun f => rank f <= rank best) after
    ∧ sort_by_rank l = best :: rest.
Proof.
  induction l as [|x l IH]; [congruence|]. intros _.
  destruct l as [|y l'].
  - exists [], x, [], []. repeat split; constructor.
  - destruct IH as (before & best & after & rest & Hl & Hb & Ha & Hs); [congruence|].
    unfold sort_by_rank in *. cbn [foldr]. cbn [foldr] in Hs. rewrite Hs. cbn [insert_by_rank].
    destruct (rank best <=? rank x) eqn:Hcmp.
    + apply Z.leb_le in Hcmp.
      exists [], x, (y :: l'), (best :: rest). repeat split; [constructor|].
      rewrite Hl. apply Forall_app; split.
      * eapply Forall_impl; [exact Hb|]. cbn; intros; lia.
      * constructor; [lia|]. eapply Forall_impl; [exact Ha|]. cbn; intros; lia.
    + apply Z.leb_gt in Hcmp.
      exists (x :: before), best, after, (insert_by_rank x rest).
      repeat split; try assumption.
      * rewrite Hl. reflexivity.
      * constructor; assumption.
Qed.

Lemma sort_by_rank_nil (l : list Factory) : sort_by_rank l = [] <-> l = [].
Proof.
  split; [|intros ->; reflexivity].
  destruct l as [|x l]; [reflexivity|]. intros H. exfalso.
  destruct (sort_by_rank_head (x :: l)) as (? & ? & ? & ? & _ & _ & _ & Hs); congruence.
Qed.

Lemma find_best_encoder_unknown reg c :
  codec_caps c = None ->
  find_best_encoder reg c
  = (["Unsupported codec: " ++ c ++ ", falling back to vp8"], (None, None)).
Proof.
  intros H. funelim (find_best_encoder reg c); congruence.
Qed.

Lemma find_best_encoder_found reg c cs best rest :
  codec_caps c = Some cs ->
  sort_by_rank (encoder_factories reg (caps_from_string cs)) = best :: rest ->
  find_best_encoder reg c = ([], (Some (factory_name best), payloader_map c)).
Proof.
  intros H Hs. funelim (find_best_encoder reg c); congruence.
Qed.

Lemma find_best_encoder_none reg c cs :
  codec_caps c = Some cs ->
  encoder_factories reg (caps_from_string cs) = [] ->
  c = "vp8" ->
  find_best_encoder reg c
  = (["No encoder found for codec " ++ c ++ ", falling back to vp8"], (None, None)).
Proof.
  intros H Hs Hc. apply (proj2 (sort_by_rank_nil _)) in Hs.
  funelim (find_best_encoder reg c); congruence.
Qed.

Lemma find_best_encoder_fallback reg c cs :
  codec_caps c = Some cs ->
  encoder_factories reg (caps_from_string cs) = [] ->
  c ≠ "vp8" ->
  find_best_encoder reg c
  = (("No encoder found for codec " ++ c ++ ", falling back to vp8")
       :: fst (find_best_encoder reg "vp8"),
     snd (find_best_encoder reg "vp8")).
Proof.
  intros H Hs Hne. apply (proj2 (sort_by_rank_nil _)) in Hs.
  funelim (find_best_encoder reg c); try congruence.
  destruct (find_best_encoder reg "vp8") as [lg r]. reflexivity.
Qed.

(** The call for "vp8" logs at most one line: it does not call again. *)
Lemma find_best_encoder_vp8_log reg :
  (List.length (fst (find_best_encoder reg "vp8")) <= 1)%nat.
Proof.
  destruct (sort_by_rank (encoder_factories reg (caps_from_string "video/x-vp8")))
    as [|best rest] eqn:Hs.
  - apply (proj1 (sort_by_rank_nil _)) in Hs.
    rewrite (find_best_encoder_none reg "vp8" "video/x-vp8" eq_refl Hs eq_refl).
    cbn. lia.
  - rewrite (find_best_encoder_found reg "vp8" "video/x-vp8" best rest eq_refl Hs).
    cbn. lia.
Qed.



(** [x264enc] and [nvh264enc] share the highest rank; [x264enc] comes first
    in the registry. *)
Example find_best_encoder_h264 :
  find_best_encoder [openh264enc; vp8enc; x264enc; nvh264enc] "h264"
  = ([], (Some "x264enc", Some "rtph264pay")).
Proof. vm_compute. reflexivity. Qed.

(** ** Builds that fail *)

Lemma prepared_wf cid pref msgs s : sink_wf s -> sink_wf (prepared cid pref msgs s).
Proof. unfold sink_wf, prepared; cbn. apply graph_wf_fresh. Qed.

Lemma new_webrtcbin_fresh cid pref msgs s :
  (eid (new_webrtcbin s) < next_id (bin (prepared cid pref msgs s)))%nat.
Proof. cbn. lia. Qed.

Lemma unresolved_bin cid pref msgs s :
  sink_wf s ->
  children (bin (unresolved cid pref msgs s)) = children (bin s)
  ∧ tee_src_pads (bin (unresolved cid pref msgs s)) = tee_src_pads (bin s)
  ∧ links (bin (unresolved cid pref msgs s)) = links (bin s)
  ∧ next_id (bin (unresolved cid pref msgs s)) = S (next_id (bin s)).
Proof.
  intros Hwf. unfold unresolved, prepared, new_webrtcbin.
  cbn [bin set_bin set_trace set_client_codecs graph_remove graph_fresh
       children tee_src_pads links next_id eid].
  repeat split.
  - apply (filter_all_below eid (next_id (bin s))); [apply Hwf|lia].
  - rewrite is_child_fresh, is_child_bound; [reflexivity|apply Hwf|cbn; lia].
Qed.

Lemma fresh_sink_wf : sink_wf fresh_sink.
Proof.
  unfold sink_wf, graph_wf; cbn.
  repeat split; repeat constructor; cbn; try lia.
  - rewrite list_elem_of_singleton. discriminate.
  - apply not_elem_of_nil.
Qed.




(** ** Branches per client *)

Lemma filter_name_nil (n : ElementName) (l : list Element) :
  ¬ In n (map ename l) ->
  List.filter (fun c => ElementName_eqb (ename c) n) l = [].
Proof.
  induction l as [|x l IH]; [reflexivity|]. cbn. intros Hn.
  destruct (ElementName_eqb (ename x) n) eqn:E.
  - apply ElementName_eqb_eq in E. tauto.
  - apply IH. tauto.
Qed.

Lemma branch_count_le_1 (s : Sink) (cid : option string) :
  sink_wf s -> (branch_count s cid <= 1)%nat.
Proof.
  intros (_ & _ & _ & Hnd). unfold branch_count.
  induction (children (bin s)) as [|x l IH]; cbn; [lia|].
  cbn in Hnd. apply NoDup_cons in Hnd as [Hx Hl].
  destruct (ElementName_eqb (ename x) (encoder_element_name cid)) eqn:E.
  - apply ElementName_eqb_eq in E. rewrite filter_name_nil; [cbn; lia|].
    rewrite <- E. intros Hin. apply Hx. apply list_elem_of_In. exact Hin.
  - apply IH. exact Hl.
Qed.

Lemma branch_count_name_in_use (s : Sink) (cid : option string) :
  (1 <= branch_count s cid)%nat <-> name_in_use (bin s) (encoder_element_name cid) = true.
Proof.
  unfold branch_count, name_in_use.
  induction (children (bin s)) as [|x l IH]; cbn; [split; [lia|discriminate]|].
  destruct (ElementName_eqb (ename x) (encoder_element_name cid)); cbn; [|exact IH].
  split; [reflexivity|lia].
Qed.

Lemma create_webrtcbin_wf env o cid pref s r s' :
  sink_wf s ->
  create_webrtcbin env o cid pref s = (r, s') ->
  sink_wf s'.
Proof.
  intros Hwf Hrun.
  destruct (create_webrtcbin_inv _ _ _ _ _ _ _ Hrun)
    as [(_ & _ & ->)|[(_ & _ & _ & ->)|(_ & _ & Hres)]].
  - exact Hwf.
  - apply graph_wf_fresh, Hwf.
  - destruct (resolve env _ _) as [[en pn]|].
    + eapply build_branch_wf; [| |exact Hres].
      * apply prepared_wf, Hwf.
      * apply new_webrtcbin_fresh.
    + destruct Hres as [_ ->]. apply graph_wf_remove, graph_wf_fresh, Hwf.
Qed.

Lemma serve_wf env requests s : sink_wf s -> sink_wf (snd (serve env requests s)).
Proof.
  revert s. induction requests as [|q rest IH]; intros s Hwf; [exact Hwf|].
  cbn [serve].
  destruct (create_webrtcbin env (answers q) (client_id q) (codec_preference q) s)
    as [r s1] eqn:Hrun.
  specialize (IH s1 (create_webrtcbin_wf _ _ _ _ _ _ _ Hwf Hrun)).
  destruct (serve env rest s1) as [rs s2]. exact IH.
Qed.

(** What one build does to the taps and to the encoder name of its
    client. *)
Lemma create_webrtcbin_outcome env o cid pref s r s' :
  sink_wf s ->
  create_webrtcbin env o cid pref s = (r, s') ->
  (tee_src_pads (bin s') = tee_src_pads (bin s) ∧ ∀ w, r ≠ Ok (Some w))
  ∨ (tap_count s' = S (tap_count s)
     ∧ name_in_use (bin s) (encoder_element_name cid) = false
     ∧ name_in_use (bin s') (encoder_element_name cid) = true).
Proof.
  intros Hwf Hrun.
  destruct (create_webrtcbin_inv _ _ _ _ _ _ _ Hrun)
    as [(_ & -> & ->)|[(_ & _ & -> & ->)|(_ & _ & Hres)]].
  - left. split; [reflexivity|discriminate].
  - left. split; [reflexivity|discriminate].
  - destruct (resolve env _ _) as [[en pn]|].
    + destruct (build_branch_outcome _ _ _ _ _ _ _ _ _ _
                  (prepared_wf _ _ _ _ Hwf) (new_webrtcbin_fresh _ _ _ _) Hres)
        as [[Hpads Hr]|(Hpads & _ & Hfree & Hused)].
      * left. split; [exact Hpads|exact Hr].
      * right. split; [|split; assumption].
        unfold tap_count. rewrite Hpads, length_app. cbn. lia.
    + destruct Hres as [-> ->]. left. split; [reflexivity|discriminate].
Qed.

(** C4.  After any sequence of builds every client has at most one branch
    in the bin, and a further build for a client whose branch is live hands
    out no second branch: it returns no webrtcbin and the taps stay as they
    are.  A build that does return a webrtcbin found no branch of its client
    and leaves exactly one, on one more tap. *)
Theorem C4_at_most_one_branch_per_client env requests s o cid pref r s'' :
  sink_wf s ->
  create_webrtcbin env o cid pref (snd (serve env requests s)) = (r, s'') ->
  let s' := snd (serve env requests s) in
  (∀ c, branch_count s' c <= 1)%nat
  ∧ (∀ c, branch_count s'' c <= 1)%nat
  ∧ ((1 <= branch_count s' cid)%nat ->
       (∀ w, r ≠ Ok (Some w)) ∧ tap_count s'' = tap_count s')
  ∧ (∀ w, r = Ok (Some w) ->
       branch_count s' cid = 0%nat ∧ branch_count s'' cid = 1%nat
       ∧ tap_count s'' = S (tap_count s')).
Proof.
  intros Hwf Hrun s'.
  pose proof (serve_wf env requests s Hwf) as Hwf'. fold s' in Hwf', Hrun.
  pose proof (create_webrtcbin_wf _ _ _ _ _ _ _ Hwf' Hrun) as Hwf''.
  split; [intros c; apply branch_count_le_1, Hwf'|].
  split; [intros c; apply branch_count_le_1, Hwf''|].
  destruct (create_webrtcbin_outcome _ _ _ _ _ _ _ Hwf' Hrun)
    as [[Hpads Hr]|(Htaps & Hfree & Hused)].
  - split.
    + intros _. split; [exact Hr|]. unfold tap_count. rewrite Hpads. reflexivity.
    + intros w Hw. destruct (Hr w Hw).
  - split.
    + intros Hlive. apply branch_count_name_in_use in Hlive. congruence.
    + intros w _.
      apply branch_count_name_in_use in Hused.
      pose proof (branch_count_le_1 s'' cid Hwf'').
      assert (¬ (1 <= branch_count s' cid)%nat) as Hzero.
      { intros Hlive. apply branch_count_name_in_use in Hlive. congruence. }
      repeat split; [lia|lia|exact Htaps].
Qed.

Lemma C4_at_most_one_branch_per_client_witness :
  let env := every_property [vp8enc] in
  let first := {| answers := all_made; client_id := Some "A";
                  codec_preference := Some "vp8" |} in
  let s' := snd (serve env [first] fresh_sink) in
  let again := create_webrtcbin env all_made (Some "A") (Some "vp8") s' in
  (∀ c, branch_count s' c <= 1)%nat
  ∧ (∀ c, branch_count (snd again) c <= 1)%nat
  ∧ ((1 <= branch_count s' (Some "A"))%nat ->
       (∀ w, fst again ≠ Ok (Some w)) ∧ tap_count (snd again) = tap_count s')
  ∧ (∀ w, fst again = Ok (Some w) ->
       branch_count s' (Some "A") = 0%nat ∧ branch_count (snd again) (Some "A") = 1%nat
       ∧ tap_count (snd again) = S (tap_count s')).
Proof.
  intros env first s' again.
  apply (C4_at_most_one_branch_per_client env [first] fresh_sink all_made
           (Some "A") (Some "vp8") (fst again) (snd again)).
  - apply fresh_sink_wf.
  - vm_compute. reflexivity.
Defined.

Example second_build_for_live_client :
  let env := every_property [vp8enc] in
  let first := {| answers := all_made; client_id := Some "A";
                  codec_preference := Some "vp8" |} in
  let s' := snd (serve env [first] fresh_sink) in
  let again := create_webrtcbin env all_made (Some "A") (Some "vp8") s' in
  branch_count s' (Some "A") = 1%nat
  ∧ tap_count s' = 1%nat
  ∧ fst again = Ok None
  ∧ tap_count (snd again) = 1%nat
  ∧ children (bin (snd again)) = children (bin s').
Proof. vm_compute. repeat split. Qed.

(** ** What a build instantiates, and in which order *)

Lemma makes_prepared cid pref msgs s :
  makes (trace (prepared cid pref msgs s)) = ("webrtcbin", true) :: makes (trace s).
Proof.
  unfold prepared, set_trace; cbn [trace].
  rewrite makes_app, makes_log. reflexivity.
Qed.

Lemma makes_unresolved cid pref msgs s :
  makes (trace (unresolved cid pref msgs s)) = ("webrtcbin", true) :: makes (trace s).
Proof.
  unfold unresolved, prepared, set_trace, set_bin, set_client_codecs; cbn [trace makes].
  rewrite makes_app, makes_log. reflexivity.
Qed.

Lemma create_webrtcbin_makes env o cid pref s r s' :
  create_webrtcbin env o cid pref s = (r, s') ->
  ∃ new,
    makes (trace s') = (rev new ++ makes (trace s))%list
    ∧ (new = [("webrtcbin", false)]
       ∨ new = [("webrtcbin", true)]
       ∨ ∃ en pn bm,
           resolve env (requested_codec cid pref s) (video_codec s) = Some (en, pn)
           ∧ branch_makes en pn bm
           ∧ new = ("webrtcbin", true) :: bm)
    ∧ (∀ w, r = Ok (Some w) ->
         ∃ en pn,
           resolve env (requested_codec cid pref s) (video_codec s) = Some (en, pn)
           ∧ new = [("webrtcbin", true); (en, true); (pn, true); ("queue", true)]).
Proof.
  intros Hrun.
  destruct (create_webrtcbin_inv _ _ _ _ _ _ _ Hrun)
    as [(_ & -> & ->)|[(_ & _ & -> & ->)|(_ & _ & Hres)]].
  - exists [("webrtcbin", false)]. split; [reflexivity|]. split; [tauto|discriminate].
  - exists [("webrtcbin", true)]. split; [reflexivity|]. split; [tauto|discriminate].
  - destruct (resolve env _ _) as [[en pn]|] eqn:Hnames.
    + destruct (build_branch_makes _ _ _ _ _ _ _ _ _ _ Hres) as (bm & Hm & Hbm & Hok).
      exists (("webrtcbin", true) :: bm). split; [|split].
      * rewrite Hm, makes_prepared. cbn [rev]. rewrite <- app_assoc. reflexivity.
      * right. right. exists en, pn, bm. auto.
      * intros w Hw. exists en, pn. split; [reflexivity|].
        rewrite (Hok w Hw). reflexivity.
    + destruct Hres as [-> ->].
      exists [("webrtcbin", true)]. split; [|split; [tauto|discriminate]].
      rewrite makes_unresolved. reflexivity.
Qed.

(** C7 (amended).  The factories a build asks, oldest first, are the
    webrtcbin, then the encoder and the payloader that were resolved for the
    request, then the queue; it asks the next one only after the one before
    it came back.  A build that returns a webrtcbin has asked all four. *)
Theorem C7_instantiation_order env o cid pref s r s' :
  create_webrtcbin env o cid pref s = (r, s') ->
  ∃ new,
    makes (trace s') = (rev new ++ makes (trace s))%list
    ∧ (new = [("webrtcbin", false)]
       ∨ new = [("webrtcbin", true)]
       ∨ ∃ en pn,
           resolve env (requested_codec cid pref s) (video_codec s) = Some (en, pn)
           ∧ (new = [("webrtcbin", true); (en, false)]
              ∨ new = [("webrtcbin", true); (en, true); (pn, false)]
              ∨ new = [("webrtcbin", true); (en, true); (pn, true); ("queue", false)]
              ∨ new = [("webrtcbin", true); (en, true); (pn, true); ("queue", true)]))
    ∧ (∀ w, r = Ok (Some w) ->
         ∃ en pn,
           resolve env (requested_codec cid pref s) (video_codec s) = Some (en, pn)
           ∧ new = [("webrtcbin", true); (en, true); (pn, true); ("queue", true)]).
Proof.
  intros Hrun.
  destruct (create_webrtcbin_makes _ _ _ _ _ _ _ Hrun) as (new & Hm & Hshape & Hok).
  exists new. split; [exact Hm|]. split; [|exact Hok].
  destruct Hshape as [->|[->|(en & pn & bm & Hres & Hbm & ->)]]; [tauto|tauto|].
  right. right. exists en, pn. split; [exact Hres|].
  destruct Hbm as [->|[->|[->| ->]]]; tauto.
Qed.

Lemma C7_instantiation_order_witness :
  let run := create_webrtcbin (every_property [vp8enc]) all_made (Some "A") (Some "vp8")
               fresh_sink in
  resolve (every_property [vp8enc]) "vp8" "vp8" = Some ("vp8enc", "rtpvp8pay")
  ∧ makes (trace (snd run))
    = (rev [("webrtcbin", true); ("vp8enc", true); ("rtpvp8pay", true); ("queue", true)]
       ++ makes (trace fresh_sink))%list.
Proof.
  intros run.
  destruct (C7_instantiation_order (every_property [vp8enc]) all_made (Some "A") (Some "vp8")
              fresh_sink (fst run) (snd run)) as (new & Hm & _ & Hok).
  - vm_compute. reflexivity.
  - destruct (Hok {| eid := 2; efactory := "webrtcbin"; ename := AutoName 2 |})
      as (en & pn & Hres & ->).
    + vm_compute. reflexivity.
    + split; [vm_compute; reflexivity|].
      assert (Hnames : Some (en, pn) = Some ("vp8enc", "rtpvp8pay")).
      { rewrite <- Hres. vm_compute. reflexivity. }
      injection Hnames as -> ->. exact Hm.
Defined.

(** C7 as stated fails: in a build that succeeds the queue is asked last,
    after the encoder and the payloader, not second. *)
Lemma C7_queue_is_instantiated_last :
  let run := create_webrtcbin (every_property [vp8enc]) all_made (Some "A") (Some "vp8")
               fresh_sink in
  (∃ w, fst run = Ok (Some w))
  ∧ rev (makes (trace (snd run)))
    = (rev (makes (trace fresh_sink))
       ++ [("webrtcbin", true); ("vp8enc", true); ("rtpvp8pay", true); ("queue", true)])%list
  ∧ rev (makes (trace (snd run)))
    ≠ (rev (makes (trace fresh_sink))
       ++ [("webrtcbin", true); ("queue", true); ("vp8enc", true); ("rtpvp8pay", true)])%list.
Proof.
  vm_compute. split; [eauto|]. split; [reflexivity|discriminate].
Qed.

(** ** The guard after the creation of the queue *)

Lemma find_best_encoder_messages reg c :
  Forall (fun m => ∃ rest, m = "Unsupported codec: " ++ rest
                           ∨ m = "No encoder found for codec " ++ rest)
         (fst (find_best_encoder reg c)).
Proof.
  funelim (find_best_encoder reg c); cbn [fst].
  - constructor; [eauto|constructor].
  - constructor.
  - constructor; [eauto|constructor].
  - destruct (find_best_encoder reg "vp8") as [lg r] eqn:E. cbn [fst] in *.
    constructor; [eauto|assumption].
Qed.

Lemma find_messages_not_guard env c d :
  ¬ In (EvLogError queue_guard_message) (rev (map EvLogError (find_messages env c d))).
Proof.
  intros Hin. apply in_rev, in_map_iff in Hin as (m & Hm & Hin).
  injection Hm as ->.
  assert (Forall (fun m => ∃ rest, m = "Unsupported codec: " ++ rest
                                   ∨ m = "No encoder found for codec " ++ rest)
                 (find_messages env c d)) as Hall.
  { unfold find_messages. destruct (usable _).
    - apply find_best_encoder_messages.
    - apply Forall_app. split; apply find_best_encoder_messages. }
  rewrite Forall_forall in Hall. apply list_elem_of_In, Hall in Hin.
  destruct Hin as (rest & [H|H]); discriminate H.
Qed.

(** C10.  The queue is configured before it is tested: no run takes the
    branch of the guard [if not queue], and a run in which the queue cannot
    be created raises on the missing element instead of returning [None]. *)
Theorem C10_queue_guard_is_unreachable env o cid pref s r s' :
  create_webrtcbin env o cid pref s = (r, s') ->
  (¬ In (EvLogError queue_guard_message) (trace s) ->
   ¬ In (EvLogError queue_guard_message) (trace s'))
  ∧ (webrtcbin_made o = true ->
     has_property env "webrtcbin" "stun-server" = true ->
     resolve env (requested_codec cid pref s) (video_codec s) ≠ None ->
     encoder_made o = true ->
     payloader_made o = true ->
     queue_made o = false ->
     r = Raise AttributeError).
Proof.
  intros Hrun.
  destruct (create_webrtcbin_inv _ _ _ _ _ _ _ Hrun)
    as [(Hw & -> & ->)|[(_ & Hstun & -> & ->)|(_ & _ & Hres)]].
  - split; [|congruence].
    intros Hnot [H|[H|H]]; [discriminate H|discriminate H|tauto].
  - split; [|congruence].
    intros Hnot [H|[H|H]]; [discriminate H|discriminate H|tauto].
  - destruct (resolve env _ _) as [[en pn]|].
    + split.
      * intros Hnot Hin. apply (build_branch_queue_guard _ _ _ _ _ _ _ _ _ _ Hres) in Hin.
        unfold prepared, set_trace in Hin; cbn [trace] in Hin.
        apply in_app_or in Hin as [Hin|[H|[H|Hin]]];
          [exact (find_messages_not_guard _ _ _ Hin)|discriminate H|discriminate H|tauto].
      * intros _ _ _ He Hp Hq.
        pose proof (build_branch_queue_none env o cid (requested_codec cid pref s)
                      (new_webrtcbin s) en pn
                      (prepared cid pref
                         (find_messages env (requested_codec cid pref s) (video_codec s)) s)
                      He Hp Hq) as Hraise.
        rewrite Hres in Hraise. exact Hraise.
    + destruct Hres as [-> ->]. split; [|congruence].
      intros Hnot Hin.
      unfold unresolved, prepared, set_trace, set_bin, set_client_codecs in Hin;
        cbn [trace] in Hin.
      destruct Hin as [H|[H|[H|Hin]]]; try discriminate H.
      apply in_app_or in Hin as [Hin|[H|[H|Hin]]];
        [exact (find_messages_not_guard _ _ _ Hin)|discriminate H|discriminate H|tauto].
Qed.

Lemma C10_queue_guard_is_unreachable_witness :
  let run := create_webrtcbin (every_property [vp8enc]) no_queue (Some "A") (Some "vp8")
               fresh_sink in
  ¬ In (EvLogError queue_guard_message) (trace (snd run))
  ∧ fst run = Raise AttributeError.
Proof.
  intros run.
  destruct (C10_queue_guard_is_unreachable (every_property [vp8enc]) no_queue
              (Some "A") (Some "vp8") fresh_sink (fst run) (snd run)) as [Hdead Hraise].
  - vm_compute. reflexivity.
  - split.
    + apply Hdead. vm_compute. intuition discriminate.
    + apply Hraise; try reflexivity. vm_compute. discriminate.
Defined.

(** ** Preferences the registry cannot serve *)

Lemma resolve_unknown env c d :
  codec_caps c = None ->
  resolve env c d = usable (snd (find_best_encoder (registry env) d)).
Proof.
  intros H. unfold resolve. rewrite (find_best_encoder_unknown _ _ H). reflexivity.
Qed.

Lemma trace_bin_written (f : list Event -> list Event) (h : Graph -> Graph) (s : Sink) :
  trace (set_trace f (set_bin h s)) = f (trace s)
  ∧ bin (set_trace f (set_bin h s)) = h (bin s).
Proof. destruct s; split; reflexivity. Qed.

Lemma build_branch_no_codec_setting env o cid c w en pn s r s' :
  String.eqb c "h264" = false ->
  build_branch env o cid c w en pn s = (r, s') ->
  ∃ t, trace s' = (t ++ trace s)%list ∧ Forall (fun e => is_codec_setting e = false) t.
Proof.
  intros Hc Hrun.
  unfold build_branch in *.
  destruct o as [wm em pm qm pg tq qe ep pw].
  destruct s as [p wp ba ss vc hs ht sg sgt cv te started cc g tr].
  exec Hrun.
  all: try discriminate.
  all: inversion Hrun; subst; clear Hrun.
  all: cbn [trace].
  all: match goal with
       | |- ∃ t, ?l = _ ∧ _ => let p := prefix_of l in exists p
       end.
  all: split; [reflexivity|repeat constructor].
Qed.

Lemma log_no_codec_setting (msgs : Log) :
  Forall (fun e => is_codec_setting e = false) (rev (map EvLogError msgs)).
Proof.
  apply Forall_rev, Forall_fmap, Forall_forall. intros m _. reflexivity.
Qed.

Lemma create_webrtcbin_no_codec_setting env o cid pref s r s' :
  String.eqb (requested_codec cid pref s) "h264" = false ->
  create_webrtcbin env o cid pref s = (r, s') ->
  ∃ t, trace s' = (t ++ trace s)%list ∧ Forall (fun e => is_codec_setting e = false) t.
Proof.
  intros Hc Hrun.
  destruct (create_webrtcbin_inv _ _ _ _ _ _ _ Hrun)
    as [(_ & _ & ->)|[(_ & _ & _ & ->)|(_ & _ & Hres)]].
  - exists [EvLogError "Failed to create WebRTCbin"; EvMake "webrtcbin" None None].
    split; [destruct s; reflexivity|repeat constructor].
  - exists [EvSetProperty (next_id (bin s)) "stun-server" (VStr (stun_server s)) false;
            EvMake "webrtcbin" None (Some (next_id (bin s)))].
    split; [destruct s; reflexivity|repeat constructor].
  - revert Hres. generalize (find_messages env (requested_codec cid pref s) (video_codec s)).
    intros msgs Hres.
    assert (Hprep : trace (prepared cid pref msgs s)
                    = ((rev (map EvLogError msgs)
                        ++ [EvSetProperty (next_id (bin s)) "stun-server"
                              (VStr (stun_server s)) true;
                            EvMake "webrtcbin" None (Some (next_id (bin s)))])
                       ++ trace s)%list).
    { destruct s as [p wp ba ss vc hs ht sg sgt cv te started cc g t].
      unfold prepared, set_trace, set_client_codecs, set_bin. cbn [trace bin stun_server].
      rewrite <- app_assoc. reflexivity. }
    assert (Hall : Forall (fun e => is_codec_setting e = false)
                     (rev (map EvLogError msgs)
                      ++ [EvSetProperty (next_id (bin s)) "stun-server"
                            (VStr (stun_server s)) true;
                          EvMake "webrtcbin" None (Some (next_id (bin s)))])%list).
    { apply Forall_app. split; [apply log_no_codec_setting|repeat constructor]. }
    destruct (resolve env _ _) as [[en pn]|].
    + destruct (build_branch_no_codec_setting _ _ _ _ _ _ _ _ _ _ Hc Hres) as (t & Ht & Hf).
      eexists. split; [rewrite Ht, Hprep, app_assoc; reflexivity|].
      apply Forall_app. split; assumption.
    + destruct Hres as [_ ->]. unfold unresolved.
      match goal with
      | |- context [trace (set_trace ?f (set_bin ?h ?S))] =>
          destruct (trace_bin_written f h S) as [-> _]
      end.
      rewrite Hprep.
      exists (EvRemove (next_id (bin s)) (is_child (graph_fresh (bin s)) (new_webrtcbin s))
              :: EvSetStateNull (next_id (bin s))
              :: EvLogError "Could not find any suitable encoder"
              :: (rev (map EvLogError msgs)
                  ++ [EvSetProperty (next_id (bin s)) "stun-server"
                        (VStr (stun_server s)) true;
                      EvMake "webrtcbin" None (Some (next_id (bin s)))]))%list.
      split; [reflexivity|]. repeat (constructor; [reflexivity|]). exact Hall.
Qed.

Lemma unknown_is_not_h264 (c : string) : codec_caps c = None -> String.eqb c "h264" = false.
Proof.
  unfold codec_caps. intros H.
  destruct (String.eqb c "vp8"); [discriminate|].
  destruct (String.eqb c "h264"); [discriminate|reflexivity].
Qed.

(** C5 (amended).  A preference that is not in the codec table is recorded
    in [client_codecs] all the same and stays the value of [codec_to_use]:
    the branch is built with the encoder and the payloader of the configured
    default, and with the unknown name as its codec, so that the settings of
    the h264 block are not applied even when the default is h264.  In every
    build, returned or not, the encoder and payloader factories asked are
    those of the default. *)
Theorem C5_unknown_preference_is_recorded env o cid preference s r s' :
  codec_caps preference = None ->
  create_webrtcbin env o (Some cid) (Some preference) s = (r, s') ->
  let default := usable (snd (find_best_encoder (registry env) (video_codec s))) in
  (webrtcbin_made o = true ->
   has_property env "webrtcbin" "stun-server" = true ->
   client_codecs s' !! cid = Some preference
   ∧ match default with
     | Some (en, pn) =>
         build_branch env o (Some cid) preference (new_webrtcbin s) en pn
           (prepared (Some cid) (Some preference)
              (find_messages env preference (video_codec s)) s) = (r, s')
     | None => r = Ok None
     end)
  ∧ (∃ new,
       makes (trace s') = (rev new ++ makes (trace s))%list
       ∧ (new = [("webrtcbin", false)]
          ∨ new = [("webrtcbin", true)]
          ∨ ∃ en pn bm,
              default = Some (en, pn)
              ∧ branch_makes en pn bm
              ∧ new = ("webrtcbin", true) :: bm)
       ∧ (∀ w, r = Ok (Some w) ->
            ∃ en pn,
              default = Some (en, pn)
              ∧ new = [("webrtcbin", true); (en, true); (pn, true); ("queue", true)]))
  ∧ (∃ t, trace s' = (t ++ trace s)%list
          ∧ Forall (fun e => is_codec_setting e = false) t).
Proof.
  intros Hunknown Hrun default. subst default.
  pose proof (resolve_unknown env preference (video_codec s) Hunknown) as Hres.
  split; [|split].
  - intros Hw Hstun.
    destruct (create_webrtcbin_inv _ _ _ _ _ _ _ Hrun)
      as [(Hw' & _)|[(_ & Hstun' & _)|(_ & _ & Hb)]]; [congruence|congruence|].
    cbn [requested_codec] in Hb. rewrite Hres in Hb.
    destruct (usable _) as [[en pn]|].
    + split; [|exact Hb].
      destruct (build_branch_frame _ _ _ _ _ _ _ _ _ _ Hb) as (-> & _).
      cbn. apply lookup_insert_eq.
    + destruct Hb as [-> ->]. split; [|reflexivity]. cbn. apply lookup_insert_eq.
  - destruct (create_webrtcbin_makes _ _ _ _ _ _ _ Hrun) as (new & Hm & Hshape & Hok).
    cbn [requested_codec] in Hshape, Hok. rewrite Hres in Hshape, Hok.
    exists new. auto.
  - exact (create_webrtcbin_no_codec_setting env o (Some cid) (Some preference) s r s'
             (unknown_is_not_h264 _ Hunknown) Hrun).
Qed.

Lemma C5_unknown_preference_is_recorded_witness :
  let env := every_property [x264enc] in
  let s := snd (do_set_property "video-codec" (VStr "h264") fresh_sink) in
  let run := create_webrtcbin env all_made (Some "B") (Some "unknown-codec") s in
  client_codecs (snd run) !! "B" = Some "unknown-codec"
  ∧ makes (trace (snd run))
    = (rev [("webrtcbin", true); ("x264enc", true); ("rtph264pay", true); ("queue", true)]
       ++ makes (trace s))%list
  ∧ ∃ t, trace (snd run) = (t ++ trace s)%list
         ∧ Forall (fun e => is_codec_setting e = false) t.
Proof.
  intros env s run.
  destruct (C5_unknown_preference_is_recorded env all_made "B" "unknown-codec" s
              (fst run) (snd run)) as (Hrec & _ & Hsettings).
  - reflexivity.
  - vm_compute. reflexivity.
  - split; [apply Hrec; reflexivity|]. split; [vm_compute; reflexivity|exact Hsettings].
Defined.

(** C5 as stated fails: the unknown name is what [client_codecs] holds for
    the client afterwards, where a request without preference writes
    nothing. *)
Lemma C5_unknown_name_is_stored :
  let env := every_property [vp8enc] in
  let unknown := create_webrtcbin env all_made (Some "B") (Some "unknown-codec") fresh_sink in
  let silent := create_webrtcbin env all_made (Some "B") None fresh_sink in
  codec_caps "unknown-codec" = None
  ∧ (∃ w, fst unknown = Ok (Some w))
  ∧ client_codecs (snd unknown) !! "B" = Some "unknown-codec"
  ∧ client_codecs (snd silent) !! "B" = None.
Proof.
  vm_compute. split; [reflexivity|]. split; [eauto|]. split; reflexivity.
Qed.

(** C2 (amended).  For a codec of the table without a matching encoder,
    [find_best_encoder] answers what it answers for the hard-coded "vp8",
    and that inner call does not fall back again.  [create_webrtcbin] asks
    for the configured default only when this gives nothing, and when the
    default gives nothing either it returns [None] with the bin, the taps
    and the links as before; the entry in [client_codecs] stays. *)
Theorem C2_fallback_is_vp8_then_default env o cid pref s cs r s' :
  sink_wf s ->
  codec_caps (requested_codec cid pref s) = Some cs ->
  encoder_factories (registry env) (caps_from_string cs) = [] ->
  webrtcbin_made o = true ->
  has_property env "webrtcbin" "stun-server" = true ->
  create_webrtcbin env o cid pref s = (r, s') ->
  let c := requested_codec cid pref s in
  let msgs := find_messages env c (video_codec s) in
  snd (find_best_encoder (registry env) c) = snd (find_best_encoder (registry env) "vp8")
  ∧ (List.length (fst (find_best_encoder (registry env) "vp8")) <= 1)%nat
  ∧ match usable (snd (find_best_encoder (registry env) "vp8")) with
    | Some (en, pn) =>
        build_branch env o cid c (new_webrtcbin s) en pn (prepared cid pref msgs s) = (r, s')
    | None =>
        match usable (snd (find_best_encoder (registry env) (video_codec s))) with
        | Some (en, pn) =>
            build_branch env o cid c (new_webrtcbin s) en pn (prepared cid pref msgs s)
            = (r, s')
        | None =>
            r = Ok None
            ∧ children (bin s') = children (bin s)
            ∧ tee_src_pads (bin s') = tee_src_pads (bin s)
            ∧ links (bin s') = links (bin s)
            ∧ client_codecs s' = recorded cid pref (client_codecs s)
        end
    end.
Proof.
  intros Hwf Hcaps Hnone Hw Hstun Hrun c msgs. subst c msgs.
  assert (snd (find_best_encoder (registry env) (requested_codec cid pref s))
          = snd (find_best_encoder (registry env) "vp8")) as Hsame.
  { destruct (decide (requested_codec cid pref s = "vp8")) as [->|Hne]; [reflexivity|].
    rewrite (find_best_encoder_fallback _ _ _ Hcaps Hnone Hne). reflexivity. }
  split; [exact Hsame|]. split; [apply find_best_encoder_vp8_log|].
  destruct (create_webrtcbin_inv _ _ _ _ _ _ _ Hrun)
    as [(Hw' & _)|[(_ & Hstun' & _)|(_ & _ & Hres)]]; [congruence|congruence|].
  unfold resolve in Hres. rewrite Hsame in Hres.
  destruct (usable (snd (find_best_encoder (registry env) "vp8"))) as [[en pn]|];
    [exact Hres|].
  destruct (usable (snd (find_best_encoder (registry env) (video_codec s)))) as [[en pn]|];
    [exact Hres|].
  destruct Hres as [-> ->].
  destruct (unresolved_bin cid pref
              (find_messages env (requested_codec cid pref s) (video_codec s)) s Hwf)
    as (Hc & Hp & Hl & _).
  repeat split; assumption.
Qed.

Lemma C2_fallback_is_vp8_then_default_witness :
  let env := every_property [] in
  let run := create_webrtcbin env all_made (Some "A") (Some "h264") fresh_sink in
  snd (find_best_encoder [] "h264") = snd (find_best_encoder [] "vp8")
  ∧ fst run = Ok None
  ∧ children (bin (snd run)) = children (bin fresh_sink)
  ∧ tee_src_pads (bin (snd run)) = tee_src_pads (bin fresh_sink)
  ∧ links (bin (snd run)) = links (bin fresh_sink)
  ∧ client_codecs (snd run) = <["A" := "h264"]> (client_codecs fresh_sink).
Proof.
  intros env run.
  destruct (C2_fallback_is_vp8_then_default env all_made (Some "A") (Some "h264")
              fresh_sink "video/x-h264" (fst run) (snd run)) as (Hsame & _ & Hrest).
  - apply fresh_sink_wf.
  - reflexivity.
  - reflexivity.
  - reflexivity.
  - reflexivity.
  - vm_compute. reflexivity.
  - split; [exact Hsame|]. exact Hrest.
Defined.

(** C2 as stated fails: the default is "vp9" and has an encoder, "av1" has
    none, and the branch is built on the encoder of "vp8". *)
Lemma C2_fallback_ignores_configured_default :
  let env := every_property [vp8enc; vp9enc] in
  let s := snd (do_set_property "video-codec" (VStr "vp9") fresh_sink) in
  let run := create_webrtcbin env all_made (Some "A") (Some "av1") s in
  encoder_factories (registry env) (caps_from_string "video/x-av1") = []
  ∧ snd (find_best_encoder (registry env) (video_codec s))
    = (Some "vp9enc", Some "rtpvp9pay")
  ∧ (∃ w, fst run = Ok (Some w))
  ∧ makes (trace (snd run))
    = (rev [("webrtcbin", true); ("vp8enc", true); ("rtpvp8pay", true); ("queue", true)]
       ++ makes (trace s))%list.
Proof.
  vm_compute. split; [reflexivity|]. split; [reflexivity|]. split; [eauto|reflexivity].
Qed.

(** ** The servers over the state changes *)

Ltac unfold_lifecycle :=
  unfold do_change_state, start_servers, stop_servers.







(** A failure after the HTTP server was started is answered like any other:
    the flag stays cleared; the handle of the HTTP server stays set. *)
Example late_failure_keeps_http_handle :
  let run := do_change_state SignalingFails SUCCESS NULL_TO_READY fresh_sink in
  fst run = Ok FAILURE
  ∧ servers_started (snd run) = false
  ∧ http_server (snd run) = Some ("0.0.0.0", 8080)
  ∧ signaling (snd run) = None.
Proof. vm_compute. repeat split. Qed.

(** C9.  When [start_servers] raises, the request for NULL_TO_READY
    answers FAILURE without reaching the parent class, the failure is
    logged, the servers are not marked as started, and a later request
    starts them. *)
Theorem C9_failed_start_leaves_sink_idle start parent parent' s :
  servers_started s = false ->
  start ≠ StartOK ->
  let run := do_change_state start parent NULL_TO_READY s in
  let retry := do_change_state StartOK parent' NULL_TO_READY (snd run) in
  fst run = Ok FAILURE
  ∧ servers_started (snd run) = false
  ∧ (∃ evs, trace (snd run) = (EvLogError "Failed to start servers" :: evs ++ trace s)%list
            ∧ ∀ tr answer, ¬ In (EvParentChangeState tr answer) evs)
  ∧ bin (snd run) = bin s
  ∧ client_codecs (snd run) = client_codecs s
  ∧ fst retry = Ok parent'
  ∧ servers_started (snd retry) = true.
Proof.
  intros Hstopped Hstart.
  destruct s as [p wp ba ss vc hs ht sg sgt cv te started cc g t].
  cbn in Hstopped. subst started. unfold_lifecycle.
  destruct start; [congruence| |]; run_goal; cbn [fst snd servers_started trace bin client_codecs].
  all: repeat split; try reflexivity.
  - exists [EvBind ba p false]. split; [reflexivity|].
    intros tr answer [H|[]]. discriminate H.
  - exists [EvSignalingStart ba wp false; EvHttpServe; EvBind ba p true].
    split; [reflexivity|]. intros tr answer [H|[H|[H|[]]]]; discriminate H.
Qed.

Lemma C9_failed_start_leaves_sink_idle_witness :
  let run := do_change_state BindFails SUCCESS NULL_TO_READY fresh_sink in
  let retry := do_change_state StartOK SUCCESS NULL_TO_READY (snd run) in
  fst run = Ok FAILURE
  ∧ servers_started (snd run) = false
  ∧ (∃ evs, trace (snd run)
            = (EvLogError "Failed to start servers" :: evs ++ trace fresh_sink)%list
            ∧ ∀ tr answer, ¬ In (EvParentChangeState tr answer) evs)
  ∧ bin (snd run) = bin fresh_sink
  ∧ client_codecs (snd run) = client_codecs fresh_sink
  ∧ fst retry = Ok SUCCESS
  ∧ servers_started (snd retry) = true.
Proof.
  apply (C9_failed_start_leaves_sink_idle BindFails SUCCESS SUCCESS fresh_sink).
  - reflexivity.
  - discriminate.
Defined.




(** * Beyond the statements *)

(** ** What [find_best_encoder] can return *)

Lemma prefix_app (a b s : string) :
  String.prefix (a ++ b) s = true -> String.prefix a s = true.
Proof.
  revert s. induction a as [|c a IH]; intros s; [destruct s; reflexivity|].
  destruct s as [|d s]; simpl; [auto|].
  destruct (ascii_dec c d); [apply IH|auto].
Qed.

Lemma contains_app (a b s : string) :
  PyStr.contains (a ++ b) s = true -> PyStr.contains a s = true.
Proof.
  induction s as [|d s IH].
  - cbn. destruct a; [reflexivity|]. cbn. discriminate.
  - cbn [PyStr.contains].
    destruct (String.prefix (a ++ b) (String d s)) eqn:E.
    + rewrite (prefix_app _ _ _ E). reflexivity.
    + intros H. rewrite (IH H). destruct (String.prefix a (String d s)); reflexivity.
Qed.

(** X3.  The first test on the factory name is implied by the second: a
    factory is a candidate exactly when its name contains "enc" and its
    klass, in lower case, contains "encoder". *)
Theorem X3_encoder_test_reads_enc (f : Factory) :
  is_encoder f
  = PyStr.contains "enc" (factory_name f)
    && PyStr.contains "encoder" (PyStr.lower (klass f)).
Proof.
  unfold is_encoder.
  destruct (PyStr.contains "encoder" (factory_name f)) eqn:E; [|reflexivity].
  rewrite (contains_app "enc" "oder" _ E). reflexivity.
Qed.

Lemma payloader_map_known c cs : codec_caps c = Some cs -> ∃ p, payloader_map c = Some p.
Proof.
  unfold codec_caps, payloader_map.
  repeat (destruct (String.eqb c _); [eauto|]). discriminate.
Qed.

Lemma sort_by_rank_head_in (l : list Factory) best rest :
  sort_by_rank l = best :: rest -> In best l.
Proof.
  intros Hs. destruct l as [|x l]; [discriminate|].
  destruct (sort_by_rank_head (x :: l)) as (before & b & after & r & Hl & _ & _ & Hs');
    [discriminate|].
  rewrite Hs in Hs'. injection Hs' as -> _. rewrite Hl.
  apply in_or_app. right. left. reflexivity.
Qed.

Lemma find_best_encoder_direct reg c cs :
  codec_caps c = Some cs ->
  encoder_factories reg (caps_from_string cs) ≠ [] ->
  ∃ f p,
    payloader_map c = Some p ∧ In f reg ∧ is_encoder f = true
    ∧ produces (caps_from_string cs) f = true
    ∧ find_best_encoder reg c = ([], (Some (factory_name f), Some p)).
Proof.
  intros Hc Hne.
  destruct (sort_by_rank (encoder_factories reg (caps_from_string cs))) as [|best rest] eqn:Hs.
  { apply (proj1 (sort_by_rank_nil _)) in Hs. contradiction. }
  pose proof (sort_by_rank_head_in _ _ _ Hs) as Hin.
  apply List.filter_In in Hin as [Hin Htest]. apply andb_prop in Htest as [He Hp].
  destruct (payloader_map_known c cs Hc) as [p Hpay].
  exists best, p. repeat split; try assumption.
  rewrite (find_best_encoder_found reg c cs best rest Hc Hs), Hpay. reflexivity.
Qed.

(** X4.  [find_best_encoder] answers nothing, or an encoder together with
    the payloader of the same codec: a factory of the registry that passes
    the name and klass test and has a SRC template for the caps of that
    codec, the codec being the one asked for or "vp8". *)
Theorem X4_encoder_and_payloader_of_one_codec (reg : Registry) (codec_name : string) :
  snd (find_best_encoder reg codec_name) = (None, None)
  ∨ ∃ f codec caps_string p,
      (codec = codec_name ∨ codec = "vp8")
      ∧ codec_caps codec = Some caps_string
      ∧ payloader_map codec = Some p
      ∧ In f reg
      ∧ is_encoder f = true
      ∧ produces (caps_from_string caps_string) f = true
      ∧ snd (find_best_encoder reg codec_name) = (Some (factory_name f), Some p).
Proof.
  destruct (codec_caps codec_name) as [cs|] eqn:Hc.
  2:{ left. rewrite (find_best_encoder_unknown _ _ Hc). reflexivity. }
  destruct (encoder_factories reg (caps_from_string cs)) as [|x l] eqn:Hl.
  - destruct (decide (codec_name = "vp8")) as [Hvp8|Hne].
    + left. rewrite (find_best_encoder_none _ _ _ Hc Hl Hvp8). reflexivity.
    + rewrite (find_best_encoder_fallback _ _ _ Hc Hl Hne). cbn [snd].
      destruct (encoder_factories reg (caps_from_string "video/x-vp8")) as [|y l'] eqn:Hv.
      * left. rewrite (find_best_encoder_none reg "vp8" "video/x-vp8" eq_refl Hv eq_refl).
        reflexivity.
      * right.
        destruct (find_best_encoder_direct reg "vp8" "video/x-vp8" eq_refl)
          as (f & p & Hp & Hin & He & Hpr & Hfind); [congruence|].
        exists f, "vp8", "video/x-vp8", p. rewrite Hfind. repeat split; auto.
  - right.
    destruct (find_best_encoder_direct reg codec_name cs Hc) as (f & p & Hp & Hin & He & Hpr & Hfind);
      [congruence|].
    exists f, codec_name, cs, p. rewrite Hfind. repeat split; auto.
Qed.

(** ** Properties of the element *)

Lemma eqb_cases (a b : string) : (String.eqb a b = true ∧ a = b) ∨ (String.eqb a b = false ∧ a ≠ b).
Proof. destruct (String.eqb_spec a b); [left|right]; auto. Qed.

(** X1.  A property written with [do_set_property] is what
    [do_get_property] reads back, and every other property reads as before. *)
Theorem X1_property_round_trip (name other : string) (value : PropValue) (s : Sink) :
  property_type_ok name value = true ->
  let s' := snd (do_set_property name value s) in
  fst (do_set_property name value s) = Ok tt
  ∧ fst (do_get_property name s') = Ok value
  ∧ snd (do_get_property name s') = s'
  ∧ (other ≠ name -> fst (do_get_property other s') = fst (do_get_property other s)).
Proof.
  intros Hty. destruct s as [p wp ba ss vc hs ht sg sgt cv te started cc g t].
  unfold property_type_ok in Hty.
  destruct value as [v|z|b]; [| |discriminate].
  - unfold do_set_property.
    destruct (eqb_cases name "bind-address") as [[E ->]|[E N1]];
      [|destruct (eqb_cases name "stun-server") as [[E2 ->]|[E2 N2]];
        [|destruct (eqb_cases name "video-codec") as [[E3 ->]|[E3 N3]]]].
    4:{ rewrite E, E2, E3 in Hty. discriminate. }
    all: cbn; repeat split; try reflexivity.
    all: intros Hne; unfold do_get_property.
    all: repeat match goal with
         | |- context [String.eqb ?o ?k] =>
             destruct (eqb_cases o k) as [[-> ->]|[-> ?]]; try congruence
         end.
    all: reflexivity.
  - unfold do_set_property.
    destruct (eqb_cases name "port") as [[E ->]|[E N1]];
      [|destruct (eqb_cases name "ws-port") as [[E2 ->]|[E2 N2]]].
    3:{ rewrite E, E2 in Hty. discriminate. }
    all: cbn; repeat split; try reflexivity.
    all: intros Hne; unfold do_get_property.
    all: repeat match goal with
         | |- context [String.eqb ?o ?k] =>
             destruct (eqb_cases o k) as [[-> ->]|[-> ?]]; try congruence
         end.
    all: reflexivity.
Qed.

Lemma X1_property_round_trip_witness :
  let s' := snd (do_set_property "video-codec" (VStr "h264") fresh_sink) in
  fst (do_set_property "video-codec" (VStr "h264") fresh_sink) = Ok tt
  ∧ fst (do_get_property "video-codec" s') = Ok (VStr "h264")
  ∧ snd (do_get_property "video-codec" s') = s'
  ∧ ("port" ≠ "video-codec" ->
     fst (do_get_property "port" s') = fst (do_get_property "port" fresh_sink)).
Proof.
  apply (X1_property_round_trip "video-codec" "port" (VStr "h264") fresh_sink).
  reflexivity.
Defined.

(** X2.  A name that is none of the five properties raises
    [AttributeError] on read and on write, and the sink is left as it was. *)
Theorem X2_unknown_property_raises (name : string) (value : PropValue) (s : Sink) :
  known_property name = false ->
  do_get_property name s = (Raise AttributeError, s)
  ∧ do_set_property name value s = (Raise AttributeError, s).
Proof.
  unfold known_property. intros H.
  repeat (apply orb_false_iff in H as [H ?]).
  unfold do_get_property, do_set_property.
  destruct value; repeat match goal with E : String.eqb _ _ = false |- _ => rewrite E; clear E end;
    rewrite ?H; split; reflexivity.
Qed.

Lemma X2_unknown_property_raises_witness :
  do_get_property "bitrate" fresh_sink = (Raise AttributeError, fresh_sink)
  ∧ do_set_property "bitrate" (VInt 2000) fresh_sink = (Raise AttributeError, fresh_sink).
Proof.
  apply (X2_unknown_property_raises "bitrate" (VInt 2000) fresh_sink). reflexivity.
Defined.

(** ** The settings for h264 *)

Lemma configure_h264_by_payloader env encoder_name encoder payloader s :
  let run := configure_h264 env encoder_name encoder payloader s in
  (has_property env (efactory payloader) "config-interval" = true ->
   has_property env (efactory payloader) "aggregate-mode" = true ->
   fst run = Ok tt)
  ∧ (has_property env (efactory payloader) "config-interval" = false ->
     fst run = Raise TypeError)
  ∧ ∃ t, snd run = set_trace (app t) s ∧ Forall is_set_property t.
Proof.
  intros run. subst run. split; [|split].
  - intros H1 H2. unfold configure_h264.
    destruct s as [p wp ba ss vc hs ht sg sgt cv te started cc g t].
    run_goal.
    repeat match goal with
    | |- context [match has_property env (efactory payloader) ?k with _ => _ end] =>
        first [rewrite H1 | rewrite H2]; run_goal
    | |- context [match ?x with _ => _ end] =>
        lazymatch x with
        | context [match _ with _ => _ end] => fail
        | _ => destruct x eqn:?
        end; run_goal
    end; reflexivity.
  - intros H1. unfold configure_h264.
    destruct s as [p wp ba ss vc hs ht sg sgt cv te started cc g t].
    run_goal.
    repeat match goal with
    | |- context [match has_property env (efactory payloader) ?k with _ => _ end] =>
        rewrite H1; run_goal
    | |- context [match ?x with _ => _ end] =>
        lazymatch x with
        | context [match _ with _ => _ end] => fail
        | _ => destruct x eqn:?
        end; run_goal
    end; reflexivity.
  - destruct (configure_h264_run env encoder_name encoder payloader s) as (r & t & Heq & _ & Ht).
    exists t. rewrite Heq. auto.
Qed.

(** X9.  Whatever the encoder owns, the h264 settings end normally when the
    payloader owns [config-interval] and [aggregate-mode]; when it lacks
    [config-interval] they raise.  They only set properties. *)
Theorem X9_h264_settings_depend_on_payloader env encoder_name encoder payloader s :
  let run := configure_h264 env encoder_name encoder payloader s in
  (has_property env (efactory payloader) "config-interval" = true ->
   has_property env (efactory payloader) "aggregate-mode" = true ->
   fst run = Ok tt)
  ∧ (has_property env (efactory payloader) "config-interval" = false ->
     fst run = Raise TypeError)
  ∧ ∃ t, snd run = set_trace (app t) s ∧ Forall is_set_property t.
Proof. apply configure_h264_by_payloader. Qed.

Lemma X9_h264_settings_depend_on_payloader_witness :
  let env := {| registry := [vp8enc];
                has_property := fun factory _ => String.eqb factory "rtph264pay" |} in
  let encoder := {| eid := 3; efactory := "x264enc"; ename := GivenName "encoder-A" |} in
  let good := {| eid := 4; efactory := "rtph264pay"; ename := GivenName "payloader-A" |} in
  let other := {| eid := 4; efactory := "rtpvp8pay"; ename := GivenName "payloader-A" |} in
  fst (configure_h264 env "x264enc" encoder good fresh_sink) = Ok tt
  ∧ fst (configure_h264 env "x264enc" encoder other fresh_sink) = Raise TypeError.
Proof.
  intros env encoder good other. split.
  - apply (X9_h264_settings_depend_on_payloader env "x264enc" encoder good fresh_sink);
      reflexivity.
  - apply (X9_h264_settings_depend_on_payloader env "x264enc" encoder other fresh_sink).
    reflexivity.
Defined.


(** ** What a build leaves alone *)

(** [build_branch] writes to the bin and to the trace, and to nothing
    else. *)
Lemma build_branch_frame_full env o cid c w en pn s r s' :
  build_branch env o cid c w en pn s = (r, s') ->
  s' = set_trace (fun _ => trace s') (set_bin (fun _ => bin s') s).
Proof.
  intros Hrun.
  assert (port s' = port s ∧ ws_port s' = ws_port s ∧ bind_address s' = bind_address s
          ∧ stun_server s' = stun_server s ∧ video_codec s' = video_codec s
          ∧ http_server s' = http_server s ∧ http_thread s' = http_thread s
          ∧ signaling s' = signaling s ∧ signaling_thread s' = signaling_thread s
          ∧ convert s' = convert s ∧ tee s' = tee s
          ∧ servers_started s' = servers_started s
          ∧ client_codecs s' = client_codecs s) as Hf.
  { unfold build_branch in *.
    destruct o as [wm em pm qm pg tq qe ep pw].
    destruct s as [? ? ? ? vc ? ? ? ? cv te ? cc g tr].
    exec Hrun.
    all: inversion Hrun; subst; clear Hrun.
    all: cbn.
    all: repeat split. }
  clear Hrun.
  destruct s, s'. cbn in Hf.
  destruct Hf as (-> & -> & -> & -> & -> & -> & -> & -> & -> & -> & -> & -> & ->).
  reflexivity.
Qed.

Ltac sink_fields :=
  unfold prepared, unresolved, set_trace, set_bin, set_client_codecs;
  cbn [port ws_port bind_address stun_server video_codec http_server http_thread
       signaling signaling_thread convert tee servers_started client_codecs bin trace
       andb].

Lemma create_webrtcbin_frame env o cid pref s r s' :
  create_webrtcbin env o cid pref s = (r, s') ->
  s' = set_trace (fun _ => trace s')
         (set_bin (fun _ => bin s')
            (set_client_codecs
               (fun cc => if webrtcbin_made o && has_property env "webrtcbin" "stun-server"
                          then recorded cid pref cc else cc) s)).
Proof.
  intros Hrun.
  destruct (create_webrtcbin_inv _ _ _ _ _ _ _ Hrun)
    as [(-> & _ & ->)|[(-> & -> & _ & ->)|(-> & -> & Hres)]].
  - destruct s as [p wp ba ss vc hs ht sg sgt cv te started cc g t].
    sink_fields. reflexivity.
  - destruct s as [p wp ba ss vc hs ht sg sgt cv te started cc g t].
    sink_fields. reflexivity.
  - destruct (resolve env _ _) as [[en pn]|].
    + apply build_branch_frame_full in Hres.
      destruct s as [p wp ba ss vc hs ht sg sgt cv te started cc g t].
      revert Hres. sink_fields. intros Hres. exact Hres.
    + destruct Hres as [_ ->].
      destruct s as [p wp ba ss vc hs ht sg sgt cv te started cc g t].
      sink_fields. reflexivity.
Qed.

(** X10.  A build, whatever its outcome, changes no property and nothing
    about the servers; in [client_codecs] it writes at most the entry of its
    own client, so the entries of all other clients read as before. *)
Theorem X10_build_leaves_properties_and_other_clients env o cid pref s r s' :
  create_webrtcbin env o cid pref s = (r, s') ->
  (port s', ws_port s', bind_address s', stun_server s', video_codec s')
  = (port s, ws_port s, bind_address s, stun_server s, video_codec s)
  ∧ (servers_started s', http_server s', signaling s')
    = (servers_started s, http_server s, signaling s)
  ∧ client_codecs s' = (if webrtcbin_made o && has_property env "webrtcbin" "stun-server"
                        then recorded cid pref (client_codecs s) else client_codecs s)
  ∧ (∀ other, Some other ≠ cid -> client_codecs s' !! other = client_codecs s !! other).
Proof.
  intros Hrun. rewrite (create_webrtcbin_frame _ _ _ _ _ _ _ Hrun).
  destruct s as [p wp ba ss vc hs ht sg sgt cv te started cc g t]. cbn.
  repeat split.
  intros other Hne.
  destruct (webrtcbin_made o && has_property env "webrtcbin" "stun-server"); [|reflexivity].
  destruct cid as [c|], pref as [pf|]; cbn; try reflexivity.
  apply lookup_insert_ne. congruence.
Qed.

Lemma X10_build_leaves_properties_and_other_clients_witness :
  let s := snd (create_webrtcbin (every_property [vp8enc]) all_made (Some "A") (Some "vp8")
                  fresh_sink) in
  let run := create_webrtcbin (every_property [vp8enc]) all_made (Some "B") (Some "h264") s in
  client_codecs (snd run) !! "A" = Some "vp8"
  ∧ client_codecs (snd run) !! "B" = Some "h264"
  ∧ video_codec (snd run) = "vp8".
Proof.
  intros s run.
  destruct (X10_build_leaves_properties_and_other_clients (every_property [vp8enc]) all_made
              (Some "B") (Some "h264") s (fst run) (snd run)) as (Hp & _ & Hcc & Hother).
  - vm_compute. reflexivity.
  - split; [|split].
    + rewrite (Hother "A"); [vm_compute; reflexivity|discriminate].
    + rewrite Hcc. vm_compute. reflexivity.
    + etransitivity; [exact (f_equal snd Hp)|vm_compute; reflexivity].
Defined.

(** *** Nothing that was there is taken away *)

Lemma keeps_refl n g : keeps n g g.
Proof. repeat split; auto. Qed.

Lemma keeps_trans n g1 g2 g3 :
  (next_id g1 <= next_id g2)%nat -> keeps n g1 g2 -> keeps n g2 g3 -> keeps n g1 g3.
Proof. intros _ (A1 & B1 & C1) (A2 & B2 & C2). repeat split; auto. Qed.

Lemma keeps_fresh n g : keeps n g (graph_fresh g).
Proof. repeat split; auto. Qed.

Lemma keeps_add n e g : keeps n g (graph_add e g).
Proof.
  repeat split; cbn; auto.
  intros c Hc _. destruct (name_taken g e); [auto|]. apply in_or_app. auto.
Qed.

Lemma keeps_add_pad n p g : keeps n g (graph_add_pad p g).
Proof. repeat split; cbn; auto. intros q Hq _. apply in_or_app. auto. Qed.

Lemma keeps_link n ok a b g : keeps n g (graph_link ok a b g).
Proof.
  repeat split; cbn; auto.
  intros l Hl _ _. destruct ok; [apply in_or_app|]; auto.
Qed.

Lemma keeps_remove n e g : (n <= eid e)%nat -> keeps n g (graph_remove e g).
Proof.
  intros Hn. repeat split; cbn; auto.
  - intros c Hc Hlt. apply List.filter_In. split; [auto|].
    apply negb_true_iff, Nat.eqb_neq. lia.
  - intros l Hl H1 H2. destruct (is_child g e); [|auto].
    apply List.filter_In. split; [auto|]. unfold touches.
    apply negb_true_iff, orb_false_iff. split; apply Nat.eqb_neq; lia.
Qed.

Lemma keeps_release_pad n p g : (n <= p)%nat -> keeps n g (graph_release_pad p g).
Proof.
  intros Hn. repeat split; cbn; auto.
  - intros q Hq Hlt. apply List.filter_In. split; [auto|].
    apply negb_true_iff, Nat.eqb_neq. lia.
  - intros l Hl H1 H2. apply List.filter_In. split; [auto|].
    apply negb_true_iff, Nat.eqb_neq. lia.
Qed.

Lemma keeps_unlink n a b g : (n <= a)%nat -> keeps n g (graph_unlink a b g).
Proof.
  intros Hn. repeat split; cbn; auto.
  intros l Hl H1 H2. apply List.filter_In. split; [auto|].
  apply negb_true_iff, andb_false_iff. left. apply Nat.eqb_neq. lia.
Qed.

Lemma keeps_step n g g1 g2 : keeps n g g1 -> keeps n g1 g2 -> keeps n g g2.
Proof. intros (A1 & B1 & C1) (A2 & B2 & C2). repeat split; auto. Qed.

Ltac keeps_tac :=
  repeat first
    [ apply keeps_refl
    | eapply keeps_step;
      [|first [ apply keeps_remove; cbn; lia | apply keeps_release_pad; cbn; lia
              | apply keeps_unlink; cbn; lia | apply keeps_add | apply keeps_add_pad
              | apply keeps_link | apply keeps_fresh ]] ].

Lemma build_branch_keeps n env o cid c w en pn s r s' :
  (n <= eid w)%nat ->
  (n <= next_id (bin s))%nat ->
  build_branch env o cid c w en pn s = (r, s') ->
  keeps n (bin s) (bin s').
Proof.
  intros Hw Hn Hrun.
  unfold build_branch in *.
  destruct o as [wm em pm qm pg tq qe ep pw].
  destruct s as [? ? ? ? vc ? ? ? ? cv te ? cc g tr].
  cbn [bin] in *.
  exec Hrun.
  all: inversion Hrun; subst; clear Hrun.
  all: cbn [bin].
  all: keeps_tac.
Qed.

Lemma bin_prepared cid pref msgs s : bin (prepared cid pref msgs s) = graph_fresh (bin s).
Proof. destruct s; reflexivity. Qed.

Lemma bin_unresolved cid pref msgs s :
  bin (unresolved cid pref msgs s) = graph_remove (new_webrtcbin s) (graph_fresh (bin s)).
Proof. destruct s; reflexivity. Qed.

Lemma create_webrtcbin_keeps env o cid pref s r s' :
  create_webrtcbin env o cid pref s = (r, s') ->
  keeps (next_id (bin s)) (bin s) (bin s').
Proof.
  intros Hrun.
  destruct (create_webrtcbin_inv _ _ _ _ _ _ _ Hrun)
    as [(_ & _ & ->)|[(_ & _ & _ & ->)|(_ & _ & Hres)]].
  - destruct s; apply keeps_refl.
  - destruct s; apply keeps_fresh.
  - destruct (resolve env _ _) as [[en pn]|].
    + eapply keeps_step; [|eapply build_branch_keeps; [| |exact Hres]].
      * rewrite bin_prepared. apply keeps_fresh.
      * cbn. lia.
      * rewrite bin_prepared. cbn. lia.
    + destruct Hres as [_ ->]. rewrite bin_unresolved.
      eapply keeps_step; [apply keeps_fresh|]. apply keeps_remove. cbn. lia.
Qed.

Lemma create_webrtcbin_kept env o cid pref s r s' :
  sink_wf s ->
  create_webrtcbin env o cid pref s = (r, s') ->
  kept (bin s) (bin s').
Proof.
  intros (Hc & Hp & Hl & _) Hrun.
  destruct (create_webrtcbin_keeps _ _ _ _ _ _ _ Hrun) as (A & B & C).
  rewrite Forall_forall in Hc. rewrite Forall_forall in Hp. rewrite Forall_forall in Hl.
  repeat split.
  - intros c Hin. apply A; [exact Hin|]. apply Hc, list_elem_of_In, Hin.
  - intros p Hin. apply B; [exact Hin|]. apply Hp, list_elem_of_In, Hin.
  - intros l Hin. destruct (Hl l (proj2 (list_elem_of_In _ _) Hin)). apply C; assumption.
Qed.

(** X11.  A build, whatever its outcome, takes nothing away that was there
    before: every child of the bin, every tap of the tee and every link is
    still there afterwards. *)
Theorem X11_build_keeps_existing_branches env o cid pref s r s' :
  sink_wf s ->
  create_webrtcbin env o cid pref s = (r, s') ->
  kept (bin s) (bin s').
Proof. apply create_webrtcbin_kept. Qed.

Lemma X11_build_keeps_existing_branches_witness :
  let s := snd (create_webrtcbin (every_property [vp8enc]) all_made (Some "A") (Some "vp8")
                  fresh_sink) in
  let run := create_webrtcbin (every_property []) all_made (Some "A") (Some "h264") s in
  kept (bin s) (bin (snd run)).
Proof.
  intros s run.
  apply (X11_build_keeps_existing_branches (every_property []) all_made (Some "A")
           (Some "h264") s (fst run) (snd run)).
  - vm_compute. repeat split; repeat constructor; cbn; try lia;
      rewrite ?list_elem_of_In; cbn; intuition discriminate.
  - vm_compute. reflexivity.
Defined.

(** ** A build that returns its [webrtcbin] *)

Lemma names_differ (a b : string) : String.eqb ("encoder-" ++ a) ("payloader-" ++ b) = false.
Proof. reflexivity. Qed.

Ltac decide_ids_in H :=
  repeat first
    [ rewrite Nat.eqb_refl in H
    | match type of H with
      | context [Nat.eqb ?a ?b] => rewrite (proj2 (Nat.eqb_neq a b)) in H by (cbn; lia)
      end ].

Ltac decide_ids_goal :=
  repeat first
    [ rewrite Nat.eqb_refl
    | match goal with
      | |- context [Nat.eqb ?a ?b] => rewrite (proj2 (Nat.eqb_neq a b)) by (cbn; lia)
      end ].

(** Brings a statement on the children of a bin under construction back to
    the bin the construction started from. *)
Ltac norm_children H Hwf :=
  graph_norm H;
  repeat match goal with
  | E : is_child _ _ = _ |- _ => rewrite E in H
  | E : name_in_use _ _ = _ |- _ => rewrite E in H
  end;
  repeat rewrite (is_child_bound _ _ (proj1 Hwf)) in H by (cbn; lia);
  rewrite ?names_differ in H;
  decide_ids_in H;
  rewrite ?andb_false_r, ?orb_false_r, ?andb_true_r, ?orb_true_r in H;
  cbn [orb andb negb] in H.

Ltac norm_children_goal :=
  graph_norm_goal;
  repeat match goal with
  | E : is_child _ _ = _ |- _ => rewrite E
  | E : name_in_use _ _ = _ |- _ => rewrite E
  end;
  rewrite ?names_differ;
  decide_ids_goal;
  rewrite ?andb_false_r, ?orb_false_r, ?andb_true_r, ?orb_true_r;
  cbn [orb andb negb].

(** When [build_branch] returns a [webrtcbin], the four names were free and
    the branch is complete. *)
Lemma build_branch_returned env o cid c m en pn s w' s' :
  let w := {| eid := m; efactory := "webrtcbin"; ename := AutoName m |} in
  let n := next_id (bin s) in
  sink_wf s ->
  (m < n)%nat ->
  is_child (bin s) w = false ->
  build_branch env o cid c w en pn s = (Ok (Some w'), s') ->
  w' = w
  ∧ name_in_use (bin s) (AutoName m) = false
  ∧ name_in_use (bin s) (AutoName (S (S n))) = false
  ∧ name_in_use (bin s) (encoder_element_name cid) = false
  ∧ name_in_use (bin s) (payloader_element_name cid) = false
  ∧ children (bin s')
    = (children (bin s)
       ++ [w; queue_element (S (S n)); encoder_element cid en n;
           payloader_element cid pn (S n)])%list
  ∧ tee_src_pads (bin s') = (tee_src_pads (bin s) ++ [S (S (S n))])%list
  ∧ links (bin s')
    = (links (bin s)
       ++ [(S (S (S n)), S (S n)); (S (S n), n); (n, S n); (S n, m)])%list
  ∧ next_id (bin s') = S (S (S (S n))).
Proof.
  intros w n Hwf Hw Hnc Hrun. subst w n.
  unfold build_branch, sink_wf, encoder_element_name, payloader_element_name,
    queue_element, encoder_element, payloader_element, encoder_element_name,
    payloader_element_name in *.
  destruct o as [wm em pm qm pg tq qe ep pw].
  destruct s as [p wp ba ss vc hs ht sg sgt cv te started cc g tr].
  cbn [bin] in *.
  exec Hrun.
  all: try discriminate.
  all: injection Hrun as <- <-.
  all: repeat match goal with
       | H : _ && _ && _ = true |- _ =>
           let H' := fresh "Hl" in
           apply andb_prop in H as [H H']; apply andb_prop in H as [-> H]
       | H : true && negb (_ && _) = false |- _ =>
           apply negb_false_iff in H; apply andb_prop in H as [_ H]
       end.
  all: repeat match goal with
       | H : is_child (graph_link _ _ _ _) _ = true |- _ => norm_children H Hwf
       | H : is_child (graph_add_pad _ _) _ = true |- _ => norm_children H Hwf
       end.
  all: destruct (name_in_use g (AutoName m)) eqn:Ea,
         (name_in_use g (AutoName (S (S (next_id g))))) eqn:Eb,
         (name_in_use g (GivenName ("encoder-" ++ PyStr.format cid))) eqn:Ec,
         (name_in_use g (GivenName ("payloader-" ++ PyStr.format cid))) eqn:Ed.
  all: try discriminate.
  all: cbn [bin children tee_src_pads links next_id graph_add graph_fresh graph_add_pad
            graph_link].
  all: norm_children_goal.
  all: rewrite <- ?app_assoc; cbn [app].
  all: repeat split; reflexivity.
Qed.

Lemma new_webrtcbin_not_child s : sink_wf s -> is_child (bin s) (new_webrtcbin s) = false.
Proof. intros Hwf. apply is_child_bound; [apply Hwf|cbn; lia]. Qed.

Lemma create_webrtcbin_returned env o cid pref s w s' :
  sink_wf s ->
  create_webrtcbin env o cid pref s = (Ok (Some w), s') ->
  ∃ en pn,
    resolve env (requested_codec cid pref s) (video_codec s) = Some (en, pn)
    ∧ w = new_webrtcbin s
    ∧ bin s' = with_branch cid en pn (bin s)
    ∧ name_in_use (bin s) (AutoName (next_id (bin s))) = false
    ∧ name_in_use (bin s) (AutoName (3 + next_id (bin s))) = false
    ∧ name_in_use (bin s) (encoder_element_name cid) = false
    ∧ name_in_use (bin s) (payloader_element_name cid) = false.
Proof.
  intros Hwf Hrun.
  destruct (create_webrtcbin_inv _ _ _ _ _ _ _ Hrun)
    as [(_ & Hr & _)|[(_ & _ & Hr & _)|(_ & _ & Hres)]]; try discriminate.
  destruct (resolve env _ _) as [[en pn]|]; [|destruct Hres; discriminate].
  exists en, pn. split; [reflexivity|].
  apply build_branch_returned in Hres.
  - rewrite bin_prepared in Hres. cbn [next_id graph_fresh children tee_src_pads links] in Hres.
    rewrite !name_in_use_fresh in Hres.
    destruct Hres as (-> & Ha & Hb & Hc & Hd & Hch & Hp & Hl & Hn).
    repeat split; try assumption.
    destruct (bin s') as [ch' pads' links' n']. cbn in Hch, Hp, Hl, Hn. subst.
    reflexivity.
  - apply prepared_wf, Hwf.
  - rewrite bin_prepared. cbn. lia.
  - rewrite bin_prepared, is_child_fresh. apply new_webrtcbin_not_child, Hwf.
Qed.

(** X12.  A [webrtcbin] is returned only with its branch complete: the bin
    then holds, after what it held, the [webrtcbin], the queue, the encoder
    and the payloader of the client under names that were free, the tee has
    one tap more, and the tap is linked through queue, encoder and payloader
    to the [webrtcbin]. *)
Theorem X12_returned_webrtcbin_has_complete_branch env o cid pref s w s' :
  sink_wf s ->
  create_webrtcbin env o cid pref s = (Ok (Some w), s') ->
  ∃ en pn,
    resolve env (requested_codec cid pref s) (video_codec s) = Some (en, pn)
    ∧ w = new_webrtcbin s
    ∧ bin s' = with_branch cid en pn (bin s)
    ∧ name_in_use (bin s) (encoder_element_name cid) = false
    ∧ name_in_use (bin s) (payloader_element_name cid) = false.
Proof.
  intros Hwf Hrun.
  destruct (create_webrtcbin_returned _ _ _ _ _ _ _ Hwf Hrun)
    as (en & pn & Hres & Hw & Hbin & _ & _ & He & Hp).
  exists en, pn. auto.
Qed.

Lemma X12_returned_webrtcbin_has_complete_branch_witness :
  let run := create_webrtcbin (every_property [vp8enc]) all_made (Some "A") (Some "vp8")
               fresh_sink in
  ∃ en pn, bin (snd run) = with_branch (Some "A") en pn (bin fresh_sink).
Proof.
  intros run.
  destruct (X12_returned_webrtcbin_has_complete_branch (every_property [vp8enc]) all_made
              (Some "A") (Some "vp8") fresh_sink (new_webrtcbin fresh_sink) (snd run))
    as (en & pn & _ & _ & Hbin & _).
  - exact fresh_sink_wf.
  - vm_compute. reflexivity.
  - exists en, pn. exact Hbin.
Defined.

(** ** A build in which every call is answered favourably *)

Ltac split_tune H :=
  match type of H with
  | context [configure_h264 ?env ?n ?e ?p ?s] =>
      let r := fresh "r" in
      let t := fresh "t" in
      let Heq := fresh "Htune" in
      let Hr := fresh "Hr" in
      let Ht := fresh "Ht" in
      let Hok := fresh "Hok" in
      let Hraise := fresh "Hraise" in
      destruct (configure_h264_by_payloader env n e p s) as (Hok & Hraise & _);
      destruct (configure_h264_run env n e p s) as (r & t & Heq & Hr & Ht);
      rewrite Heq in H, Hok, Hraise; cbn [fst] in Hok, Hraise; clear Heq;
      destruct Hr; subst r
  end.

Ltac exec_tuned H := run_in H; repeat (first [split_tune H | split_run H]; run_in H).

Lemma build_branch_favourable env o cid c m en pn s r s' :
  let w := {| eid := m; efactory := "webrtcbin"; ename := AutoName m |} in
  let n := next_id (bin s) in
  sink_wf s ->
  (m < n)%nat ->
  is_child (bin s) w = false ->
  is_child (bin s) (tee s) = true ->
  name_in_use (bin s) (AutoName m) = false ->
  name_in_use (bin s) (AutoName (S (S n))) = false ->
  name_in_use (bin s) (encoder_element_name cid) = false ->
  name_in_use (bin s) (payloader_element_name cid) = false ->
  has_property env "queue" "leaky" = true ->
  o = all_made ->
  build_branch env o cid c w en pn s = (r, s') ->
  (r = Ok (Some w) ∨ r = Raise TypeError)
  ∧ (r = Raise TypeError ->
     c = "h264" ∧ ¬ (has_property env pn "config-interval" = true
                     ∧ has_property env pn "aggregate-mode" = true))
  ∧ (r = Ok (Some w) -> c = "h264" -> has_property env pn "config-interval" = true)
  ∧ children (bin s')
    = (children (bin s)
       ++ [w; queue_element (S (S n)); encoder_element cid en n;
           payloader_element cid pn (S n)])%list
  ∧ tee_src_pads (bin s') = (tee_src_pads (bin s) ++ [S (S (S n))])%list
  ∧ links (bin s')
    = (links (bin s)
       ++ [(S (S (S n)), S (S n)); (S (S n), n); (n, S n); (S n, m)])%list
  ∧ next_id (bin s') = S (S (S (S n))).
Proof.
  intros w n Hwf Hw Hnc Htee Ha Hb He Hp Hleaky Ho Hrun. subst w n.
  unfold build_branch, sink_wf, encoder_element_name, payloader_element_name,
    queue_element, encoder_element, payloader_element, encoder_element_name,
    payloader_element_name, all_made in *.
  destruct o as [wm em pm qm pg tq qe ep pw].
  destruct s as [p wp ba ss vc hs ht sg sgt cv te started cc g tr].
  cbn [bin tee] in *.
  exec_tuned Hrun.
  all: try discriminate.
  all: inversion Ho; subst; clear Ho.
  all: try (match goal with
            | H : _ && negb _ = true |- _ =>
                cbn [is_LINK_OK] in H; norm_children H Hwf; discriminate
            | H : _ && _ && _ = false |- _ => norm_children H Hwf; discriminate
            end).
  all: repeat match goal with
       | H : _ && negb _ = false |- _ => clear H
       | H : _ && _ && _ = true |- _ => clear H
       end.
  all: injection Hrun as <- <-.
  all: cbn [bin children tee_src_pads links next_id graph_add graph_fresh graph_add_pad
            graph_link].
  all: norm_children_goal.
  all: rewrite <- ?app_assoc; cbn [app].
  all: repeat match goal with H : String.eqb _ _ = true |- _ => apply String.eqb_eq in H
              | H : String.eqb _ _ = false |- _ => apply String.eqb_neq in H end.
  all: repeat split; try reflexivity; try discriminate; try (intros; assumption).
  all: try (left; reflexivity).
  all: try (right; reflexivity).
  all: cbn [efactory] in *.
  all: try (intros [Hci Ham]; discriminate (Hok Hci Ham)).
  all: try (intros _ Hc; contradiction).
  all: intros _ _; destruct (has_property env pn "config-interval"); [reflexivity|].
  all: discriminate (Hraise eq_refl).
Qed.

Lemma auto_name_free (g : Graph) (i : nat) :
  auto_names_used g -> (next_id g <= i)%nat -> name_in_use g (AutoName i) = false.
Proof.
  unfold auto_names_used, name_in_use. intros Hall Hle.
  induction Hall as [|c l Hc _ IH]; [reflexivity|].
  cbn [existsb]. rewrite IH, orb_false_r.
  destruct (ename c) as [j|given]; cbn; [|reflexivity].
  apply Nat.eqb_neq. lia.
Qed.

Lemma is_child_app (g g' : Graph) (x : Element) (more : list Element) :
  children g' = (children g ++ more)%list -> is_child g x = true -> is_child g' x = true.
Proof.
  unfold is_child. intros -> H. rewrite existsb_app, H. reflexivity.
Qed.

Lemma with_branch_inv cid en pn s s' :
  sink_inv s ->
  sink_wf s' ->
  tee s' = tee s ->
  bin s' = with_branch cid en pn (bin s) ->
  sink_inv s'.
Proof.
  intros (_ & Han & Htee) Hwf' Ht Hbin. split; [exact Hwf'|]. split.
  - rewrite Hbin. unfold auto_names_used, with_branch. cbn [children next_id].
    apply Forall_app. split.
    + eapply Forall_impl; [exact Han|]. intros c. cbn. destruct (ename c); [lia|trivial].
    + repeat constructor; cbn; lia.
  - rewrite Ht. eapply is_child_app; [|exact Htee]. rewrite Hbin. reflexivity.
Qed.

(** One build in which GStreamer answers every call favourably: the branch
    is complete whatever the h264 settings do, and only they can make the
    call raise. *)
Lemma create_webrtcbin_favourable env o cid pref s en pn r s' :
  sink_inv s ->
  name_in_use (bin s) (encoder_element_name cid) = false ->
  name_in_use (bin s) (payloader_element_name cid) = false ->
  has_property env "webrtcbin" "stun-server" = true ->
  has_property env "queue" "leaky" = true ->
  resolve env (requested_codec cid pref s) (video_codec s) = Some (en, pn) ->
  o = all_made ->
  create_webrtcbin env o cid pref s = (r, s') ->
  (r = Ok (Some (new_webrtcbin s)) ∨ r = Raise TypeError)
  ∧ (r = Raise TypeError ->
     requested_codec cid pref s = "h264"
     ∧ ¬ (has_property env pn "config-interval" = true
          ∧ has_property env pn "aggregate-mode" = true))
  ∧ (r = Ok (Some (new_webrtcbin s)) -> requested_codec cid pref s = "h264" ->
     has_property env pn "config-interval" = true)
  ∧ bin s' = with_branch cid en pn (bin s)
  ∧ sink_inv s'.
Proof.
  intros Hinv He Hp Hstun Hleaky Hres Ho Hrun.
  assert (Hwf' : sink_wf s') by (eapply create_webrtcbin_wf; [apply Hinv|exact Hrun]).
  assert (Htee' : tee s' = tee s).
  { rewrite (create_webrtcbin_frame _ _ _ _ _ _ _ Hrun). destruct s; reflexivity. }
  destruct Hinv as (Hwf & Han & Htee).
  destruct (create_webrtcbin_inv _ _ _ _ _ _ _ Hrun)
    as [(Hwm & _)|[(_ & Hno & _)|(_ & _ & Hb)]].
  - subst o. discriminate.
  - congruence.
  - rewrite Hres in Hb.
    assert (Htee0 : tee (prepared cid pref
                           (find_messages env (requested_codec cid pref s) (video_codec s)) s)
                    = tee s) by (destruct s; reflexivity).
    eapply build_branch_favourable in Hb; try exact Ho.
    + rewrite bin_prepared in Hb.
      cbn [next_id graph_fresh children tee_src_pads links] in Hb.
      destruct Hb as (Hr & Hraise & Hok & Hch & Hpads & Hl & Hn).
      assert (Hbin : bin s' = with_branch cid en pn (bin s)).
      { destruct (bin s') as [ch' pads' links' n']. cbn in Hch, Hpads, Hl, Hn. subst.
        reflexivity. }
      split; [exact Hr|]. split; [exact Hraise|]. split; [exact Hok|].
      split; [exact Hbin|].
      exact (with_branch_inv cid en pn s s' (conj Hwf (conj Han Htee)) Hwf' Htee' Hbin).
    + apply prepared_wf, Hwf.
    + rewrite bin_prepared. cbn. lia.
    + rewrite bin_prepared, is_child_fresh. apply new_webrtcbin_not_child, Hwf.
    + rewrite bin_prepared, is_child_fresh, Htee0. exact Htee.
    + rewrite bin_prepared, name_in_use_fresh. apply auto_name_free; [exact Han|cbn; lia].
    + rewrite bin_prepared, name_in_use_fresh. apply auto_name_free; [exact Han|cbn; lia].
    + rewrite bin_prepared, name_in_use_fresh. exact He.
    + rewrite bin_prepared, name_in_use_fresh. exact Hp.
    + exact Hleaky.
Qed.

(** X13.  When GStreamer answers every call favourably, the names of the
    client are free, the elements own [stun-server] and [leaky], an encoder
    was resolved and, for h264, its payloader owns the two properties set on
    it, the build returns the new [webrtcbin] with its branch complete, and
    the sink is again one on which the same holds. *)
Theorem X13_favourable_build_returns_webrtcbin env cid pref s en pn :
  sink_inv s ->
  name_in_use (bin s) (encoder_element_name cid) = false ->
  name_in_use (bin s) (payloader_element_name cid) = false ->
  has_property env "webrtcbin" "stun-server" = true ->
  has_property env "queue" "leaky" = true ->
  resolve env (requested_codec cid pref s) (video_codec s) = Some (en, pn) ->
  (requested_codec cid pref s = "h264" ->
   has_property env pn "config-interval" = true
   ∧ has_property env pn "aggregate-mode" = true) ->
  let run := create_webrtcbin env all_made cid pref s in
  fst run = Ok (Some (new_webrtcbin s))
  ∧ bin (snd run) = with_branch cid en pn (bin s)
  ∧ sink_inv (snd run).
Proof.
  intros Hinv He Hp Hstun Hleaky Hres Hprops run. subst run.
  destruct (create_webrtcbin env all_made cid pref s) as [r s'] eqn:Hrun.
  destruct (create_webrtcbin_favourable _ _ _ _ _ _ _ _ _ Hinv He Hp Hstun Hleaky Hres
              eq_refl Hrun) as ([Hr|Hr] & Hraise & _ & Hbin & Hinv').
  - cbn [fst snd]. auto.
  - exfalso. destruct (Hraise Hr) as [Hc Hn]. apply Hn, Hprops, Hc.
Qed.

Lemma X13_favourable_build_returns_webrtcbin_witness :
  let run := create_webrtcbin (every_property [vp8enc; x264enc]) all_made (Some "A")
               (Some "h264") fresh_sink in
  fst run = Ok (Some (new_webrtcbin fresh_sink)) ∧ sink_inv (snd run).
Proof.
  intros run.
  destruct (X13_favourable_build_returns_webrtcbin (every_property [vp8enc; x264enc])
              (Some "A") (Some "h264") fresh_sink "x264enc" "rtph264pay")
    as (Hr & _ & Hinv).
  - split; [exact fresh_sink_wf|]. split; [|reflexivity].
    repeat constructor.
  - reflexivity.
  - reflexivity.
  - reflexivity.
  - reflexivity.
  - vm_compute. reflexivity.
  - intros _. split; reflexivity.
  - split; [exact Hr|exact Hinv].
Defined.

(** X14.  On the same favourable build for h264, a payloader without
    [config-interval] makes the call raise after the branch has been linked:
    the caller receives no [webrtcbin], and the complete branch, with its
    tap of the tee, stays in the bin. *)
Theorem X14_h264_settings_raise_after_linking env cid pref s en pn :
  sink_inv s ->
  name_in_use (bin s) (encoder_element_name cid) = false ->
  name_in_use (bin s) (payloader_element_name cid) = false ->
  has_property env "webrtcbin" "stun-server" = true ->
  has_property env "queue" "leaky" = true ->
  resolve env (requested_codec cid pref s) (video_codec s) = Some (en, pn) ->
  requested_codec cid pref s = "h264" ->
  has_property env pn "config-interval" = false ->
  let run := create_webrtcbin env all_made cid pref s in
  fst run = Raise TypeError
  ∧ bin (snd run) = with_branch cid en pn (bin s)
  ∧ tap_count (snd run) = S (tap_count s).
Proof.
  intros Hinv He Hp Hstun Hleaky Hres Hc Hci run. subst run.
  destruct (create_webrtcbin env all_made cid pref s) as [r s'] eqn:Hrun.
  destruct (create_webrtcbin_favourable _ _ _ _ _ _ _ _ _ Hinv He Hp Hstun Hleaky Hres
              eq_refl Hrun) as ([Hr|Hr] & _ & Hok & Hbin & _).
  - rewrite (Hok Hr Hc) in Hci. discriminate.
  - cbn [fst snd]. split; [exact Hr|]. split; [exact Hbin|].
    unfold tap_count. rewrite Hbin. unfold with_branch. cbn [tee_src_pads].
    rewrite length_app. cbn. lia.
Qed.

Lemma X14_h264_settings_raise_after_linking_witness :
  let env := {| registry := [x264enc];
                has_property := fun _ p => negb (String.eqb p "config-interval") |} in
  let run := create_webrtcbin env all_made (Some "A") (Some "h264") fresh_sink in
  fst run = Raise TypeError ∧ tap_count (snd run) = 1%nat.
Proof.
  intros env run.
  destruct (X14_h264_settings_raise_after_linking env (Some "A") (Some "h264") fresh_sink
              "x264enc" "rtph264pay") as (Hr & _ & Htaps).
  - split; [exact fresh_sink_wf|]. split; [|reflexivity].
    repeat constructor.
  - reflexivity.
  - reflexivity.
  - reflexivity.
  - reflexivity.
  - vm_compute. reflexivity.
  - reflexivity.
  - reflexivity.
  - split; [exact Hr|exact Htaps].
Defined.

(** ** Several clients *)

Lemma name_in_use_kept (g g' : Graph) (nm : ElementName) :
  kept g g' -> name_in_use g nm = true -> name_in_use g' nm = true.
Proof.
  intros (Hc & _) H. unfold name_in_use in *.
  apply existsb_exists in H as (c & Hin & Hc'). apply existsb_exists.
  exists c. split; [apply Hc, Hin|exact Hc'].
Qed.

Lemma serve_keeps_names env requests s nm :
  sink_wf s ->
  name_in_use (bin s) nm = true ->
  name_in_use (bin (snd (serve env requests s))) nm = true.
Proof.
  revert s. induction requests as [|q rest IH]; intros s Hwf Hn; [exact Hn|].
  cbn [serve].
  destruct (create_webrtcbin env (answers q) (client_id q) (codec_preference q) s)
    as [r s1] eqn:Hrun.
  specialize (IH s1 (create_webrtcbin_wf _ _ _ _ _ _ _ Hwf Hrun)
                (name_in_use_kept _ _ _ (create_webrtcbin_kept _ _ _ _ _ _ _ Hwf Hrun) Hn)).
  destruct (serve env rest s1) as [rs s2]. exact IH.
Qed.

Lemma eqb_append_prefix (p a b : string) :
  String.eqb (p ++ a) (p ++ b) = String.eqb a b.
Proof.
  induction p as [|ch p IH]; [reflexivity|].
  change (String.eqb (String ch (p ++ a)) (String ch (p ++ b)) = String.eqb a b).
  cbn [String.eqb]. rewrite Ascii.eqb_refl. exact IH.
Qed.

Lemma names_differ_sym (a b : string) :
  String.eqb ("payloader-" ++ a) ("encoder-" ++ b) = false.
Proof. reflexivity. Qed.

(** The names in use after a complete branch for [cid] has been added: a
    name of another client is in use only if it was. *)
Lemma with_branch_other_client cid cid' en pn g :
  PyStr.format cid ≠ PyStr.format cid' ->
  name_in_use (with_branch cid en pn g) (encoder_element_name cid')
  = name_in_use g (encoder_element_name cid')
  ∧ name_in_use (with_branch cid en pn g) (payloader_element_name cid')
    = name_in_use g (payloader_element_name cid').
Proof.
  intros Hne.
  unfold name_in_use, with_branch, encoder_element_name, payloader_element_name,
    queue_element, encoder_element, payloader_element, encoder_element_name,
    payloader_element_name.
  cbn [children]. rewrite !existsb_app. cbn [existsb ename ElementName_eqb].
  rewrite !eqb_append_prefix, names_differ, names_differ_sym.
  apply String.eqb_neq in Hne. rewrite Hne. cbn. rewrite !orb_false_r. auto.
Qed.

Lemma with_branch_own_client cid en pn g :
  name_in_use (with_branch cid en pn g) (encoder_element_name cid) = true.
Proof.
  unfold name_in_use, with_branch, encoder_element_name, queue_element, encoder_element,
    payloader_element, encoder_element_name.
  cbn [children]. rewrite !existsb_app. cbn [existsb ename ElementName_eqb].
  rewrite String.eqb_refl. cbn. rewrite !orb_true_r. reflexivity.
Qed.

Lemma resolve_default env c d :
  is_Some (usable (snd (find_best_encoder (registry env) d))) ->
  is_Some (resolve env c d).
Proof.
  intros H. unfold resolve.
  destruct (usable (snd (find_best_encoder (registry env) c))); [eexists; reflexivity|exact H].
Qed.

Lemma serve_distinct_clients env requests s :
  sink_inv s ->
  (∀ f p, has_property env f p = true) ->
  is_Some (usable (snd (find_best_encoder (registry env) (video_codec s)))) ->
  Forall (fun q => answers q = all_made) requests ->
  NoDup (map (fun q => PyStr.format (client_id q)) requests) ->
  Forall (fun q => name_in_use (bin s) (encoder_element_name (client_id q)) = false
                   ∧ name_in_use (bin s) (payloader_element_name (client_id q)) = false)
    requests ->
  Forall (fun r => returned r = true) (fst (serve env requests s))
  ∧ tap_count (snd (serve env requests s)) = (tap_count s + List.length requests)%nat
  ∧ Forall (fun q => branch_count (snd (serve env requests s)) (client_id q) = 1%nat)
      requests.
Proof.
  intros Hinv Hprops. revert s Hinv.
  induction requests as [|q rest IH]; intros s Hinv Hdef Hans Hnd Hfree.
  - cbn. repeat split; [constructor|lia|constructor].
  - apply Forall_cons in Hans as [Hq Hans]. apply Forall_cons in Hfree as [[He Hp] Hfree].
    cbn [map] in Hnd. apply NoDup_cons in Hnd as [Hnotin Hnd].
    cbn [serve].
    destruct (create_webrtcbin env (answers q) (client_id q) (codec_preference q) s)
      as [r s1] eqn:Hrun.
    destruct (resolve_default env (requested_codec (client_id q) (codec_preference q) s)
                (video_codec s) Hdef) as [[en pn] Hres].
    destruct (create_webrtcbin_favourable _ _ _ _ _ _ _ _ _ Hinv He Hp (Hprops _ _)
                (Hprops _ _) Hres Hq Hrun) as ([Hr|Hr] & Hraise & _ & Hbin & Hinv1).
    2:{ exfalso. destruct (Hraise Hr) as [_ Hn]. apply Hn. split; apply Hprops. }
    assert (Hvc : video_codec s1 = video_codec s).
    { rewrite (create_webrtcbin_frame _ _ _ _ _ _ _ Hrun). destruct s; reflexivity. }
    assert (Hfree1 : Forall (fun q' =>
                name_in_use (bin s1) (encoder_element_name (client_id q')) = false
                ∧ name_in_use (bin s1) (payloader_element_name (client_id q')) = false) rest).
    { rewrite Forall_forall in Hfree. apply Forall_forall. intros q' Hin.
      rewrite Hbin.
      destruct (with_branch_other_client (client_id q) (client_id q') en pn (bin s))
        as [-> ->]; [|apply Hfree, Hin].
      intros Heq. apply Hnotin. rewrite Heq.
      apply list_elem_of_fmap. exists q'. split; [reflexivity|exact Hin]. }
    rewrite <- Hvc in Hdef.
    specialize (IH s1 Hinv1 Hdef Hans Hnd Hfree1).
    assert (Hown : branch_count (snd (serve env rest s1)) (client_id q) = 1%nat).
    { assert (Hwf2 : sink_wf (snd (serve env rest s1))) by (apply serve_wf, Hinv1).
      pose proof (branch_count_le_1 _ (client_id q) Hwf2) as Hle.
      assert (Hin : name_in_use (bin (snd (serve env rest s1)))
                      (encoder_element_name (client_id q)) = true).
      { apply serve_keeps_names; [apply Hinv1|]. rewrite Hbin. apply with_branch_own_client. }
      apply branch_count_name_in_use in Hin. lia. }
    destruct (serve env rest s1) as [rs s2]. cbn [fst snd] in *.
    destruct IH as (Hrs & Htaps & Hcounts).
    split; [|split].
    + constructor; [rewrite Hr; reflexivity|exact Hrs].
    + rewrite Htaps. unfold tap_count. rewrite Hbin. unfold with_branch. cbn [tee_src_pads].
      rewrite length_app. cbn. lia.
    + constructor; [exact Hown|exact Hcounts].
Qed.

(** X15.  Requests of clients with different identifiers, each answered
    favourably, are all served: when the elements own every property set on
    them and the configured codec has an encoder, every request returns its
    [webrtcbin], the tee has one tap more per request, and every client has
    exactly one branch. *)
Theorem X15_distinct_clients_are_all_served env requests s :
  sink_inv s ->
  (∀ f p, has_property env f p = true) ->
  is_Some (usable (snd (find_best_encoder (registry env) (video_codec s)))) ->
  Forall (fun q => answers q = all_made) requests ->
  NoDup (map (fun q => PyStr.format (client_id q)) requests) ->
  Forall (fun q => name_in_use (bin s) (encoder_element_name (client_id q)) = false
                   ∧ name_in_use (bin s) (payloader_element_name (client_id q)) = false)
    requests ->
  Forall (fun r => returned r = true) (fst (serve env requests s))
  ∧ tap_count (snd (serve env requests s)) = (tap_count s + List.length requests)%nat
  ∧ Forall (fun q => branch_count (snd (serve env requests s)) (client_id q) = 1%nat)
      requests.
Proof. apply serve_distinct_clients. Qed.

Lemma X15_distinct_clients_are_all_served_witness :
  let requests :=
    [ {| answers := all_made; client_id := Some "A"; codec_preference := Some "vp8" |};
      {| answers := all_made; client_id := Some "B"; codec_preference := None |} ] in
  tap_count (snd (serve (every_property [vp8enc]) requests fresh_sink)) = 2%nat.
Proof.
  intros requests.
  destruct (X15_distinct_clients_are_all_served (every_property [vp8enc]) requests fresh_sink)
    as (_ & Htaps & _).
  - split; [exact fresh_sink_wf|]. split; [|reflexivity]. repeat constructor.
  - reflexivity.
  - vm_compute. eexists. reflexivity.
  - repeat constructor.
  - apply (bool_decide_unpack _). vm_compute. reflexivity.
  - repeat constructor.
  - exact Htaps.
Defined.

(** ** The h264 settings and the encoder that was resolved *)

Lemma resolve_h264_by_vp8 env d best rest :
  encoder_factories (registry env) (caps_from_string "video/x-h264") = [] ->
  sort_by_rank (encoder_factories (registry env) (caps_from_string "video/x-vp8"))
  = best :: rest ->
  factory_name best ≠ "" ->
  resolve env "h264" d = Some (factory_name best, "rtpvp8pay").
Proof.
  intros Hnone Hvp8 Hname. unfold resolve.
  rewrite (find_best_encoder_fallback (registry env) "h264" "video/x-h264" eq_refl Hnone)
    by discriminate.
  rewrite (find_best_encoder_found (registry env) "vp8" "video/x-vp8" best rest eq_refl Hvp8).
  cbn. apply String.eqb_neq in Hname. rewrite Hname. reflexivity.
Qed.

(** X16.  The h264 settings follow the codec that was asked for, not the
    encoder that was resolved: when h264 is asked for, no h264 encoder is
    registered and [find_best_encoder] falls back to a vp8 encoder, the
    branch is built on that encoder and [rtpvp8pay], and the h264 settings
    are then applied to [rtpvp8pay]; if it does not own [config-interval]
    the call raises with the branch left in the bin. *)
Theorem X16_h264_settings_follow_the_request env cid s best rest :
  sink_inv s ->
  name_in_use (bin s) (encoder_element_name (Some cid)) = false ->
  name_in_use (bin s) (payloader_element_name (Some cid)) = false ->
  has_property env "webrtcbin" "stun-server" = true ->
  has_property env "queue" "leaky" = true ->
  encoder_factories (registry env) (caps_from_string "video/x-h264") = [] ->
  sort_by_rank (encoder_factories (registry env) (caps_from_string "video/x-vp8"))
  = best :: rest ->
  factory_name best ≠ "" ->
  has_property env "rtpvp8pay" "config-interval" = false ->
  let run := create_webrtcbin env all_made (Some cid) (Some "h264") s in
  fst run = Raise TypeError
  ∧ bin (snd run) = with_branch (Some cid) (factory_name best) "rtpvp8pay" (bin s).
Proof.
  intros Hinv He Hp Hstun Hleaky Hnone Hvp8 Hname Hci run. subst run.
  destruct (create_webrtcbin env all_made (Some cid) (Some "h264") s) as [r s'] eqn:Hrun.
  pose proof (resolve_h264_by_vp8 env (video_codec s) best rest Hnone Hvp8 Hname) as Hres.
  destruct (create_webrtcbin_favourable env all_made (Some cid) (Some "h264") s
              (factory_name best) "rtpvp8pay" r s' Hinv He Hp Hstun Hleaky Hres eq_refl Hrun)
    as ([Hr|Hr] & _ & Hok & Hbin & _).
  - rewrite (Hok Hr eq_refl) in Hci. discriminate.
  - cbn [fst snd]. auto.
Qed.

Lemma X16_h264_settings_follow_the_request_witness :
  let env := {| registry := [vp8enc];
                has_property := fun f p => negb (String.eqb f "rtpvp8pay") |} in
  fst (create_webrtcbin env all_made (Some "A") (Some "h264") fresh_sink) = Raise TypeError.
Proof.
  intros env.
  destruct (X16_h264_settings_follow_the_request env "A" fresh_sink vp8enc [])
    as (Hr & _).
  - split; [exact fresh_sink_wf|]. split; [|reflexivity]. repeat constructor.
  - reflexivity.
  - reflexivity.
  - reflexivity.
  - reflexivity.
  - reflexivity.
  - reflexivity.
  - discriminate.
  - reflexivity.
  - exact Hr.
Defined.

(** ** The exits that precede [self.add(webrtcbin)] *)

Lemma build_branch_no_encoder env o cid c w en pn s :
  encoder_made o = false ->
  build_branch env o cid c w en pn s
  = (Ok None,
     set_trace (fun t => EvRemove (eid w) (is_child (bin s) w)
                         :: EvSetStateNull (eid w)
                         :: EvLogError ("Could not create encoder " ++ en)
                         :: EvMake en (Some ("encoder-" ++ PyStr.format cid)) None :: t)
       (set_bin (graph_remove w) s)).
Proof.
  intros He. unfold build_branch.
  destruct o as [wm em pm qm pg tq qe ep pw]. cbn in He. subst em.
  destruct s as [p wp ba ss vc hs ht sg sgt cv te started cc g tr].
  run_goal. reflexivity.
Qed.

Lemma build_branch_no_payloader env o cid c w en pn s :
  encoder_made o = true ->
  payloader_made o = false ->
  build_branch env o cid c w en pn s
  = (Ok None,
     set_trace (fun t => EvRemove (eid w) (is_child (bin s) w)
                         :: EvSetStateNull (eid w)
                         :: EvSetStateNull (next_id (bin s))
                         :: EvLogError ("Could not create payloader " ++ pn)
                         :: EvMake pn (Some ("payloader-" ++ PyStr.format cid)) None
                         :: EvMake en (Some ("encoder-" ++ PyStr.format cid))
                              (Some (next_id (bin s))) :: t)
       (set_bin (fun g => graph_remove w (graph_fresh g)) s)).
Proof.
  intros He Hp. unfold build_branch.
  destruct o as [wm em pm qm pg tq qe ep pw]. cbn in He, Hp. subst em pm.
  destruct s as [p wp ba ss vc hs ht sg sgt cv te started cc g tr].
  run_goal. reflexivity.
Qed.

Lemma remove_not_child (e : Element) (g : Graph) :
  is_child g e = false ->
  children (graph_remove e g) = children g
  ∧ tee_src_pads (graph_remove e g) = tee_src_pads g
  ∧ links (graph_remove e g) = links g.
Proof.
  intros H. unfold graph_remove. cbn. rewrite H. repeat split.
  unfold is_child in H. induction (children g) as [|c l IH]; [reflexivity|].
  cbn in *. apply orb_false_iff in H as [Hc Hl]. rewrite Hc. cbn. f_equal. apply IH, Hl.
Qed.

Lemma early_exit_removes_nothing env o cid pref s r s' :
  sink_wf s ->
  webrtcbin_made o = true ->
  has_property env "webrtcbin" "stun-server" = true ->
  resolve env (requested_codec cid pref s) (video_codec s) = None
  ∨ encoder_made o = false
  ∨ payloader_made o = false ->
  create_webrtcbin env o cid pref s = (r, s') ->
  r = Ok None
  ∧ (∃ t, trace s' = EvRemove (next_id (bin s)) false
                     :: EvSetStateNull (next_id (bin s)) :: t)
  ∧ children (bin s') = children (bin s)
  ∧ tee_src_pads (bin s') = tee_src_pads (bin s)
  ∧ links (bin s') = links (bin s).
Proof.
  intros Hwf Hwm Hstun Hearly Hrun.
  pose proof (new_webrtcbin_not_child s Hwf) as Hnc.
  destruct (create_webrtcbin_inv _ _ _ _ _ _ _ Hrun)
    as [(Hno & _)|[(_ & Hno & _)|(_ & _ & Hb)]]; try congruence.
  clear Hrun.
  destruct (resolve env _ _) as [[en pn]|] eqn:Hres.
  - destruct Hearly as [?|Hearly]; [discriminate|]. clear Hres.
    revert Hb. generalize (find_messages env (requested_codec cid pref s) (video_codec s)).
    generalize (requested_codec cid pref s). intros c msgs Hb.
    assert (Hbin := bin_prepared cid pref msgs s).
    destruct (encoder_made o) eqn:Hem.
    + destruct Hearly as [?|Hpm]; [discriminate|].
      rewrite (build_branch_no_payloader _ _ _ _ _ _ _ _ Hem Hpm) in Hb.
      injection Hb as <- <-.
      match goal with
      | |- context [trace (set_trace ?f (set_bin ?h ?S))] =>
          destruct (trace_bin_written f h S) as [-> ->]
      end.
      rewrite Hbin, is_child_fresh, Hnc.
      destruct (remove_not_child (new_webrtcbin s) (graph_fresh (graph_fresh (bin s))))
        as (Hc & Hp & Hl); [exact Hnc|].
      rewrite Hc, Hp, Hl.
      split; [reflexivity|]. split; [eexists; reflexivity|]. repeat split.
    + rewrite (build_branch_no_encoder _ _ _ _ _ _ _ _ Hem) in Hb.
      injection Hb as <- <-.
      match goal with
      | |- context [trace (set_trace ?f (set_bin ?h ?S))] =>
          destruct (trace_bin_written f h S) as [-> ->]
      end.
      rewrite Hbin, is_child_fresh, Hnc.
      destruct (remove_not_child (new_webrtcbin s) (graph_fresh (bin s)))
        as (Hc & Hp & Hl); [exact Hnc|].
      rewrite Hc, Hp, Hl.
      split; [reflexivity|]. split; [eexists; reflexivity|]. repeat split.
  - clear Hres Hearly. revert Hb.
    generalize (find_messages env (requested_codec cid pref s) (video_codec s)).
    intros msgs [-> ->]. split; [reflexivity|].
    destruct (unresolved_bin cid pref msgs s Hwf) as (Hc & Hp & Hl & _).
    split; [|auto].
    unfold unresolved.
    match goal with
    | |- context [trace (set_trace ?f (set_bin ?h ?S))] =>
        destruct (trace_bin_written f h S) as [-> _]
    end.
    rewrite is_child_fresh, Hnc. eexists. reflexivity.
Qed.

(** X17.  On the three exits that come before [self.add(webrtcbin)] (no
    encoder resolved, encoder not created, payloader not created) the
    [webrtcbin] handed to [self.remove] was never added: GStreamer answers
    [False], the call returns [None], and the children of the bin, the taps
    and the links are as before. *)
Theorem X17_early_exits_remove_an_element_never_added env o cid pref s r s' :
  sink_wf s ->
  webrtcbin_made o = true ->
  has_property env "webrtcbin" "stun-server" = true ->
  resolve env (requested_codec cid pref s) (video_codec s) = None
  ∨ encoder_made o = false
  ∨ payloader_made o = false ->
  create_webrtcbin env o cid pref s = (r, s') ->
  r = Ok None
  ∧ (∃ t, trace s' = EvRemove (next_id (bin s)) false
                     :: EvSetStateNull (next_id (bin s)) :: t)
  ∧ children (bin s') = children (bin s)
  ∧ tee_src_pads (bin s') = tee_src_pads (bin s)
  ∧ links (bin s') = links (bin s).
Proof. apply early_exit_removes_nothing. Qed.

Lemma X17_early_exits_remove_an_element_never_added_witness :
  let run := create_webrtcbin (every_property []) all_made (Some "A") (Some "vp8")
               fresh_sink in
  fst run = Ok None ∧ children (bin (snd run)) = children (bin fresh_sink).
Proof.
  intros run.
  destruct (X17_early_exits_remove_an_element_never_added (every_property []) all_made
              (Some "A") (Some "vp8") fresh_sink (fst run) (snd run))
    as (Hr & _ & Hc & _).
  - exact fresh_sink_wf.
  - reflexivity.
  - reflexivity.
  - left. vm_compute. reflexivity.
  - vm_compute. reflexivity.
  - split; [exact Hr|exact Hc].
Defined.

(** ** Taps and returned [webrtcbin]s *)

Lemma serve_taps env requests s :
  sink_wf s ->
  List.length (fst (serve env requests s)) = List.length requests
  ∧ (tap_count s + List.length (List.filter returned (fst (serve env requests s)))
     <= tap_count (snd (serve env requests s)))%nat
  ∧ (tap_count (snd (serve env requests s)) <= tap_count s + List.length requests)%nat.
Proof.
  revert s. induction requests as [|q rest IH]; intros s Hwf.
  - cbn. lia.
  - cbn [serve].
    destruct (create_webrtcbin env (answers q) (client_id q) (codec_preference q) s)
      as [r s1] eqn:Hrun.
    specialize (IH s1 (create_webrtcbin_wf _ _ _ _ _ _ _ Hwf Hrun)).
    pose proof (create_webrtcbin_outcome _ _ _ _ _ _ _ Hwf Hrun) as Hout.
    destruct (serve env rest s1) as [rs s2]. cbn [fst snd] in *.
    destruct IH as (Hlen & Hlow & Hup).
    cbn [List.length List.filter]. split; [lia|].
    destruct Hout as [[Hpads Hnot]|(Htaps & _)].
    + assert (Hr : returned r = false).
      { destruct r as [[w|]|]; try reflexivity. exfalso. apply (Hnot w). reflexivity. }
      rewrite Hr. unfold tap_count in *. rewrite Hpads in *. lia.
    + destruct (returned r); cbn [List.length]; lia.
Qed.

(** X18.  Over any sequence of builds, whatever their outcomes, the taps of
    the tee never decrease; they grow by at least the number of [webrtcbin]s
    returned and by at most the number of requests. *)
Theorem X18_taps_bound_the_returned_webrtcbins env requests s :
  sink_wf s ->
  let run := serve env requests s in
  (tap_count s + List.length (List.filter returned (fst run)) <= tap_count (snd run))%nat
  ∧ (tap_count (snd run) <= tap_count s + List.length requests)%nat.
Proof. intros Hwf run. apply (serve_taps env requests s Hwf). Qed.

Lemma X18_taps_bound_the_returned_webrtcbins_witness :
  let env := {| registry := [x264enc];
                has_property := fun _ p => negb (String.eqb p "config-interval") |} in
  let requests :=
    [ {| answers := all_made; client_id := Some "A"; codec_preference := Some "h264" |};
      {| answers := no_queue; client_id := Some "B"; codec_preference := Some "h264" |} ] in
  (tap_count (snd (serve env requests fresh_sink)) <= 2)%nat.
Proof.
  intros env requests.
  destruct (X18_taps_bound_the_returned_webrtcbins env requests fresh_sink fresh_sink_wf)
    as [_ Hup].
  exact Hup.
Defined.

(** ** The STUN server of a new [webrtcbin] *)

Lemma build_branch_trace_keeps env o cid c w en pn s r s' e :
  build_branch env o cid c w en pn s = (r, s') ->
  In e (trace s) -> In e (trace s').
Proof.
  intros Hrun Hin.
  unfold build_branch in *.
  destruct o as [wm em pm qm pg tq qe ep pw].
  destruct s as [p wp ba ss vc hs ht sg sgt cv te started cc g tr].
  cbn [trace] in Hin.
  exec Hrun.
  all: inversion Hrun; subst; clear Hrun.
  all: cbn [trace].
  all: repeat first [exact Hin | right | apply in_or_app; right].
Qed.

Lemma stun_server_applied env o cid pref s r s' :
  webrtcbin_made o = true ->
  create_webrtcbin env o cid pref s = (r, s') ->
  In (EvSetProperty (next_id (bin s)) "stun-server" (VStr (stun_server s))
        (has_property env "webrtcbin" "stun-server"))
     (trace s').
Proof.
  intros Hwm Hrun.
  destruct (create_webrtcbin_inv _ _ _ _ _ _ _ Hrun)
    as [(Hno & _)|[(_ & -> & _ & ->)|(_ & -> & Hb)]]; [congruence| |].
  - destruct s; left; reflexivity.
  - revert Hb. generalize (find_messages env (requested_codec cid pref s) (video_codec s)).
    intros msgs Hb.
    assert (Hprep : In (EvSetProperty (next_id (bin s)) "stun-server" (VStr (stun_server s))
                          true)
                       (trace (prepared cid pref msgs s))).
    { destruct s as [p wp ba ss vc hs ht sg sgt cv te started cc g t].
      unfold prepared, set_trace, set_client_codecs, set_bin. cbn [trace bin stun_server].
      apply in_or_app. right. left. reflexivity. }
    destruct (resolve env _ _) as [[en pn]|].
    + eapply build_branch_trace_keeps; [exact Hb|exact Hprep].
    + destruct Hb as [_ ->]. unfold unresolved.
      match goal with
      | |- context [trace (set_trace ?f (set_bin ?h ?S))] =>
          destruct (trace_bin_written f h S) as [-> _]
      end.
      right. right. right. exact Hprep.
Qed.

(** X19.  The STUN server written with [do_set_property] is the one set on
    the [webrtcbin] of the next build, whatever the outcome of that build,
    as soon as the [webrtcbin] could be created. *)
Theorem X19_configured_stun_server_is_applied env o cid pref v s r s' :
  webrtcbin_made o = true ->
  create_webrtcbin env o cid pref (snd (do_set_property "stun-server" (VStr v) s)) = (r, s') ->
  In (EvSetProperty (next_id (bin s)) "stun-server" (VStr v)
        (has_property env "webrtcbin" "stun-server"))
     (trace s').
Proof.
  intros Hwm Hrun. apply (stun_server_applied _ _ _ _ _ _ _ Hwm) in Hrun.
  destruct s. exact Hrun.
Qed.

Lemma X19_configured_stun_server_is_applied_witness :
  let run := create_webrtcbin (every_property []) all_made None None
               (snd (do_set_property "stun-server" (VStr "stun://example.org:3478")
                       fresh_sink)) in
  In (EvSetProperty 2 "stun-server" (VStr "stun://example.org:3478") true) (trace (snd run)).
Proof.
  intros run.
  apply (X19_configured_stun_server_is_applied (every_property []) all_made None None
           "stun://example.org:3478" fresh_sink (fst run) (snd run)).
  - reflexivity.
  - vm_compute. reflexivity.
Defined.

(** ** The invariant of the sink *)

Lemma auto_names_fresh (g : Graph) : auto_names_used g -> auto_names_used (graph_fresh g).
Proof.
  unfold auto_names_used. cbn [children next_id graph_fresh]. intros H.
  eapply Forall_impl; [exact H|]. intros c. cbn. destruct (ename c); [lia|trivial].
Qed.

Lemma auto_names_add (e : Element) (g : Graph) :
  match ename e with AutoName i => (i < next_id g)%nat | GivenName _ => True end ->
  auto_names_used g -> auto_names_used (graph_add e g).
Proof.
  unfold auto_names_used. cbn [children next_id graph_add]. intros He H.
  destruct (name_taken g e); [exact H|].
  apply Forall_app. split; [exact H|]. constructor; [exact He|constructor].
Qed.

Lemma auto_names_remove (e : Element) (g : Graph) :
  auto_names_used g -> auto_names_used (graph_remove e g).
Proof.
  unfold auto_names_used. cbn [children next_id graph_remove]. intros H.
  apply Forall_filter_keep. exact H.
Qed.

Lemma auto_names_add_pad (p : nat) (g : Graph) :
  auto_names_used g -> auto_names_used (graph_add_pad p g).
Proof. exact (fun H => H). Qed.

Lemma auto_names_release_pad (p : nat) (g : Graph) :
  auto_names_used g -> auto_names_used (graph_release_pad p g).
Proof. exact (fun H => H). Qed.

Lemma auto_names_link (ok : bool) (a b : nat) (g : Graph) :
  auto_names_used g -> auto_names_used (graph_link ok a b g).
Proof. exact (fun H => H). Qed.

Lemma auto_names_unlink (a b : nat) (g : Graph) :
  auto_names_used g -> auto_names_used (graph_unlink a b g).
Proof. exact (fun H => H). Qed.

Ltac auto_names_tac :=
  repeat first
    [ assumption
    | apply auto_names_remove | apply auto_names_release_pad | apply auto_names_unlink
    | apply auto_names_link | apply auto_names_add_pad | apply auto_names_fresh
    | apply auto_names_add; [cbn; first [lia | trivial]|] ].

Lemma build_branch_auto_names env o cid c m en pn s r s' :
  let w := {| eid := m; efactory := "webrtcbin"; ename := AutoName m |} in
  (m < next_id (bin s))%nat ->
  auto_names_used (bin s) ->
  build_branch env o cid c w en pn s = (r, s') ->
  auto_names_used (bin s').
Proof.
  intros w Hw Han Hrun. subst w.
  unfold build_branch in *.
  destruct o as [wm em pm qm pg tq qe ep pw].
  destruct s as [p wp ba ss vc hs ht sg sgt cv te started cc g tr].
  cbn [bin] in *.
  exec Hrun.
  all: inversion Hrun; subst; clear Hrun.
  all: cbn [bin].
  all: auto_names_tac.
Qed.

Lemma create_webrtcbin_auto_names env o cid pref s r s' :
  auto_names_used (bin s) ->
  create_webrtcbin env o cid pref s = (r, s') ->
  auto_names_used (bin s').
Proof.
  intros Han Hrun.
  destruct (create_webrtcbin_inv _ _ _ _ _ _ _ Hrun)
    as [(_ & _ & ->)|[(_ & _ & _ & ->)|(_ & _ & Hres)]].
  - destruct s; exact Han.
  - destruct s; apply auto_names_fresh; exact Han.
  - destruct (resolve env _ _) as [[en pn]|].
    + eapply build_branch_auto_names; [| |exact Hres].
      * rewrite bin_prepared. cbn. lia.
      * rewrite bin_prepared. apply auto_names_fresh, Han.
    + destruct Hres as [_ ->]. rewrite bin_unresolved.
      apply auto_names_remove, auto_names_fresh, Han.
Qed.

Lemma is_child_kept (g g' : Graph) (x : Element) :
  kept g g' -> is_child g x = true -> is_child g' x = true.
Proof.
  intros (Hc & _) H. unfold is_child in *.
  apply existsb_exists in H as (c & Hin & Hc'). apply existsb_exists.
  exists c. split; [apply Hc, Hin|exact Hc'].
Qed.

Lemma create_webrtcbin_sink_inv env o cid pref s r s' :
  sink_inv s ->
  create_webrtcbin env o cid pref s = (r, s') ->
  sink_inv s'.
Proof.
  intros (Hwf & Han & Htee) Hrun. split; [|split].
  - eapply create_webrtcbin_wf; eassumption.
  - eapply create_webrtcbin_auto_names; eassumption.
  - assert (Ht : tee s' = tee s).
    { rewrite (create_webrtcbin_frame _ _ _ _ _ _ _ Hrun). destruct s; reflexivity. }
    rewrite Ht. eapply is_child_kept; [|exact Htee].
    eapply create_webrtcbin_kept; eassumption.
Qed.

Lemma fresh_sink_inv : sink_inv fresh_sink.
Proof.
  split; [exact fresh_sink_wf|]. split; [|reflexivity]. repeat constructor.
Qed.

Lemma operate_sink_inv env op s : sink_inv s -> sink_inv (operate env op s).
Proof.
  intros Hinv. destruct op as [o cid pref|name value|start parent tr]; cbn [operate].
  - destruct (create_webrtcbin env o cid pref s) as [r s'] eqn:Hrun.
    exact (create_webrtcbin_sink_inv _ _ _ _ _ _ _ Hinv Hrun).
  - destruct s as [p wp ba ss vc hs ht sg sgt cv te started cc g t].
    unfold do_set_property.
    destruct value;
      repeat match goal with
      | |- context [String.eqb ?a ?b] => destruct (String.eqb a b)
      end; exact Hinv.
  - destruct s as [p wp ba ss vc hs ht sg sgt cv te started cc g t].
    unfold_lifecycle.
    destruct tr, started, start, hs, sg; run_goal; exact Hinv.
Qed.

Lemma operate_all_sink_inv env ops s : sink_inv s -> sink_inv (operate_all env ops s).
Proof.
  revert s. induction ops as [|op rest IH]; intros s Hinv; [exact Hinv|].
  cbn [operate_all]. apply IH, operate_sink_inv, Hinv.
Qed.

(** X20.  The invariant of the sink holds when [__init__] returns and
    after any history of builds (whatever their outcomes), property writes
    and state changes: identities in the bin are below the next one, child
    names are unique, automatic names are those of identities handed out,
    and the tee is a child of the bin. *)
Theorem X20_invariant_of_every_history env convert_made tee_made ops s :
  new_sink convert_made tee_made = Ok s ->
  sink_inv (operate_all env ops s).
Proof.
  intros Hnew. apply operate_all_sink_inv.
  unfold new_sink in Hnew. destruct convert_made, tee_made; try discriminate.
  injection Hnew as <-. exact fresh_sink_inv.
Qed.

Lemma X20_invariant_of_every_history_witness :
  sink_inv (operate_all (every_property [vp8enc])
              [ ChangeState StartOK SUCCESS NULL_TO_READY;
                Build all_made (Some "A") (Some "vp8");
                SetProperty "video-codec" (VStr "h264");
                Build no_queue (Some "B") None;
                ChangeState StartOK SUCCESS READY_TO_NULL ]
              fresh_sink).
Proof.
  apply (X20_invariant_of_every_history (every_property [vp8enc]) true true).
  reflexivity.
Defined.

(** ** The servers, once more *)

Lemma stop_servers_when_calls_return (s : Sink) :
  stop_servers_raising StopOK s = stop_servers s.
Proof. reflexivity. Qed.

Lemma do_change_state_when_calls_return start parent tr (s : Sink) :
  do_change_state_raising start StopOK parent tr s = do_change_state start parent tr s.
Proof. destruct tr; reflexivity. Qed.

(** X5.  [stop_servers] calls [shutdown()] only on a set HTTP handle and
    [stop()] only on a set signaling handle, and it raises only when one of
    these calls does.  When it returns, both handles are cleared and nothing
    else is changed; a second call then makes no call at all, so it returns
    and leaves the sink as it is, whatever the servers would answer. *)
Theorem X5_stop_servers_is_idempotent stop again (s : Sink) :
  let run := stop_servers_raising stop s in
  (fst run = Ok tt
   ∨ (stop = ShutdownRaises ∧ is_Some (http_server s)
      ∧ run = (Raise (Exception "shutdown"), s))
   ∨ (stop = SignalingStopRaises ∧ is_Some (signaling s)
      ∧ fst run = Raise (Exception "stop")
      ∧ http_server (snd run) = None
      ∧ signaling (snd run) = signaling s))
  ∧ (fst run = Ok tt ->
     http_server (snd run) = None
     ∧ signaling (snd run) = None
     ∧ servers_started (snd run) = servers_started s
     ∧ bin (snd run) = bin s
     ∧ client_codecs (snd run) = client_codecs s
     ∧ trace (snd run) = (stop_events s ++ trace s)%list
     ∧ stop_servers_raising again (snd run) = (Ok tt, snd run)).
Proof.
  destruct s as [p wp ba ss vc hs ht sg sgt cv te started cc g t].
  unfold stop_servers_raising, stop_events.
  destruct stop, hs as [h|], sg as [g'|]; run_goal; cbn [fst snd]; (split; [|intros Hret]).
  all: try discriminate Hret.
  all: try (left; reflexivity).
  all: try (right; left; repeat split; (reflexivity || (eexists; reflexivity))).
  all: try (right; right; repeat split; (reflexivity || (eexists; reflexivity))).
  all: repeat split; reflexivity.
Qed.

Lemma X5_stop_servers_is_idempotent_witness :
  let s := change_states [activate] fresh_sink in
  let run := stop_servers_raising StopOK s in
  http_server (snd run) = None
  ∧ signaling (snd run) = None
  ∧ stop_servers_raising ShutdownRaises (snd run) = (Ok tt, snd run).
Proof.
  intros s run.
  destruct (X5_stop_servers_is_idempotent StopOK ShutdownRaises s) as [_ Hret].
  destruct (Hret eq_refl) as (Hh & Hs & _ & _ & _ & _ & Hagain).
  split; [exact Hh|]. split; [exact Hs|exact Hagain].
Defined.

(** X6.  [do_change_state] ends in one of three ways.  It asks the parent
    class last and returns what [Gst.Bin.do_change_state] returns; or, on
    NULL_TO_READY with the servers stopped, an exception of [start_servers]
    is caught and answered FAILURE with the flag still cleared; or, on
    READY_TO_NULL with the servers started, an exception of [stop_servers]
    is not caught and leaves [do_change_state] with the flag still set.  In
    the last two the parent class is not asked.  In all three the bin,
    [client_codecs] and the five properties are unchanged. *)
Theorem X6_do_change_state_outcomes start stop parent tr (s : Sink) :
  let run := do_change_state_raising start stop parent tr s in
  ((∃ before, run = parent_do_change_state parent tr before)
   ∨ (((fst run = Ok FAILURE
        ∧ tr = NULL_TO_READY ∧ start ≠ StartOK
        ∧ servers_started s = false ∧ servers_started (snd run) = false)
       ∨ ((∃ e, fst run = Raise e)
          ∧ tr = READY_TO_NULL ∧ stop ≠ StopOK
          ∧ servers_started s = true ∧ servers_started (snd run) = true))
      ∧ ∃ evs, trace (snd run) = (evs ++ trace s)%list
               ∧ ∀ t a, ¬ In (EvParentChangeState t a) evs))
  ∧ bin (snd run) = bin s
  ∧ client_codecs (snd run) = client_codecs s
  ∧ (port (snd run), ws_port (snd run), bind_address (snd run),
     stun_server (snd run), video_codec (snd run))
    = (port s, ws_port s, bind_address s, stun_server s, video_codec s).
Proof.
  destruct s as [p wp ba ss vc hs ht sg sgt cv te started cc g t].
  unfold do_change_state_raising, stop_servers_raising, start_servers.
  destruct tr.
  2-5: run_goal; (split; [|repeat split; reflexivity]); left;
       match goal with
       | |- ∃ before, (_, ?final) = _ => exists (set_trace (@List.tl Event) final)
       end; reflexivity.
  - destruct started, start; run_goal; cbn [fst snd];
      (split; [|repeat split; reflexivity]).
    all: try (left;
              match goal with
              | |- ∃ before, (_, ?final) = _ => exists (set_trace (@List.tl Event) final)
              end; reflexivity).
    all: right; (split; [left; repeat split; (reflexivity || discriminate)|]).
    + exists [EvLogError "Failed to start servers"; EvBind ba p false].
      split; [reflexivity|]. intros tr a [H|[H|[]]]; discriminate H.
    + exists [EvLogError "Failed to start servers"; EvSignalingStart ba wp false;
              EvHttpServe; EvBind ba p true].
      split; [reflexivity|]. intros tr a [H|[H|[H|[H|[]]]]]; discriminate H.
  - destruct started, stop, hs as [h|], sg as [g'|]; run_goal; cbn [fst snd];
      (split; [|repeat split; reflexivity]).
    all: try (left;
              match goal with
              | |- ∃ before, (_, ?final) = _ => exists (set_trace (@List.tl Event) final)
              end; reflexivity).
    all: right; (split; [right; repeat split;
                         (reflexivity || discriminate || (eexists; reflexivity))|]).
    all: first
      [ exists []; split; [reflexivity|intros tr a []]
      | exists [EvHttpShutdown]; split; [reflexivity|];
        intros tr a [H|[]]; discriminate H ].
Qed.

Lemma X6_do_change_state_outcomes_witness :
  let s := change_states [activate] fresh_sink in
  let run := do_change_state_raising StartOK ShutdownRaises SUCCESS READY_TO_NULL s in
  fst run = Raise (Exception "shutdown")
  ∧ servers_started (snd run) = true
  ∧ bin (snd run) = bin s.
Proof.
  intros s run.
  destruct (X6_do_change_state_outcomes StartOK ShutdownRaises SUCCESS READY_TO_NULL s)
    as ([[before Hparent]|[[(Hfail & _)|(_ & _ & _ & _ & Hflag)] _]] & Hbin & _).
  - apply (f_equal fst) in Hparent. discriminate Hparent.
  - discriminate Hfail.
  - split; [reflexivity|]. split; [exact Hflag|exact Hbin].
Defined.

(** X7.  A request for NULL_TO_READY on a stopped sink whose servers start
    binds them to the configured address and ports and sets the flag; this
    holds whatever the parent class answers afterwards, also FAILURE. *)
Theorem X7_activation_binds_configured_address parent (s : Sink) :
  servers_started s = false ->
  let run := do_change_state StartOK parent NULL_TO_READY s in
  fst run = Ok parent
  ∧ servers_started (snd run) = true
  ∧ http_server (snd run) = Some (bind_address s, port s)
  ∧ signaling (snd run) = Some (bind_address s, ws_port s)
  ∧ trace (snd run)
    = EvParentChangeState NULL_TO_READY parent
      :: EvSignalingStart (bind_address s) (ws_port s) true
      :: EvHttpServe
      :: EvBind (bind_address s) (port s) true
      :: trace s.
Proof.
  intros Hstopped.
  destruct s as [p wp ba ss vc hs ht sg sgt cv te started cc g t].
  cbn in Hstopped. subst started. unfold_lifecycle. run_goal.
  repeat split; reflexivity.
Qed.

Lemma X7_activation_binds_configured_address_witness :
  let s := snd (do_set_property "port" (VInt 9000) fresh_sink) in
  let run := do_change_state StartOK FAILURE NULL_TO_READY s in
  fst run = Ok FAILURE
  ∧ servers_started (snd run) = true
  ∧ http_server (snd run) = Some ("0.0.0.0", 9000)
  ∧ signaling (snd run) = Some ("0.0.0.0", 8081).
Proof.
  intros s run.
  destruct (X7_activation_binds_configured_address FAILURE s) as (H1 & H2 & H3 & H4 & _).
  - reflexivity.
  - repeat split; assumption.
Defined.

(** X8.  Activation followed by deactivation brings a stopped sink back to
    where it was, the trace apart: flag cleared, handles cleared, bin,
    properties and [client_codecs] as before. *)
Theorem X8_activate_then_deactivate p1 p2 start2 (s : Sink) :
  servers_started s = false ->
  http_server s = None ->
  http_thread s = false ->
  signaling s = None ->
  signaling_thread s = false ->
  let s1 := snd (do_change_state StartOK p1 NULL_TO_READY s) in
  let s2 := snd (do_change_state start2 p2 READY_TO_NULL s1) in
  s2 = set_trace
         (fun t => EvParentChangeState READY_TO_NULL p2
                   :: EvSignalingStop :: EvHttpShutdown
                   :: EvParentChangeState NULL_TO_READY p1
                   :: EvSignalingStart (bind_address s) (ws_port s) true
                   :: EvHttpServe
                   :: EvBind (bind_address s) (port s) true :: t) s.
Proof.
  intros H1 H2 H3 H4 H5.
  destruct s as [p wp ba ss vc hs ht sg sgt cv te started cc g t].
  cbn in H1, H2, H3, H4, H5. subst. unfold_lifecycle. run_goal. reflexivity.
Qed.

Lemma X8_activate_then_deactivate_witness :
  let s1 := snd (do_change_state StartOK SUCCESS NULL_TO_READY fresh_sink) in
  let s2 := snd (do_change_state StartOK SUCCESS READY_TO_NULL s1) in
  s2 = set_trace
         (fun t => EvParentChangeState READY_TO_NULL SUCCESS
                   :: EvSignalingStop :: EvHttpShutdown
                   :: EvParentChangeState NULL_TO_READY SUCCESS
                   :: EvSignalingStart (bind_address fresh_sink) (ws_port fresh_sink) true
                   :: EvHttpServe
                   :: EvBind (bind_address fresh_sink) (port fresh_sink) true :: t)
         fresh_sink.
Proof.
  apply (X8_activate_then_deactivate SUCCESS SUCCESS StartOK fresh_sink); reflexivity.
Defined.
